(** * ai-orchestrator: routing, provider fallback and cost accounting

    A shallow embedding of the TypeScript sources

    - [model-registry.ts]  (static catalogue, [estimateCost]),
    - [providers.ts]       (the three adapters and [ProviderManager]),
    - [router.ts]          ([IntelligentRouter]),
    - [executor.ts]        ([TimingTracker], [RouteExecutor]),
    - [index.ts]           ([Orchestrator]),

    followed by the properties proved about them.

    Conventions.  Counts, durations and the statistics of the router are
    exact rationals ([Qc]), with [NaN] added where the sources can
    manufacture it (type [JsNum]).  Where the sources' results depend on
    rounding, numbers are IEEE 754 binary64 values ([F64.t]): the numbers
    [JSON.parse] reads and the cost estimates.  Program texts, queries and
    prompts are sequences of 8-bit characters, each standing for the
    UTF-16 code unit of the same value; the strings [JSON.parse] builds
    are sequences of 16-bit code units.  Asynchronous code is sequential
    code in the monad [M]: a remote call suspends and resumes, nothing
    else runs in between. *)

From Stdlib Require Import ZArith QArith Qcanon String Ascii List Bool Lia.
From Stdlib Require Import SpecFloat.
Import ListNotations.

Set Implicit Arguments.
Unset Strict Implicit.

Open Scope string_scope.
Open Scope Z_scope.

(* ===================================================================== *)
(** * Binary64 numbers                                                     *)
(* ===================================================================== *)

Abbreviation number := Qc (only parsing).

(** IEEE 754 binary64 with round-to-nearest-even, on the bit-level
    specification of the Standard Library.  A finite value
    [S754_finite s m e] is [(-1)^s * m * 2^e]. *)
Module F64.

Definition t : Type := spec_float.

Definition prec : Z := 53.
Definition emax : Z := 1024.

Definition nan : t := S754_nan.
Definition zero : t := S754_zero false.

Definition add : t -> t -> t := SFadd prec emax.
Definition mul : t -> t -> t := SFmul prec emax.
Definition div : t -> t -> t := SFdiv prec emax.

(** The binary64 value nearest to the integer [z]. *)
Definition of_Z (z : Z) : t := binary_normalize prec emax z 0 false.

(** The binary64 value nearest to the fraction [n / d]: the correctly
    rounded quotient of the two integers.  [negative] is the sign of a
    zero numerator. *)
Definition of_ratio (negative : bool) (n : Z) (d : positive) : t :=
  match n with
  | Z0 => S754_zero negative
  | Zpos p => SFdiv prec emax (S754_finite false p 0) (S754_finite false d 0)
  | Zneg p => SFdiv prec emax (S754_finite true p 0) (S754_finite false d 0)
  end.

(** The binary64 value nearest to a rational: the rational itself when
    it is a binary64 number. *)
Definition of_number (x : number) : t := of_ratio false (Qnum x) (Qden x).

(** The rational a finite value is; [0] for the others. *)
Definition rational (x : t) : number :=
  match x with
  | S754_finite s m e =>
      let n := if s then Zneg m else Zpos m in
      if 0 <=? e then Q2Qc (inject_Z (n * 2 ^ e))
      else Q2Qc (Qmake n (Z.to_pos (2 ^ (- e))))
  | _ => Q2Qc 0
  end.

(** The comparison of IEEE 754: none with a NaN, zeros of both signs
    are equal, finite values compare as the rationals they are. *)
Definition compare (a b : t) : option comparison :=
  match a, b with
  | S754_nan, _ | _, S754_nan => None
  | S754_infinity s1, S754_infinity s2 =>
      Some (match s1, s2 with
            | true, false => Lt
            | false, true => Gt
            | _, _ => Eq
            end)
  | S754_infinity s, _ => Some (if s then Lt else Gt)
  | _, S754_infinity s => Some (if s then Gt else Lt)
  | _, _ => Some (rational a ?= rational b)%Qc
  end.

Definition two : t := of_Z 2.

(** A token count: zero, or a positive normal number from [1] up to
    [2^953] (every count a provider can report is one). *)
Definition is_count (x : t) : bool :=
  match x with
  | S754_zero false => true
  | S754_finite false m e =>
      (Zpos (digits2_pos m) =? 53) && (-52 <=? e) && (e <=? 900)
  | _ => false
  end.

(** The same mantissa one exponent up. *)
Definition next_exponent (x : t) : t :=
  match x with
  | S754_finite s m e => S754_finite s m (e + 1)
  | _ => x
  end.

(** A positive normal number with exponent between [lo] and [hi]. *)
Definition normal (x : t) (lo hi : Z) : Prop :=
  exists m e,
    x = S754_finite false m e /\ Zpos (digits2_pos m) = 53 /\ lo <= e <= hi.

(** A price per million tokens of the table's order of magnitude. *)
Definition is_price (x : t) : bool :=
  match x with
  | S754_finite false m e =>
      (Zpos (digits2_pos m) =? 53) && (-60 <=? e) && (e <=? -40)
  | _ => false
  end.

End F64.

(* ===================================================================== *)
(** * JavaScript numbers                                                   *)
(* ===================================================================== *)

(** An integer as a [number]. *)
Definition Zn (z : Z) : number := Q2Qc (inject_Z z).

(** The decimal literal [n/d] of the sources, e.g. [dec 95 100] for
    [0.95]: the binary64 number it denotes, as the rational that number
    is. *)
Definition dec (n : Z) (d : positive) : number :=
  F64.rational (F64.of_ratio false n d).

Definition num_eqb (a b : number) : bool := Qeq_bool a b.
Definition num_leb (a b : number) : bool := Qle_bool a b.

(** [x || d] on a number that cannot be [NaN]: [0] is falsy. *)
Definition num_or (x d : number) : number := if num_eqb x (Zn 0) then d else x.

(** A number that may be [NaN]. *)
Inductive JsNum := NaN | Num (q : number).

(** [Math.min] and [Math.max] on two arguments: [NaN] is contagious,
    and the negative zero is the smaller of the two zeros. *)
Definition Math_min (a b : F64.t) : F64.t :=
  match F64.compare a b with
  | None => F64.nan
  | Some Lt => a
  | Some Gt => b
  | Some Eq => match a with S754_zero true => a | _ => b end
  end.

Definition Math_max (a b : F64.t) : F64.t :=
  match F64.compare a b with
  | None => F64.nan
  | Some Lt => b
  | Some Gt => a
  | Some Eq => match a with S754_zero false => a | _ => b end
  end.

(** A binary64 number among the [JsNum]: a finite one is the rational it
    is.  An infinity has no place there; the sources hand over clamped
    values only, and these are never infinite. *)
Definition number_of (x : F64.t) : JsNum :=
  match x with
  | S754_nan | S754_infinity _ => NaN
  | _ => Num (F64.rational x)
  end.

(** Arithmetic on [JsNum].  Division is only ever applied to a positive
    divisor in the sources, so the quotient by zero (an infinity or [NaN]
    in JavaScript) is left as [NaN] here. *)
Definition jadd (a b : JsNum) : JsNum :=
  match a, b with Num x, Num y => Num (x + y)%Qc | _, _ => NaN end.
Definition jmul (a b : JsNum) : JsNum :=
  match a, b with Num x, Num y => Num (x * y)%Qc | _, _ => NaN end.
Definition jdiv (a b : JsNum) : JsNum :=
  match a, b with
  | Num x, Num y => if num_eqb y (Zn 0) then NaN else Num (x / y)%Qc
  | _, _ => NaN
  end.

(** [x || d] on a [JsNum]: [0] and [NaN] are falsy. *)
Definition jnum_or (x : JsNum) (d : number) : number :=
  match x with
  | NaN => d
  | Num q => num_or q d
  end.

(** [Math.ceil(n / 4)] for a length [n]. *)
Definition ceil_div4 (n : nat) : Z := (Z.of_nat n + 3) / 4.

(* ===================================================================== *)
(** * JavaScript strings                                                   *)
(* ===================================================================== *)

Definition code (c : ascii) : N := N_of_ascii c.

Definition nl : string := String (ascii_of_N 10) "".
Definition dquote : ascii := ascii_of_N 34.

(** Rewrites every apostrophe into a double quote: lets JSON texts and
    quoted prompts be written down legibly. *)
Fixpoint q (s : string) : string :=
  match s with
  | EmptyString => EmptyString
  | String c r => String (if Ascii.eqb c "'" then dquote else c) (q r)
  end.

(** [\s] of a regular expression and the white space of [trim], within the
    8-bit range: TAB, LF, VT, FF, CR, SP, NBSP. *)
Definition is_space (c : ascii) : bool :=
  let n := code c in
  ((9 <=? n) && (n <=? 13) || (n =? 32) || (n =? 160))%N.

Definition lower_char (c : ascii) : ascii :=
  let n := code c in
  if ((65 <=? n) && (n <=? 90))%N then ascii_of_N (n + 32)
  else if ((192 <=? n) && (n <=? 222) && negb (n =? 215))%N then ascii_of_N (n + 32)
  else c.

Fixpoint toLowerCase (s : string) : string :=
  match s with
  | EmptyString => EmptyString
  | String c r => String (lower_char c) (toLowerCase r)
  end.

Fixpoint includes (s sub : string) : bool :=
  prefix sub s ||
  match s with
  | EmptyString => false
  | String _ r => includes r sub
  end.

Definition startsWith (s p : string) : bool := prefix p s.

Fixpoint trimStart (s : string) : string :=
  match s with
  | String c r => if is_space c then trimStart r else s
  | EmptyString => s
  end.

(** [trimEnd]: a suffix made of white space only is dropped. *)
Fixpoint trimEnd (s : string) : string :=
  match s with
  | EmptyString => EmptyString
  | String c r =>
      match trimEnd r with
      | EmptyString => if is_space c then EmptyString else String c EmptyString
      | t => String c t
      end
  end.

Definition trim (s : string) : string := trimEnd (trimStart s).

(** [s.split(/\s+/)]: [cur] is the piece being read (reversed), [in_sep]
    tells that the previous character belonged to a separator. *)
Fixpoint rev_string (acc s : string) : string :=
  match s with
  | EmptyString => acc
  | String c r => rev_string (String c acc) r
  end.

Fixpoint split_ws_from (in_sep : bool) (cur s : string) : list string :=
  match s with
  | EmptyString => [rev_string "" cur]
  | String c r =>
      if is_space c then
        if in_sep then split_ws_from true cur r
        else rev_string "" cur :: split_ws_from true "" r
      else split_ws_from false (String c cur) r
  end.

Definition split_ws (s : string) : list string := split_ws_from false "" s.

(** [arr.join('')]. *)
Definition join (l : list string) : string := fold_right append "" l.

(** [arr.join(', ')]. *)
Fixpoint join_comma (l : list string) : string :=
  match l with
  | [] => ""
  | [x] => x
  | x :: r => x ++ ", " ++ join_comma r
  end.

(** [arr.some(p)]. *)
Definition some {A} (p : A -> bool) (l : list A) : bool := existsb p l.

(* ===================================================================== *)
(** * JSON values and [JSON.parse]                                         *)
(* ===================================================================== *)

(** A string as [JSON.parse] builds it: a sequence of UTF-16 code
    units. *)
Definition ustring : Type := list N.

(** The code units of a text written with 8-bit characters. *)
Fixpoint units (s : string) : ustring :=
  match s with
  | EmptyString => []
  | String c r => code c :: units r
  end.

Fixpoint ustring_eqb (a b : ustring) : bool :=
  match a, b with
  | [], [] => true
  | x :: a', y :: b' => N.eqb x y && ustring_eqb a' b'
  | _, _ => false
  end.

(** A JavaScript value as [JSON.parse] builds it, plus [undefined] for a
    property that is absent.  An object keeps its members in source order;
    a later duplicate key wins (see [get]). *)
#[warnings="-register-all"]
Inductive JsValue :=
| JUndefined
| JNull
| JBool (b : bool)
| JNum (x : F64.t)
| JStr (s : ustring)
| JArr (items : list JsValue)
| JObj (members : list (ustring * JsValue)).

(** The string value with the given text. *)
Definition JText (s : string) : JsValue := JStr (units s).

(** [obj[key]] on own properties. *)
Fixpoint lookup_last (key : ustring) (members : list (ustring * JsValue))
  : JsValue :=
  match members with
  | [] => JUndefined
  | (k, v) :: r =>
      match lookup_last key r with
      | JUndefined => if ustring_eqb k key then v else JUndefined
      | found => found
      end
  end.

(** [v.key] for a key none of the prototypes has. *)
Definition get (v : JsValue) (key : string) : JsValue :=
  match v with
  | JObj members => lookup_last (units key) members
  | _ => JUndefined
  end.

(** Truthiness of the values above. *)
Definition truthy (v : JsValue) : bool :=
  match v with
  | JUndefined | JNull => false
  | JBool b => b
  | JNum (S754_zero _) | JNum S754_nan => false
  | JNum _ => true
  | JStr [] => false
  | JStr _ => true
  | JArr _ | JObj _ => true
  end.

Module Json.

Definition is_ws (c : ascii) : bool :=
  let n := code c in ((n =? 9) || (n =? 10) || (n =? 13) || (n =? 32))%N.

Fixpoint skip_ws (s : string) : string :=
  match s with
  | String c r => if is_ws c then skip_ws r else s
  | EmptyString => s
  end.

Definition digit (c : ascii) : option Z :=
  let n := Z.of_N (code c) in
  if (48 <=? n) && (n <=? 57) then Some (n - 48) else None.

Definition hex_digit (c : ascii) : option N :=
  let n := code c in
  if ((48 <=? n) && (n <=? 57))%N then Some (n - 48)%N
  else if ((65 <=? n) && (n <=? 70))%N then Some (n - 55)%N
  else if ((97 <=? n) && (n <=? 102))%N then Some (n - 87)%N
  else None.

(** Reads a run of decimal digits onto [acc]; [cnt] counts them. *)
Fixpoint digits (s : string) (acc : Z) (cnt : nat) : Z * nat * string :=
  match s with
  | String c r =>
      match digit c with
      | Some d => digits r (10 * acc + d) (S cnt)
      | None => (acc, cnt, s)
      end
  | EmptyString => (acc, cnt, s)
  end.

(** The binary64 number nearest to [m * 10^e], of the given sign. *)
Definition scale10 (negative : bool) (m e : Z) : F64.t :=
  let n := if negative then - m else m in
  if 0 <=? e then F64.of_ratio negative (n * 10 ^ e) 1
  else F64.of_ratio negative n (Z.to_pos (10 ^ (- e))).

(** Integer part: a single [0], or a non-zero digit and more digits. *)
Definition int_part (s : string) : option (Z * string) :=
  match s with
  | String c r =>
      match digit c with
      | Some d =>
          if d =? 0 then Some (0, r)
          else let '(v, _, r') := digits r d 1 in Some (v, r')
      | None => None
      end
  | EmptyString => None
  end.

(** Fraction: the mantissa extended by the fraction digits and their
    count. *)
Definition frac_part (m : Z) (s : string) : option (Z * nat * string) :=
  match s with
  | String c r =>
      if Ascii.eqb c "." then
        let '(v, n, r') := digits r m 0 in
        match n with O => None | _ => Some (v, n, r') end
      else Some (m, O, s)
  | EmptyString => Some (m, O, s)
  end.

Definition exp_part (s : string) : option (Z * string) :=
  match s with
  | String c r =>
      if Ascii.eqb c "e" || Ascii.eqb c "E" then
        let '(sgn, r1) :=
          match r with
          | String c' r' =>
              if Ascii.eqb c' "+" then (1, r')
              else if Ascii.eqb c' "-" then (-1, r')
              else (1, r)
          | EmptyString => (1, r)
          end in
        let '(v, n, r2) := digits r1 0 0 in
        match n with O => None | _ => Some (sgn * v, r2) end
      else Some (0, s)
  | EmptyString => Some (0, s)
  end.

Definition parse_number (s : string) : option (F64.t * string) :=
  let '(negative, s0) :=
    match s with
    | String c r => if Ascii.eqb c "-" then (true, r) else (false, s)
    | EmptyString => (false, s)
    end in
  match int_part s0 with
  | None => None
  | Some (i, s1) =>
      match frac_part i s1 with
      | None => None
      | Some (m, fl, s2) =>
          match exp_part s2 with
          | None => None
          | Some (e, s3) => Some (scale10 negative m (e - Z.of_nat fl), s3)
          end
      end
  end.

Definition simple_escape (c : ascii) : option N :=
  if Ascii.eqb c dquote then Some 34%N
  else if Ascii.eqb c "\" then Some 92%N
  else if Ascii.eqb c "/" then Some 47%N
  else if Ascii.eqb c "b" then Some 8%N
  else if Ascii.eqb c "f" then Some 12%N
  else if Ascii.eqb c "n" then Some 10%N
  else if Ascii.eqb c "r" then Some 13%N
  else if Ascii.eqb c "t" then Some 9%N
  else None.

(** A [\uXXXX] escape: the code unit its four hexadecimal digits
    write. *)
Definition unicode_escape (h1 h2 h3 h4 : ascii) : option N :=
  match hex_digit h1, hex_digit h2, hex_digit h3, hex_digit h4 with
  | Some a, Some b, Some c, Some d =>
      Some (((a * 16 + b) * 16 + c) * 16 + d)%N
  | _, _, _, _ => None
  end.

Definition cons_unit (u : N) (r : option (ustring * string))
  : option (ustring * string) :=
  match r with
  | Some (t, rest) => Some (u :: t, rest)
  | None => None
  end.

(** The characters of a string literal after its opening quote, up to
    and including the closing quote. *)
Fixpoint parse_chars (s : string) : option (ustring * string) :=
  match s with
  | EmptyString => None
  | String c r =>
      if Ascii.eqb c dquote then Some ([], r)
      else if Ascii.eqb c "\" then
        match r with
        | String e r1 =>
            match simple_escape e with
            | Some u => cons_unit u (parse_chars r1)
            | None =>
                if Ascii.eqb e "u" then
                  match r1 with
                  | String h1 (String h2 (String h3 (String h4 r2))) =>
                      match unicode_escape h1 h2 h3 h4 with
                      | Some u => cons_unit u (parse_chars r2)
                      | None => None
                      end
                  | _ => None
                  end
                else None
            end
        | EmptyString => None
        end
      else if (code c <? 32)%N then None
      else cons_unit (code c) (parse_chars r)
  end.

Definition keyword (kw : string) (v : JsValue) (s : string)
  : option (JsValue * string) :=
  if prefix kw s
  then Some (v, substring (String.length kw) (String.length s) s)
  else None.

(** Recursive descent; [fuel] bounds the nesting and the number of
    elements, both of which are bounded by the length of the text. *)
Fixpoint parse_value (fuel : nat) (s : string) : option (JsValue * string) :=
  match fuel with
  | O => None
  | S f =>
      match skip_ws s with
      | EmptyString => None
      | String c r =>
          if Ascii.eqb c "{" then
            match skip_ws r with
            | String c' r' =>
                if Ascii.eqb c' "}" then Some (JObj [], r')
                else parse_members f r []
            | EmptyString => None
            end
          else if Ascii.eqb c "[" then
            match skip_ws r with
            | String c' r' =>
                if Ascii.eqb c' "]" then Some (JArr [], r')
                else parse_elements f r []
            | EmptyString => None
            end
          else if Ascii.eqb c dquote then
            match parse_chars r with
            | Some (t, r') => Some (JStr t, r')
            | None => None
            end
          else if Ascii.eqb c "t" then keyword "true" (JBool true) (String c r)
          else if Ascii.eqb c "f" then keyword "false" (JBool false) (String c r)
          else if Ascii.eqb c "n" then keyword "null" JNull (String c r)
          else
            match parse_number (String c r) with
            | Some (x, r') => Some (JNum x, r')
            | None => None
            end
      end
  end

with parse_elements (fuel : nat) (s : string) (acc : list JsValue)
  : option (JsValue * string) :=
  match fuel with
  | O => None
  | S f =>
      match parse_value f s with
      | None => None
      | Some (v, r) =>
          match skip_ws r with
          | String c r' =>
              if Ascii.eqb c "," then parse_elements f r' (v :: acc)
              else if Ascii.eqb c "]" then Some (JArr (rev (v :: acc)), r')
              else None
          | EmptyString => None
          end
      end
  end

with parse_members (fuel : nat) (s : string) (acc : list (ustring * JsValue))
  : option (JsValue * string) :=
  match fuel with
  | O => None
  | S f =>
      match skip_ws s with
      | String c r =>
          if Ascii.eqb c dquote then
            match parse_chars r with
            | None => None
            | Some (k, r1) =>
                match skip_ws r1 with
                | String c1 r2 =>
                    if Ascii.eqb c1 ":" then
                      match parse_value f r2 with
                      | None => None
                      | Some (v, r3) =>
                          match skip_ws r3 with
                          | String c3 r4 =>
                              if Ascii.eqb c3 ","
                              then parse_members f r4 ((k, v) :: acc)
                              else if Ascii.eqb c3 "}"
                              then Some (JObj (rev ((k, v) :: acc)), r4)
                              else None
                          | EmptyString => None
                          end
                      end
                    else None
                | EmptyString => None
                end
            end
          else None
      | EmptyString => None
      end
  end.

(** [JSON.parse(text)]; [None] is a [SyntaxError]. *)
Definition parse (text : string) : option JsValue :=
  match parse_value (2 * String.length text + 4) text with
  | Some (v, rest) =>
      match skip_ws rest with
      | EmptyString => Some v
      | _ => None
      end
  | None => None
  end.

End Json.

(** [text.match(/\{[\s\S]*\}/)]: the greedy match runs from the first
    opening brace to the last closing brace after it. *)
Fixpoint from_first_brace (s : string) : option string :=
  match s with
  | EmptyString => None
  | String c r => if Ascii.eqb c "{" then Some s else from_first_brace r
  end.

Fixpoint upto_last_brace (s : string) : option string :=
  match s with
  | EmptyString => None
  | String c r =>
      match upto_last_brace r with
      | Some p => Some (String c p)
      | None => if Ascii.eqb c "}" then Some (String c "") else None
      end
  end.

Definition match_json_block (text : string) : option string :=
  match from_first_brace text with
  | Some s => upto_last_brace s
  | None => None
  end.

(* ===================================================================== *)
(** * Exceptions, effects and the monad of asynchronous code               *)
(* ===================================================================== *)

(** A thrown value.  Everything the sources throw or let through is an
    [Error] object: SDK errors carry an HTTP [status], plain [Error]s and
    [TypeError]s do not. *)
Record JsError := mkError {
  err_status : option Z;
  err_message : string
}.

Definition Error (message : string) : JsError := mkError None message.

(** The [TypeError] of reading property [prop] of [undefined]. *)
Definition TypeError_undefined (prop : string) : JsError :=
  mkError None
    ("Cannot read properties of undefined (reading '" ++ prop ++ "')").

Inductive Outcome (A : Type) : Type :=
| Ok (a : A)
| Throw (e : JsError).
Arguments Ok {A} a.
Arguments Throw {A} e.

Inductive Level := LLog | LWarn | LError.

(** What an execution does to the outside: SDK requests and console
    lines, in program order. *)
Inductive Event :=
| Remote (provider model : string)
| Console (level : Level) (text : string).

(** The (provider, model) pairs of the SDK requests of a trace. *)
Fixpoint remote_calls (evs : list Event) : list (string * string) :=
  match evs with
  | [] => []
  | Remote p m :: r => (p, m) :: remote_calls r
  | Console _ _ :: r => remote_calls r
  end.

(** The host environment.  [W] is the state of everything outside the
    program (clock, remote services).  [coerce_number] is ECMAScript's
    [ToNumber] on strings, arrays and objects ([StringToNumber] after
    [ToPrimitive], which throws a [TypeError] when no primitive can be
    had); it is left open.  An infinite result only ever flows into the
    clamp of [parseRouterResponse], where any value at least [1] (or at
    most [0]) stands for it. *)
Class Runtime (W : Type) := {
  Date_now : W -> Z * W;
  coerce_number : JsValue -> Outcome F64.t
}.

Section Monad.
Context {W : Type}.

(** A computation reads and changes the world, emits events, and
    returns or throws. *)
Definition M (A : Type) : Type := W -> Outcome A * W * list Event.

Definition ret {A} (a : A) : M A := fun w => (Ok a, w, []).

Definition throw {A} (e : JsError) : M A := fun w => (Throw e, w, []).

Definition bind {A B} (m : M A) (k : A -> M B) : M B :=
  fun w =>
    match m w with
    | (Ok a, w1, ev1) =>
        let '(o, w2, ev2) := k a w1 in (o, w2, (ev1 ++ ev2)%list)
    | (Throw e, w1, ev1) => (Throw e, w1, ev1)
    end.

(** [try { m } catch (error) { h error }]. *)
Definition try_catch {A} (m : M A) (h : JsError -> M A) : M A :=
  fun w =>
    match m w with
    | (Ok a, w1, ev1) => (Ok a, w1, ev1)
    | (Throw e, w1, ev1) =>
        let '(o, w2, ev2) := h e w1 in (o, w2, (ev1 ++ ev2)%list)
    end.

Definition emit (ev : Event) : M unit := fun w => (Ok tt, w, [ev]).

Definition console_log (text : string) : M unit := emit (Console LLog text).
Definition console_warn (text : string) : M unit := emit (Console LWarn text).
Definition console_error (text : string) : M unit := emit (Console LError text).

Definition lift {A} (o : Outcome A) : M A := fun w => (o, w, []).

(** An SDK request: the client is a transition of the world, the request
    is recorded in the trace under the provider and model it names. *)
Definition request {A} (provider model : string)
           (call : W -> Outcome A * W) : M A :=
  fun w => let '(o, w1) := call w in (o, w1, [Remote provider model]).

Definition now `{Runtime W} : M Z :=
  fun w => let '(t, w1) := Date_now w in (Ok t, w1, []).

Definition when (b : bool) (m : M unit) : M unit := if b then m else ret tt.

End Monad.

Declare Scope js_scope.
Delimit Scope js_scope with js.
Notation "x <- m ;; k" := (bind m (fun x => k))
  (at level 61, m at next level, right associativity) : js_scope.
Notation "m ;; k" := (bind m (fun _ => k))
  (at level 61, right associativity) : js_scope.
Open Scope js_scope.

(** Outcome, final world and trace of a run. *)
Definition outcome {W A} (r : Outcome A * W * list Event) : Outcome A := fst (fst r).
Definition world {W A} (r : Outcome A * W * list Event) : W := snd (fst r).
Definition trace {W A} (r : Outcome A * W * list Event) : list Event := snd r.

(** [ToNumber]. *)
Definition ToNumber {W} `{Runtime W} (v : JsValue) : Outcome F64.t :=
  match v with
  | JUndefined => Ok F64.nan
  | JNull => Ok F64.zero
  | JBool b => Ok (if b then F64.of_Z 1 else F64.zero)
  | JNum x => Ok x
  | JStr _ | JArr _ | JObj _ => coerce_number v
  end.

(* ===================================================================== *)
(** * model-registry.ts                                                    *)
(* ===================================================================== *)

Inductive Provider := anthropic | openai | google.
Inductive ModelTier := tier_flagship | tier_balanced | tier_fast | tier_budget.
Inductive RouteType := fast | standard | deep | creative | research.

Definition Provider_eqb (a b : Provider) : bool :=
  match a, b with
  | anthropic, anthropic | openai, openai | google, google => true
  | _, _ => false
  end.

Definition ModelTier_eqb (a b : ModelTier) : bool :=
  match a, b with
  | tier_flagship, tier_flagship | tier_balanced, tier_balanced
  | tier_fast, tier_fast | tier_budget, tier_budget => true
  | _, _ => false
  end.

(** The string a route is at run time, and back. *)
Definition route_name (r : RouteType) : string :=
  match r with
  | fast => "fast" | standard => "standard" | deep => "deep"
  | creative => "creative" | research => "research"
  end.

Definition validRoutes : list RouteType :=
  [fast; standard; deep; creative; research].

(** The route a string names, if it is one of the five names. *)
Definition route_of_string (s : ustring) : option RouteType :=
  find (fun r => ustring_eqb (units (route_name r)) s) validRoutes.

Record ModelConfig := {
  id : string;
  alias : option string;
  mc_provider : Provider;
  tier : ModelTier;
  contextWindow : number;
  maxOutput : number;
  inputCost : number;          (* USD per 1M input tokens *)
  outputCost : number;         (* USD per 1M output tokens *)
  features : list string;
  notes : option string
}.

Inductive Strategy := basic | reranked | multi_query.

Record RetrievalConfig := {
  strategy : Strategy;
  topK : number;
  threshold : number
}.

Record RouteConfig := {
  rc_name : RouteType;
  description : string;
  rc_primaryModel : string;
  fallbackChain : list string;
  reranking : bool;
  rc_temperature : number;
  rc_maxTokens : number;
  retrievalConfig : RetrievalConfig
}.

Definition MODELS : list (string * ModelConfig) := [
  ("claude-opus-4",
   {| id := "claude-opus-4-20250514"; alias := Some "claude-opus-4-latest";
      mc_provider := anthropic; tier := tier_flagship;
      contextWindow := Zn 200000; maxOutput := Zn 32000;
      inputCost := dec 1500 100; outputCost := dec 7500 100;
      features := ["extended_thinking"; "vision"; "tool_use"];
      notes := Some "Best reasoning. Reserve for complex queries requiring deep analysis." |});
  ("claude-sonnet-4",
   {| id := "claude-sonnet-4-20250514"; alias := Some "claude-sonnet-4-latest";
      mc_provider := anthropic; tier := tier_balanced;
      contextWindow := Zn 200000; maxOutput := Zn 16000;
      inputCost := dec 300 100; outputCost := dec 1500 100;
      features := ["extended_thinking"; "vision"; "tool_use"];
      notes := Some "Best quality/cost ratio. PRIMARY choice for Standard & Deep routes." |});
  ("claude-haiku-3.5",
   {| id := "claude-3-5-haiku-20241022"; alias := Some "claude-3-5-haiku-latest";
      mc_provider := anthropic; tier := tier_fast;
      contextWindow := Zn 200000; maxOutput := Zn 8192;
      inputCost := dec 80 100; outputCost := dec 400 100;
      features := ["vision"; "tool_use"];
      notes := Some "Fast & cheap. Use for routing, reranking, classification." |});
  ("gpt-4o",
   {| id := "gpt-4o"; alias := None;
      mc_provider := openai; tier := tier_balanced;
      contextWindow := Zn 128000; maxOutput := Zn 16384;
      inputCost := dec 250 100; outputCost := dec 1000 100;
      features := ["json_mode"; "vision"; "function_calling"];
      notes := Some "Strong fallback for Claude Sonnet." |});
  ("gpt-4o-mini",
   {| id := "gpt-4o-mini"; alias := None;
      mc_provider := openai; tier := tier_fast;
      contextWindow := Zn 128000; maxOutput := Zn 16384;
      inputCost := dec 15 100; outputCost := dec 60 100;
      features := ["json_mode"; "vision"; "function_calling"];
      notes := Some "Cheapest option - use for Fast route." |});
  ("gemini-1.5-pro",
   {| id := "gemini-1.5-pro"; alias := None;
      mc_provider := google; tier := tier_balanced;
      contextWindow := Zn 2000000; maxOutput := Zn 8192;
      inputCost := dec 125 100; outputCost := dec 500 100;
      features := ["vision"];
      notes := Some "2M context - ideal for long document processing." |});
  ("gemini-1.5-flash",
   {| id := "gemini-1.5-flash"; alias := None;
      mc_provider := google; tier := tier_fast;
      contextWindow := Zn 1000000; maxOutput := Zn 8192;
      inputCost := dec 75 1000; outputCost := dec 30 100;
      features := ["vision"];
      notes := Some "Budget option with large context." |})
].

Definition ROUTE_CONFIGS (route : RouteType) : RouteConfig :=
  match route with
  | fast =>
      {| rc_name := fast;
         description := "Quick responses to simple, factual queries";
         rc_primaryModel := "gpt-4o-mini";
         fallbackChain := ["gemini-1.5-flash"; "claude-haiku-3.5"];
         reranking := false; rc_temperature := dec 3 10; rc_maxTokens := Zn 500;
         retrievalConfig :=
           {| strategy := basic; topK := Zn 5; threshold := dec 45 100 |} |}
  | standard =>
      {| rc_name := standard;
         description := "Balanced quality/speed for typical queries";
         rc_primaryModel := "claude-sonnet-4";
         fallbackChain := ["gpt-4o"; "gemini-1.5-pro"];
         reranking := true; rc_temperature := dec 5 10; rc_maxTokens := Zn 800;
         retrievalConfig :=
           {| strategy := reranked; topK := Zn 5; threshold := dec 5 10 |} |}
  | deep =>
      {| rc_name := deep;
         description := "Complex analysis requiring multi-step reasoning";
         rc_primaryModel := "claude-opus-4";
         fallbackChain := ["claude-sonnet-4"; "gpt-4o"];
         reranking := true; rc_temperature := dec 6 10; rc_maxTokens := Zn 1500;
         retrievalConfig :=
           {| strategy := multi_query; topK := Zn 8; threshold := dec 45 100 |} |}
  | creative =>
      {| rc_name := creative;
         description := "Open-ended exploration and brainstorming";
         rc_primaryModel := "claude-sonnet-4";
         fallbackChain := ["gpt-4o"; "gemini-1.5-pro"];
         reranking := false; rc_temperature := dec 8 10; rc_maxTokens := Zn 1000;
         retrievalConfig :=
           {| strategy := basic; topK := Zn 5; threshold := dec 4 10 |} |}
  | research =>
      {| rc_name := research;
         description := "Deep research queries requiring extensive context";
         rc_primaryModel := "gemini-1.5-pro";
         fallbackChain := ["claude-sonnet-4"; "gpt-4o"];
         reranking := true; rc_temperature := dec 6 10; rc_maxTokens := Zn 1500;
         retrievalConfig :=
           {| strategy := reranked; topK := Zn 5; threshold := dec 5 10 |} |}
  end.

(** The member of [SPECIALIZED_MODELS] the core reads. *)
Definition SPECIALIZED_MODELS_router : string := "claude-haiku-3.5".

(** [MODELS[modelKey]]: own keys of the table (the properties every
    object inherits from [Object.prototype] are left out). *)
Fixpoint lookup {A} (key : string) (table : list (string * A)) : option A :=
  match table with
  | [] => None
  | (k, v) :: r => if String.eqb k key then Some v else lookup key r
  end.

Definition getModel (modelKey : string) : option ModelConfig :=
  lookup modelKey MODELS.

Definition getModelId (modelKey : string) (useAlias : bool) : Outcome string :=
  match lookup modelKey MODELS with
  | None => Throw (Error ("Unknown model: " ++ modelKey))
  | Some model =>
      Ok (match useAlias, alias model with
          | true, Some a => if String.eqb a "" then id model else a
          | _, _ => id model
          end)
  end.

Definition getModelsByProvider (p : Provider) : list ModelConfig :=
  filter (fun m => Provider_eqb (mc_provider m) p) (map snd MODELS).

Definition getModelsByTier (t : ModelTier) : list ModelConfig :=
  filter (fun m => ModelTier_eqb (tier m) t) (map snd MODELS).

Definition getRouteConfig (route : RouteType) : RouteConfig :=
  ROUTE_CONFIGS route.

Definition getRouteModel (route : RouteType) : Outcome ModelConfig :=
  let routeConfig := ROUTE_CONFIGS route in
  match lookup (rc_primaryModel routeConfig) MODELS with
  | None =>
      Throw (Error ("Invalid primary model for route " ++ route_name route
                    ++ ": " ++ rc_primaryModel routeConfig))
  | Some model => Ok model
  end.

Definition getRouteFallbacks (route : RouteType) : list ModelConfig :=
  let routeConfig := ROUTE_CONFIGS route in
  flat_map (fun key => match lookup key MODELS with
                       | Some m => [m]
                       | None => []
                       end)
           (fallbackChain routeConfig).

(** The names every object literal inherits from [Object.prototype]:
    a property read [MODELS[key]] finds them when [key] is no own
    property, and each of them is truthy. *)
Definition Object_prototype_names : list string := [
  "constructor"; "__defineGetter__"; "__defineSetter__"; "hasOwnProperty";
  "__lookupGetter__"; "__lookupSetter__"; "isPrototypeOf";
  "propertyIsEnumerable"; "toString"; "valueOf"; "__proto__";
  "toLocaleString"
].

(** What the property read [table[key]] gives. *)
Inductive Property (A : Type) : Type :=
| Own (a : A)
| Inherited
| Missing.
Arguments Own {A} a.
Arguments Inherited {A}.
Arguments Missing {A}.

Definition property {A} (key : string) (table : list (string * A))
  : Property A :=
  match lookup key table with
  | Some a => Own a
  | None =>
      if existsb (String.eqb key) Object_prototype_names
      then Inherited else Missing
  end.

(** Calculate estimated cost for a request.  An inherited member is
    truthy and has no [inputCost] or [outputCost]: the products with
    [undefined] are [NaN]. *)
Definition estimateCost (modelKey : string) (inputTokens outputTokens : F64.t)
  : Outcome F64.t :=
  let priced (inputPrice outputPrice : F64.t) :=
    let inputCost :=
      F64.mul (F64.div inputTokens (F64.of_Z 1000000)) inputPrice in
    let outputCost :=
      F64.mul (F64.div outputTokens (F64.of_Z 1000000)) outputPrice in
    F64.add inputCost outputCost in
  match property modelKey MODELS with
  | Missing => Throw (Error ("Unknown model: " ++ modelKey))
  | Own model =>
      Ok (priced (F64.of_number (inputCost model))
                 (F64.of_number (outputCost model)))
  | Inherited => Ok (priced F64.nan F64.nan)
  end.

(** Check if a model supports a specific feature. *)
Definition modelSupportsFeature (modelKey feature : string) : bool :=
  match lookup modelKey MODELS with
  | Some model => existsb (String.eqb feature) (features model)
  | None => false
  end.

Record CheapestOptions := {
  minContextWindow : option number;
  want_provider : option Provider;
  want_tier : option ModelTier
}.

Definition total_cost (m : ModelConfig) : number :=
  (inputCost m + outputCost m)%Qc.

(** [candidates.sort((a, b) => total(a) - total(b))]: the sort is stable,
    so among equal totals the earlier candidate stays first. *)
Fixpoint insert_by_cost (m : ModelConfig) (sorted : list ModelConfig)
  : list ModelConfig :=
  match sorted with
  | [] => [m]
  | x :: r =>
      if num_leb (total_cost m) (total_cost x) then m :: x :: r
      else x :: insert_by_cost m r
  end.

Definition sort_by_cost (candidates : list ModelConfig) : list ModelConfig :=
  fold_right insert_by_cost [] candidates.

(** The candidates left by the three optional filters, in table order. *)
Definition candidates_for (options : CheapestOptions) : list ModelConfig :=
  let candidates := map snd MODELS in
  let candidates :=
    match want_provider options with
    | Some p => filter (fun m => Provider_eqb (mc_provider m) p) candidates
    | None => candidates
    end in
  let candidates :=
    match want_tier options with
    | Some t => filter (fun m => ModelTier_eqb (tier m) t) candidates
    | None => candidates
    end in
  match minContextWindow options with
  | Some n =>
      if num_eqb n (Zn 0) then candidates
      else filter (fun m => num_leb n (contextWindow m)) candidates
  | None => candidates
  end.

(** Get the cheapest model that meets minimum requirements. *)
Definition getCheapestModel (options : CheapestOptions) : option ModelConfig :=
  (* Sort by total cost (input + output, assuming equal usage) *)
  hd_error (sort_by_cost (candidates_for options)).

(* ===================================================================== *)
(** * providers.ts                                                         *)
(* ===================================================================== *)

Inductive Role := user | assistant.

Record Message := {
  msg_role : Role;
  msg_content : string
}.

Record ChatOptions := {
  jsonMode : option bool;
  maxTokens : option number;
  temperature : option number
}.

Record Usage := {
  inputTokens : number;
  outputTokens : number
}.

Record ChatResult := {
  content : string;
  provider : string;
  model : string;
  usage : option Usage
}.

(** The [AIProvider] interface: an object with a name and two methods. *)
Record AIProvider (W : Type) := MkAIProvider {
  name : string;
  chat : list Message -> string -> option ChatOptions -> M (W:=W) ChatResult;
  isAvailable : bool
}.

(** Constructor options shared by the three adapters. *)
Record ModelOverrides := {
  o_primaryModel : option string;
  o_fallbackModel : option string
}.

(** [options?.field || dflt] on a string field: the empty string is falsy. *)
Definition override (options : option ModelOverrides)
           (field : ModelOverrides -> option string) (dflt : string) : string :=
  match options with
  | Some o => match field o with
              | Some s => if String.eqb s "" then dflt else s
              | None => dflt
              end
  | None => dflt
  end.

Definition opt_jsonMode (options : option ChatOptions) : bool :=
  match options with
  | Some o => match jsonMode o with Some b => b | None => false end
  | None => false
  end.

Definition opt_temperature (options : option ChatOptions) : option number :=
  match options with
  | Some o => temperature o
  | None => None
  end.

(** [options?.maxTokens || (options?.jsonMode ? forJson : plain)]. *)
Definition max_tokens (options : option ChatOptions) (forJson plain : Z)
  : number :=
  let dflt := if opt_jsonMode options then Zn forJson else Zn plain in
  match options with
  | Some o => match maxTokens o with
              | Some n => num_or n dflt
              | None => dflt
              end
  | None => dflt
  end.

(** [error?.status === code]. *)
Definition status_is (error : JsError) (code : Z) : bool :=
  match err_status error with
  | Some s => s =? code
  | None => false
  end.

Definition string_is (o : option string) (s : string) : bool :=
  match o with
  | Some t => String.eqb t s
  | None => false
  end.

(* --------------------------------------------------------------------- *)
(** ** Anthropic Provider (Claude)                                         *)
(* --------------------------------------------------------------------- *)

Module AnthropicProvider.

Record Request := {
  req_model : string;
  req_max_tokens : number;
  req_temperature : option number;
  req_system : string;
  req_messages : list Message
}.

Record ContentBlock := {
  type : string;
  text : string
}.

Record Response := {
  resp_content : list ContentBlock;
  stop_reason : option string;
  input_tokens : number;
  output_tokens : number
}.

(** [client.messages.create]. *)
Definition Client (W : Type) := Request -> W -> Outcome Response * W.

Record t (W : Type) := {
  client : option (Client W);
  primaryModel : string;
  fallbackModel : string
}.

Definition name : string := "Anthropic Claude".

Section Methods.
Context {W : Type}.

(** [apiKey] stands for [process.env.ANTHROPIC_API_KEY]: the client
    the SDK builds from the key when one is set. *)
Definition new (apiKey : option (Client W))
           (options : option ModelOverrides) : t W :=
  {| client := apiKey;
     primaryModel := override options o_primaryModel "claude-sonnet-4-20250514";
     fallbackModel := override options o_fallbackModel "claude-3-5-haiku-20241022" |}.

Definition isAvailable (p : t W) : bool :=
  match client p with Some _ => true | None => false end.

Definition build_request (model : string) (messages : list Message)
           (systemPrompt : string) (options : option ChatOptions)
  : Request :=
  {| req_model := model;
     req_max_tokens := max_tokens options 8192 1024;
     req_temperature := opt_temperature options;
     req_system := systemPrompt;
     req_messages :=
       map (fun msg => {| msg_role := msg_role msg;
                          msg_content := msg_content msg |}) messages |}.

(** [response.content[0]] followed by the test of its [type]. *)
Definition text_block (response : Response) : M (W:=W) ContentBlock :=
  match resp_content response with
  | [] => throw (TypeError_undefined "type")
  | content :: _ =>
      if negb (String.eqb (type content) "text")
      then throw (Error "Unexpected response format from Anthropic")
      else ret content
  end.

Definition result_of (model : string) (content : ContentBlock)
           (response : Response) : ChatResult :=
  {| content := text content;
     provider := name;
     model := model;
     usage := Some {| inputTokens := input_tokens response;
                      outputTokens := output_tokens response |} |}.

Definition chatWithModel (p : t W) (model : string)
           (messages : list Message) (systemPrompt : string)
           (options : option ChatOptions) : M (W:=W) ChatResult :=
  match client p with
  | None => throw (TypeError_undefined "messages")
  | Some c =>
      response <- request name model
                    (c (build_request model messages systemPrompt options)) ;;
      content <- text_block response ;;
      ret (result_of model content response)
  end.

Definition chat (p : t W) (messages : list Message) (systemPrompt : string)
           (options : option ChatOptions) : M (W:=W) ChatResult :=
  match client p with
  | None => throw (Error "Anthropic API key not configured")
  | Some c =>
      try_catch
        (response <- request name (primaryModel p)
                       (c (build_request (primaryModel p) messages
                                         systemPrompt options)) ;;
         content <- text_block response ;;
         when (string_is (stop_reason response) "max_tokens")
              (console_warn "[Anthropic] Response truncated - max_tokens reached") ;;
         ret (result_of (primaryModel p) content response))
        (fun error =>
           (* Try fallback on rate limit or unavailability *)
           if status_is error 429 || status_is error 503 then
             console_log "[Anthropic] Primary failed, trying fallback model..." ;;
             chatWithModel p (fallbackModel p) messages systemPrompt options
           else throw error)
  end.

Definition as_provider (p : t W) : AIProvider W :=
  MkAIProvider name (chat p) (isAvailable p).

End Methods.

End AnthropicProvider.

(* --------------------------------------------------------------------- *)
(** ** OpenAI Provider (GPT)                                               *)
(* --------------------------------------------------------------------- *)

Module OpenAIProvider.

Record Request := {
  req_model : string;
  req_max_tokens : number;
  req_temperature : option number;
  req_messages : list (string * string);       (* role, content *)
  req_response_format : option string
}.

Record Choice := {
  message_content : option string;             (* [null] is [None] *)
  finish_reason : option string
}.

Record Response := {
  choices : list Choice;
  resp_usage : option (number * number)        (* prompt, completion *)
}.

(** [client.chat.completions.create]. *)
Definition Client (W : Type) := Request -> W -> Outcome Response * W.

Record t (W : Type) := {
  client : option (Client W);
  primaryModel : string;
  fallbackModel : string
}.

Definition name : string := "OpenAI GPT".

Definition role_name (r : Role) : string :=
  match r with user => "user" | assistant => "assistant" end.

Section Methods.
Context {W : Type}.

Definition new (apiKey : option (Client W))
           (options : option ModelOverrides) : t W :=
  {| client := apiKey;
     primaryModel := override options o_primaryModel "gpt-4o";
     fallbackModel := override options o_fallbackModel "gpt-4o-mini" |}.

Definition isAvailable (p : t W) : bool :=
  match client p with Some _ => true | None => false end.

Definition build_request (model : string) (messages : list Message)
           (systemPrompt : string) (options : option ChatOptions)
  : Request :=
  {| req_model := model;
     req_max_tokens := max_tokens options 8192 1024;
     req_temperature := opt_temperature options;
     req_messages :=
       ("system", systemPrompt)
         :: map (fun msg => (role_name (msg_role msg), msg_content msg))
                messages;
     req_response_format :=
       if opt_jsonMode options then Some "json_object" else None |}.

Definition usage_of (response : Response) : option Usage :=
  match resp_usage response with
  | Some (p, c) => Some {| inputTokens := p; outputTokens := c |}
  | None => None
  end.

Definition chatWithModel (p : t W) (model : string)
           (messages : list Message) (systemPrompt : string)
           (options : option ChatOptions) : M (W:=W) ChatResult :=
  match client p with
  | None => throw (TypeError_undefined "chat")
  | Some c =>
      response <- request name model
                    (c (build_request model messages systemPrompt options)) ;;
      match choices response with
      | [] => throw (TypeError_undefined "message")
      | choice :: _ =>
          ret {| content := match message_content choice with
                            | Some s => s
                            | None => ""
                            end;
                 provider := name;
                 model := model;
                 usage := usage_of response |}
      end
  end.

Definition chat (p : t W) (messages : list Message) (systemPrompt : string)
           (options : option ChatOptions) : M (W:=W) ChatResult :=
  match client p with
  | None => throw (Error "OpenAI API key not configured")
  | Some c =>
      try_catch
        (response <- request name (primaryModel p)
                       (c (build_request (primaryModel p) messages
                                         systemPrompt options)) ;;
         match choices response with
         | {| message_content := Some s; finish_reason := fr |} :: _ =>
             if String.eqb s ""
             then throw (Error "Unexpected response format from OpenAI")
             else
               when (string_is fr "length")
                    (console_warn "[OpenAI] Response truncated - max tokens reached") ;;
               ret {| content := s;
                      provider := name;
                      model := primaryModel p;
                      usage := usage_of response |}
         | _ => throw (Error "Unexpected response format from OpenAI")
         end)
        (fun error =>
           if status_is error 429 || status_is error 503 then
             console_log "[OpenAI] Primary failed, trying fallback model..." ;;
             chatWithModel p (fallbackModel p) messages systemPrompt options
           else throw error)
  end.

Definition as_provider (p : t W) : AIProvider W :=
  MkAIProvider name (chat p) (isAvailable p).

End Methods.

End OpenAIProvider.

(* --------------------------------------------------------------------- *)
(** ** Gemini Provider (Google)                                            *)
(* --------------------------------------------------------------------- *)

Module GeminiProvider.

(** One request gathers what [getGenerativeModel], [startChat] and
    [sendMessage] are given. *)
Record Request := {
  req_model : string;
  req_systemInstruction : string;
  req_maxOutputTokens : number;
  req_temperature : option number;
  req_responseMimeType : option string;
  req_history : list (string * string);        (* role, text *)
  req_message : string
}.

Record Response := {
  resp_text : Outcome string;                  (* [response.text()] *)
  finishReason : option string;                (* of [candidates[0]] *)
  usageMetadata : option (option number * option number)
}.

Definition Client (W : Type) := Request -> W -> Outcome Response * W.

Record t (W : Type) := {
  client : option (Client W);
  primaryModel : string;
  fallbackModel : string
}.

Definition name : string := "Google Gemini".

Section Methods.
Context {W : Type}.

Definition new (apiKey : option (Client W))
           (options : option ModelOverrides) : t W :=
  {| client := apiKey;
     primaryModel := override options o_primaryModel "gemini-1.5-pro";
     fallbackModel := override options o_fallbackModel "gemini-1.5-flash" |}.

Definition isAvailable (p : t W) : bool :=
  match client p with Some _ => true | None => false end.

Definition build_request (model : string) (messages : list Message)
           (lastMessage : Message)
           (systemPrompt : string) (options : option ChatOptions)
  : Request :=
  {| req_model := model;
     req_systemInstruction := systemPrompt;
     req_maxOutputTokens := max_tokens options 16384 2048;
     req_temperature := opt_temperature options;
     req_responseMimeType :=
       if opt_jsonMode options then Some "application/json" else None;
     (* Convert to Gemini format *)
     req_history :=
       map (fun msg => (match msg_role msg with
                        | user => "user"
                        | assistant => "model"
                        end, msg_content msg))
           (removelast messages);
     req_message := msg_content lastMessage |}.

(** [messages[messages.length - 1]], then its [content]. *)
Definition last_message (messages : list Message) : M (W:=W) Message :=
  match rev messages with
  | [] => throw (TypeError_undefined "content")
  | m :: _ => ret m
  end.

Definition opt_or0 (x : option number) : number :=
  match x with Some n => num_or n (Zn 0) | None => Zn 0 end.

Definition usage_of (response : Response) : option Usage :=
  match usageMetadata response with
  | Some (p, c) => Some {| inputTokens := opt_or0 p; outputTokens := opt_or0 c |}
  | None => None
  end.

Definition chatWithModel (p : t W) (model : string)
           (messages : list Message) (systemPrompt : string)
           (options : option ChatOptions) : M (W:=W) ChatResult :=
  match client p with
  | None => throw (TypeError_undefined "getGenerativeModel")
  | Some c =>
      lastMessage <- last_message messages ;;
      response <- request name model
                    (c (build_request model messages lastMessage
                                      systemPrompt options)) ;;
      txt <- lift (resp_text response) ;;
      ret {| content := txt;
             provider := name;
             model := model;
             usage := usage_of response |}
  end.

(** [error?.status === 429 || error?.message?.includes('quota')]. *)
Definition retryable (error : JsError) : bool :=
  status_is error 429 || includes (err_message error) "quota".

Definition chat (p : t W) (messages : list Message) (systemPrompt : string)
           (options : option ChatOptions) : M (W:=W) ChatResult :=
  match client p with
  | None => throw (Error "Google AI API key not configured")
  | Some c =>
      try_catch
        (lastMessage <- last_message messages ;;
         response <- request name (primaryModel p)
                       (c (build_request (primaryModel p) messages
                                         lastMessage systemPrompt options)) ;;
         when (string_is (finishReason response) "MAX_TOKENS")
              (console_warn "[Gemini] Response truncated - MAX_TOKENS reached") ;;
         txt <- lift (resp_text response) ;;
         ret {| content := txt;
                provider := name;
                model := primaryModel p;
                usage := usage_of response |})
        (fun error =>
           if retryable error then
             console_log "[Gemini] Primary failed, trying fallback model..." ;;
             chatWithModel p (fallbackModel p) messages systemPrompt options
           else throw error)
  end.

Definition as_provider (p : t W) : AIProvider W :=
  MkAIProvider name (chat p) (isAvailable p).

End Methods.

End GeminiProvider.

(* --------------------------------------------------------------------- *)
(** ** Provider Manager (orchestrates all providers)                       *)
(* --------------------------------------------------------------------- *)

Module ProviderManager.

Record Configs := {
  cfg_anthropic : option ModelOverrides;
  cfg_openai : option ModelOverrides;
  cfg_google : option ModelOverrides
}.

Record Options := {
  providerOrder : option (list Provider);
  providerConfigs : option Configs
}.

(** The three credentials of [process.env], each as the client its SDK
    builds from it. *)
Record Env (W : Type) := {
  ANTHROPIC_API_KEY : option (AnthropicProvider.Client W);
  OPENAI_API_KEY : option (OpenAIProvider.Client W);
  GOOGLE_AI_API_KEY : option (GeminiProvider.Client W)
}.

Record t (W : Type) := {
  providers : list (AIProvider W)
}.

Definition NoProviders : JsError :=
  Error "No AI providers available. Please configure API keys.".

Section Methods.
Context {W : Type}.

Definition new (env : Env W) (options : option Options) : M (W:=W) (t W) :=
  let order :=
    match options with
    | Some {| providerOrder := Some o |} => o
    | _ => [anthropic; openai; google]
    end in
  let configs :=
    match options with
    | Some {| providerConfigs := Some c |} => c
    | _ => {| cfg_anthropic := None; cfg_openai := None; cfg_google := None |}
    end in
  let providerMap (name : Provider) : AIProvider W :=
    match name with
    | anthropic =>
        AnthropicProvider.as_provider
          (AnthropicProvider.new (ANTHROPIC_API_KEY env) (cfg_anthropic configs))
    | openai =>
        OpenAIProvider.as_provider
          (OpenAIProvider.new (OPENAI_API_KEY env) (cfg_openai configs))
    | google =>
        GeminiProvider.as_provider
          (GeminiProvider.new (GOOGLE_AI_API_KEY env) (cfg_google configs))
    end in
  (* Initialize providers in specified order, filtering unavailable ones *)
  let providers :=
    filter (fun provider => isAvailable provider) (map providerMap order) in
  match providers with
  | [] => console_warn "[ProviderManager] No AI providers available"
  | _ => console_log ("[ProviderManager] Initialized: "
                      ++ join_comma (map (fun p => name p) providers))
  end ;;
  ret {| providers := providers |}.

(** The [for ... of] loop of [chat] from the providers still to try,
    with the current value of [lastError]; each round is one
    [try]/[catch], which either returns from [chat] or records its
    error. *)
Fixpoint chat_from (remaining : list (AIProvider W))
         (lastError : option JsError)
         (messages : list Message) (systemPrompt : string)
         (options : option ChatOptions) : M (W:=W) ChatResult :=
  match remaining with
  | [] =>
      throw (match lastError with
             | Some e => e
             | None => Error "All AI providers failed"
             end)
  | provider :: rest =>
      round <- try_catch
                 (console_log ("[ProviderManager] Trying: " ++ name provider) ;;
                  result <- chat provider messages systemPrompt options ;;
                  console_log ("[ProviderManager] Success: " ++ name provider) ;;
                  ret (Some result, lastError))
                 (fun error =>
                    console_error ("[ProviderManager] " ++ name provider
                                   ++ " failed: " ++ err_message error) ;;
                    ret (None, Some error)) ;;
      match round with
      | (Some result, _) => ret result
      | (None, lastError') =>
          chat_from rest lastError' messages systemPrompt options
      end
  end.

(** Send a chat request, automatically falling back through providers
    on failure. *)
Definition chat (pm : t W) (messages : list Message) (systemPrompt : string)
           (options : option ChatOptions) : M (W:=W) ChatResult :=
  match providers pm with
  | [] => throw NoProviders
  | _ => chat_from (providers pm) None messages systemPrompt options
  end.

Definition getAvailableProviders (pm : t W) : list string :=
  map (fun p => name p) (providers pm).

Definition isAvailable (pm : t W) : bool :=
  match providers pm with [] => false | _ => true end.

End Methods.

End ProviderManager.

(* ===================================================================== *)
(** * router.ts                                                            *)
(* ===================================================================== *)

Inductive Mode := mode_research | mode_standard.

Definition mode_name (m : Mode) : string :=
  match m with mode_research => "research" | mode_standard => "standard" end.

Record RouterInput := {
  query : string;
  mode : option Mode;
  conversationHistory : option (list Message);
  (** [context], held as the text [JSON.stringify] renders it to. *)
  context : option string
}.

(** At run time [reasoning] and [complexitySignals] are whatever the
    classifier's JSON held, hence [JsValue]. *)
Record RouterDecision := {
  route : RouteType;
  confidence : JsNum;
  reasoning : JsValue;
  complexitySignals : JsValue;
  bypassed : bool;
  timestamp : Z;
  latencyMs : option number
}.

Record Distribution := {
  n_fast : Z; n_standard : Z; n_deep : Z; n_creative : Z; n_research : Z
}.

Record RouterStats := {
  totalRouted : Z;
  bypassedCount : Z;
  routeDistribution : Distribution;
  avgLatencyMs : number;
  avgConfidence : JsNum
}.

(** A [RegExp] is used through [test] only. *)
Definition RegExp := string -> bool.

Record RouterConfig := {
  complexSignals : list string;
  researchSignals : list string;
  creativeSignals : list string;
  simplePatterns : list RegExp;
  systemPrompt : string
}.

(** The optional fields a caller may pass to the constructor. *)
Record RouterConfigOptions := {
  o_complexSignals : option (list string);
  o_researchSignals : option (list string);
  o_creativeSignals : option (list string);
  o_simplePatterns : option (list RegExp);
  o_systemPrompt : option string
}.

Definition DEFAULT_COMPLEX_SIGNALS : list string := [
  "compare"; "contrast"; "analyze"; "explain why"; "explain how";
  "how does"; "what if"; "relationship between"; "implications";
  "trade-offs"; "advantages"; "disadvantages"; "pros and cons";
  "difference between"; "similar to"; "versus"; "vs";
  "in-depth"; "detailed"; "comprehensive"; "thoroughly";
  "multiple"; "several"; "various"; "all the"
].

Definition DEFAULT_RESEARCH_SIGNALS : list string := [
  "methodology"; "approach"; "theory"; "concept"; "framework";
  "hypothesis"; "findings"; "results"; "conclusion"; "evidence";
  "literature"; "study"; "research"; "paper"; "article";
  "according to"; "based on"; "in the context of"
].

Definition DEFAULT_CREATIVE_SIGNALS : list string := [
  "imagine"; "what kind of"; "possibilities"; "ideas for";
  "brainstorm"; "creative"; "innovative"; "future";
  "could"; "might"; "potential"; "explore"
].

(** ** The default simple patterns, each as its [test] *)

Definition ascii_lower (c : ascii) : ascii :=
  let n := code c in
  if ((65 <=? n) && (n <=? 90))%N then ascii_of_N (n + 32) else c.

(** The rest of [s] after the prefix [p] (given in lower case), letters
    compared as the [i] flag does. *)
Fixpoint after_ci (p s : string) : option string :=
  match p, s with
  | EmptyString, _ => Some s
  | String a p', String b s' =>
      if Ascii.eqb a (ascii_lower b) then after_ci p' s' else None
  | String _ _, EmptyString => None
  end.

(** The rests of [s] after any one of the alternatives. *)
Definition after_any (alts : list string) (s : string) : list string :=
  flat_map (fun p => match after_ci p s with Some r => [r] | None => [] end) alts.

Definition line_terminator (c : ascii) : bool :=
  ((code c =? 10) || (code c =? 13))%N.

Fixpoint no_line_terminator (s : string) : bool :=
  match s with
  | EmptyString => true
  | String c r => negb (line_terminator c) && no_line_terminator r
  end.

(** [.{1,hi}$] *)
Definition dots_to_end (hi : nat) (s : string) : bool :=
  (1 <=? String.length s)%nat && (String.length s <=? hi)%nat
  && no_line_terminator s.

(** [.{1,hi}\??$] *)
Definition dots_opt_question_to_end (hi : nat) (s : string) : bool :=
  dots_to_end hi s
  || match rev_string "" s with
     | String c r => Ascii.eqb c "?" && dots_to_end hi (rev_string "" r)
     | EmptyString => false
     end.

Definition DEFAULT_SIMPLE_PATTERNS : list RegExp := [
  (* /^what (is|are) .{1,50}\??$/i *)
  (fun s => existsb (dots_opt_question_to_end 50)
              (after_any ["what is "; "what are "] s));
  (* /^(list|show|tell me|give me) .{1,40}$/i *)
  (fun s => existsb (dots_to_end 40)
              (after_any ["list "; "show "; "tell me "; "give me "] s));
  (* /^(what|which) (technologies?|languages?|skills?|tools?)/i *)
  (fun s => existsb (fun r => negb (Nat.eqb (List.length
                        (after_any ["technologie"; "language"; "skill"; "tool"] r)) 0))
              (after_any ["what "; "which "] s));
  (* /^how (long|many|much)/i *)
  (fun s => negb (Nat.eqb (List.length
              (after_any ["how long"; "how many"; "how much"] s)) 0));
  (* /^where (is|does|did)/i *)
  (fun s => negb (Nat.eqb (List.length
              (after_any ["where is"; "where does"; "where did"] s)) 0));
  (* /^when did/i *)
  (fun s => negb (Nat.eqb (List.length (after_any ["when did"] s)) 0))
].

Definition DEFAULT_ROUTER_PROMPT : string := q
"You are a query routing assistant. Analyze user queries and determine the optimal processing route.

## Available Routes

### FAST
- For: Simple factual questions, direct lookups, basic info
- Signals: Short queries, clear intent, single topic, 'what/who/when' questions

### STANDARD
- For: Normal complexity questions requiring synthesis
- Signals: Multi-part questions, 'how/why' questions, needs context integration

### DEEP
- For: Complex analysis, comparisons, multi-step reasoning
- Signals: Comparative questions, theoretical exploration, connecting multiple concepts

### CREATIVE
- For: Open-ended exploration, brainstorming, hypothetical scenarios
- Signals: Exploratory language, no single right answer, future-focused

### RESEARCH
- For: Deep academic discussion, methodology-focused queries
- Signals: References to methodology, findings, theories; needs extensive context

## Instructions
1. Analyze the query for complexity signals
2. Consider the mode (research vs standard)
3. Select the most appropriate route
4. Provide brief reasoning

## Output Format (JSON)
{
  'route': 'fast|standard|deep|creative|research',
  'confidence': 0.0-1.0,
  'reasoning': 'Brief explanation',
  'complexity_signals': ['signal1', 'signal2']
}".

Module IntelligentRouter.

Record t (W : Type) := {
  client : option (AnthropicProvider.Client W);
  modelId : string;
  config : RouterConfig;
  stats : RouterStats
}.

Definition initial_stats : RouterStats :=
  {| totalRouted := 0;
     bypassedCount := 0;
     routeDistribution :=
       {| n_fast := 0; n_standard := 0; n_deep := 0; n_creative := 0;
          n_research := 0 |};
     avgLatencyMs := Zn 0;
     avgConfidence := Num (Zn 0) |}.

(** What [parseRouterResponse] returns: the four fields its caller
    reads. *)
Record Parsed := {
  p_route : RouteType;
  p_confidence : JsNum;
  p_reasoning : JsValue;
  p_complexity_signals : JsValue
}.

(** The label of the classifier's requests in a trace. *)
Definition remote_label : string := "Router".

Definition bump (d : Distribution) (r : RouteType) : Distribution :=
  match r with
  | fast => {| n_fast := n_fast d + 1; n_standard := n_standard d;
               n_deep := n_deep d; n_creative := n_creative d;
               n_research := n_research d |}
  | standard => {| n_fast := n_fast d; n_standard := n_standard d + 1;
                   n_deep := n_deep d; n_creative := n_creative d;
                   n_research := n_research d |}
  | deep => {| n_fast := n_fast d; n_standard := n_standard d;
               n_deep := n_deep d + 1; n_creative := n_creative d;
               n_research := n_research d |}
  | creative => {| n_fast := n_fast d; n_standard := n_standard d;
                   n_deep := n_deep d; n_creative := n_creative d + 1;
                   n_research := n_research d |}
  | research => {| n_fast := n_fast d; n_standard := n_standard d;
                   n_deep := n_deep d; n_creative := n_creative d;
                   n_research := n_research d + 1 |}
  end.

(** [decision.latencyMs || 0]. *)
Definition latency_or0 (decision : RouterDecision) : number :=
  match latencyMs decision with
  | Some l => num_or l (Zn 0)
  | None => Zn 0
  end.

(** Update internal stats. *)
Definition updateStats_on (s : RouterStats) (decision : RouterDecision)
  : RouterStats :=
  let total := totalRouted s + 1 in
  let n := Zn total in
  {| totalRouted := total;
     routeDistribution := bump (routeDistribution s) (route decision);
     bypassedCount :=
       if bypassed decision then bypassedCount s + 1 else bypassedCount s;
     avgLatencyMs :=
       ((avgLatencyMs s * (n - Zn 1) + latency_or0 decision) / n)%Qc;
     avgConfidence :=
       jdiv (jadd (jmul (avgConfidence s) (Num (n - Zn 1)%Qc))
                  (confidence decision))
            (Num n) |}.

Section Methods.
Context {W : Type} {RT : Runtime W}.

Definition new (apiKey : option (AnthropicProvider.Client W))
           (config : option RouterConfigOptions) : M (W:=W) (t W) :=
  (* Get the router model from registry *)
  let routerModelKey := SPECIALIZED_MODELS_router in
  modelId <- lift (getModelId routerModelKey false) ;;
  (* Merge config with defaults *)
  let pick {A} (field : RouterConfigOptions -> option A) (dflt : A) : A :=
    match config with
    | Some c => match field c with Some v => v | None => dflt end
    | None => dflt
    end in
  let cfg :=
    {| complexSignals := pick o_complexSignals DEFAULT_COMPLEX_SIGNALS;
       researchSignals := pick o_researchSignals DEFAULT_RESEARCH_SIGNALS;
       creativeSignals := pick o_creativeSignals DEFAULT_CREATIVE_SIGNALS;
       simplePatterns := pick o_simplePatterns DEFAULT_SIMPLE_PATTERNS;
       systemPrompt :=
         let p := pick o_systemPrompt DEFAULT_ROUTER_PROMPT in
         if String.eqb p "" then DEFAULT_ROUTER_PROMPT else p |} in
  console_log ("[Router] Initialized with model: " ++ modelId) ;;
  ret {| client := apiKey; modelId := modelId; config := cfg;
         stats := initial_stats |}.

Definition updateStats (r : t W) (decision : RouterDecision) : t W :=
  {| client := client r; modelId := modelId r; config := config r;
     stats := updateStats_on (stats r) decision |}.

(** Check if query contains complex signals. *)
Definition hasComplexSignals (r : t W) (query : string) : bool :=
  let lowerQuery := toLowerCase query in
  some (fun signal => includes lowerQuery signal) (complexSignals (config r)).

(** Check if query contains research signals. *)
Definition hasResearchSignals (r : t W) (query : string) : bool :=
  let lowerQuery := toLowerCase query in
  some (fun signal => includes lowerQuery signal) (researchSignals (config r)).

(** Check if query contains creative signals. *)
Definition hasCreativeSignals (r : t W) (query : string) : bool :=
  let lowerQuery := toLowerCase query in
  some (fun signal => includes lowerQuery signal) (creativeSignals (config r)).

(** Check if the query can bypass the router entirely. *)
Definition shouldBypass (r : t W) (query : string) (mode : Mode)
  : option RouteType :=
  match mode with
  | mode_research =>
      (* Research mode queries should not be bypassed *)
      None
  | mode_standard =>
      let words := split_ws (trim query) in
      (* Very short queries without complex signals -> fast route *)
      if (List.length words <? 8)%nat && negb (hasComplexSignals r query)
         && some (fun pattern => pattern query) (simplePatterns (config r))
      then Some fast
      (* Very short, simple queries *)
      else if (List.length words <=? 5)%nat && negb (hasComplexSignals r query)
      then Some fast
      else None
  end.

Definition parse_failure : Parsed :=
  {| p_route := standard;
     p_confidence := Num (dec 5 10);
     p_reasoning := JText "Failed to parse router response";
     p_complexity_signals := JArr [] |}.

(** Parse the router's JSON response. *)
Definition parseRouterResponse (text : string) : M (W:=W) Parsed :=
  try_catch
    (jsonMatch <- match match_json_block text with
                  | None => throw (Error "No JSON found in response")
                  | Some block => ret block
                  end ;;
     parsed <- match Json.parse jsonMatch with
               | None => throw (Error "SyntaxError: invalid JSON")
               | Some v => ret v
               end ;;
     match parsed with
     | JObj _ =>
         (* Validate route *)
         let route :=
           match get parsed "route" with
           | JStr s => match route_of_string s with
                       | Some r => r
                       | None => standard
                       end
           | _ => standard
           end in
         (* Validate confidence *)
         let given := get parsed "confidence" in
         c <- lift (ToNumber (if truthy given then given
                              else JNum (F64.of_ratio false 7 10))) ;;
         ret {| p_route := route;
                p_confidence :=
                  number_of (Math_max F64.zero (Math_min (F64.of_Z 1) c));
                p_reasoning := get parsed "reasoning";
                p_complexity_signals := get parsed "complexity_signals" |}
     | _ =>
         (* assigning a property of a primitive, in strict mode *)
         throw (Error "TypeError: Cannot create property 'route'")
     end)
    (fun error =>
       console_error "[Router] Failed to parse response, using standard route" ;;
       ret parse_failure).

(** The request [llmRoute] sends: the query, the mode and, if given, the
    context, under the router's system prompt. *)
Definition classifier_request (r : t W) (input : RouterInput)
  : AnthropicProvider.Request :=
  let userMessage :=
    "Query: " ++ String dquote (query input) ++ String dquote nl
    ++ "Mode: " ++ mode_name (match mode input with
                              | Some m => m
                              | None => mode_standard
                              end) in
  let userMessage :=
    match context input with
    | Some rendered => userMessage ++ nl ++ "Context: " ++ rendered
    | None => userMessage
    end in
  {| AnthropicProvider.req_model := modelId r;
     AnthropicProvider.req_max_tokens := Zn 256;
     AnthropicProvider.req_temperature := None;
     AnthropicProvider.req_system := systemPrompt (config r);
     AnthropicProvider.req_messages :=
       [{| msg_role := user; msg_content := userMessage |}] |}.

(** [response.content[0]] followed by the test of its [type]. *)
Definition text_block (response : AnthropicProvider.Response)
  : M (W:=W) AnthropicProvider.ContentBlock :=
  match AnthropicProvider.resp_content response with
  | [] => throw (TypeError_undefined "type")
  | content :: _ =>
      if negb (String.eqb (AnthropicProvider.type content) "text")
      then throw (Error "Unexpected response format from router")
      else ret content
  end.

(** Use LLM to route the query. *)
Definition llmRoute (r : t W) (c : AnthropicProvider.Client W)
           (input : RouterInput) (startTime : Z) : M (W:=W) RouterDecision :=
  response <- request remote_label (modelId r) (c (classifier_request r input)) ;;
  content <- text_block response ;;
  parsed <- parseRouterResponse (AnthropicProvider.text content) ;;
  timestamp <- now ;;
  finish <- now ;;
  ret {| route := p_route parsed;
         confidence := p_confidence parsed;
         reasoning := p_reasoning parsed;
         complexitySignals :=
           if truthy (p_complexity_signals parsed)
           then p_complexity_signals parsed else JArr [];
         bypassed := false;
         timestamp := timestamp;
         latencyMs := Some (Zn (finish - startTime)) |}.

Definition strings (l : list string) : JsValue := JArr (map JText l).

(** Heuristic-based routing (fallback when LLM unavailable). *)
Definition heuristicRoute (r : t W) (query : string) (mode : Mode)
           (startTime : Z) : M (W:=W) (RouterDecision * t W) :=
  let lowerQuery := toLowerCase query in
  let wordCount := List.length (split_ws (trim query)) in
  let '(route, confidence, reasoning, signals) :=
    match mode with
    | mode_research =>
        (* Research mode with research signals -> research route *)
        if hasResearchSignals r query
        then (research, dec 85 100,
              "Research mode with research-related signals",
              ["research_mode"; "research_signals"])
        else (standard, dec 75 100,
              "Research mode with general query",
              ["research_mode"])
    | mode_standard =>
        (* Creative signals -> creative route *)
        if hasCreativeSignals r query
        then (creative, dec 8 10,
              "Query contains creative/exploratory language",
              filter (fun s => includes lowerQuery s) (creativeSignals (config r)))
        (* Complex signals -> deep route *)
        else if hasComplexSignals r query
        then (deep, dec 8 10,
              "Query contains complexity signals",
              filter (fun s => includes lowerQuery s) (complexSignals (config r)))
        (* Short simple queries -> fast route *)
        else if (wordCount <? 10)%nat
                && some (fun p => p query) (simplePatterns (config r))
        then (fast, dec 85 100,
              "Simple query pattern detected",
              ["simple_pattern"])
        else (standard, dec 7 10,
              "Heuristic routing based on query analysis",
              [])
    end in
  timestamp <- now ;;
  finish <- now ;;
  let decision :=
    {| route := route;
       confidence := Num confidence;
       reasoning := JText reasoning;
       complexitySignals := strings signals;
       bypassed := false;
       timestamp := timestamp;
       latencyMs := Some (Zn (finish - startTime)) |} in
  ret (decision, updateStats r decision).

(** Determine the optimal route for a query. *)
Definition route (r : t W) (input : RouterInput)
  : M (W:=W) (RouterDecision * t W) :=
  startTime <- now ;;
  let mode := match mode input with
              | Some m => m
              | None => mode_standard
              end in
  (* Check for bypass conditions first *)
  match shouldBypass r (query input) mode with
  | Some bypassRoute =>
      timestamp <- now ;;
      finish <- now ;;
      let decision :=
        {| route := bypassRoute;
           confidence := Num (dec 95 100);
           reasoning := JText "Query matched simple pattern - router bypassed";
           complexitySignals := JArr [];
           bypassed := true;
           timestamp := timestamp;
           latencyMs := Some (Zn (finish - startTime)) |} in
      ret (decision, updateStats r decision)
  | None =>
      match client r with
      | None =>
          (* If no API client, use heuristic routing *)
          console_warn "[Router] No Anthropic client, using heuristic routing" ;;
          heuristicRoute r (query input) mode startTime
      | Some c =>
          try_catch
            (decision <- llmRoute r c input startTime ;;
             ret (decision, updateStats r decision))
            (fun error =>
               console_error "[Router] LLM routing failed, falling back to heuristic" ;;
               heuristicRoute r (query input) mode startTime)
      end
  end.

Definition getStats (r : t W) : RouterStats := stats r.

Definition resetStats (r : t W) : t W :=
  {| client := client r; modelId := modelId r; config := config r;
     stats := initial_stats |}.

Definition isLLMAvailable (r : t W) : bool :=
  match client r with Some _ => true | None => false end.

End Methods.

End IntelligentRouter.

(* ===================================================================== *)
(** * executor.ts                                                          *)
(* ===================================================================== *)

Record ExecutionContext := {
  ctx_query : string;
  ctx_mode : option Mode;
  routerDecision : option RouterDecision;
  ctx_systemPrompt : option string;
  ctx_conversationHistory : option (list Message);
  retrievedContext : option string;
  ctx_metadata : option JsValue
}.

Record Timing := {
  totalMs : number;
  routingMs : option number;
  generationMs : number
}.

Record Costs := {
  estimated : F64.t;
  cost_inputTokens : number;
  cost_outputTokens : number
}.

Record Metadata := {
  fallbackUsed : bool;
  fallbackReason : option string;
  routerBypassed : option bool
}.

Record ExecutionResult := {
  answer : string;
  res_route : RouteType;
  res_model : string;
  res_provider : string;
  res_confidence : number;
  timing : Timing;
  costs : Costs;
  metadata : Metadata
}.

Definition DEFAULT_SYSTEM_PROMPTS (route : RouteType) : string :=
  match route with
  | fast =>
"You are a helpful AI assistant. Provide quick, direct answers to simple questions.
Be concise and factual. Use the provided context to answer accurately.
Format responses with markdown when helpful."
  | standard =>
"You are a helpful AI assistant. Provide balanced, well-structured responses.
Your answers should be:
- Clear and informative
- Based on provided context
- Under 200 words unless more detail is needed
Use markdown formatting for readability."
  | deep =>
"You are an AI assistant providing in-depth analysis.
For this complex query:
- Provide thorough, well-structured analysis
- Draw connections between different concepts
- Include specific details and examples
- Structure your response with clear sections
Base your response on provided context. Acknowledge limitations if context is insufficient."
  | creative =>
"You are an AI assistant helping explore possibilities and ideas.
For this exploratory question:
- Think creatively about possibilities
- Suggest innovative approaches
- Be enthusiastic but grounded
- Encourage further exploration
Use context as a foundation for creative applications."
  | research =>
"You are a research assistant specializing in deep analysis.
Your responses should be:
- Academic but approachable
- Precise in attributing claims
- Helpful in explaining concepts in depth
- Encouraging of critical thinking
Clearly distinguish between provided information and exploratory discussion."
  end.

(* --------------------------------------------------------------------- *)
(** ** Timing tracker utility                                              *)
(* --------------------------------------------------------------------- *)

Module TimingTracker.

Record t := {
  startTime : Z;
  marks : list (string * Z);
  durations : list (string * Z)
}.

(** [map.set(key, value)]. *)
Fixpoint set (key : string) (value : Z) (m : list (string * Z))
  : list (string * Z) :=
  match m with
  | [] => [(key, value)]
  | (k, v) :: r =>
      if String.eqb k key then (k, value) :: r else (k, v) :: set key value r
  end.

(** [map.get(key) || dflt]. *)
Definition get_or (key : string) (m : list (string * Z)) (dflt : Z) : Z :=
  match lookup key m with
  | Some v => if v =? 0 then dflt else v
  | None => dflt
  end.

Section Methods.
Context {W : Type} {RT : Runtime W}.

Definition new : M (W:=W) t :=
  t0 <- now ;;
  ret {| startTime := t0; marks := []; durations := [] |}.

Definition mark (tr : t) (name : string) : M (W:=W) t :=
  t1 <- now ;;
  ret {| startTime := startTime tr;
         marks := set name t1 (marks tr);
         durations := durations tr |}.

Definition measure (tr : t) (name startMark : string) : M (W:=W) (Z * t) :=
  let startTime := get_or startMark (marks tr) (startTime tr) in
  t1 <- now ;;
  let duration := t1 - startTime in
  ret (duration,
       {| TimingTracker.startTime := TimingTracker.startTime tr;
          marks := marks tr;
          durations := set name duration (durations tr) |}).

Definition measureFromStart (tr : t) (name : string) : M (W:=W) (Z * t) :=
  t1 <- now ;;
  let duration := t1 - startTime tr in
  ret (duration,
       {| startTime := startTime tr;
          marks := marks tr;
          durations := set name duration (durations tr) |}).

Definition getDuration (tr : t) (name : string) : Z :=
  get_or name (durations tr) 0.

Definition getTotalMs (tr : t) : M (W:=W) Z :=
  t1 <- now ;;
  ret (t1 - startTime tr).

End Methods.

End TimingTracker.

(* --------------------------------------------------------------------- *)
(** ** Route executor                                                      *)
(* --------------------------------------------------------------------- *)

Module RouteExecutor.

Record t (W : Type) := {
  systemPrompts : RouteType -> string;
  providerManager : ProviderManager.t W
}.

Record Config (W : Type) := {
  (** Custom system prompts for each route *)
  cfg_systemPrompts : option (RouteType -> option string);
  (** Provider manager instance (optional, will create if not provided) *)
  cfg_providerManager : option (ProviderManager.t W)
}.

Section Methods.
Context {W : Type} {RT : Runtime W}.

Definition new (env : ProviderManager.Env W) (config : option (Config W))
  : M (W:=W) (t W) :=
  let prompts (route : RouteType) : string :=
    match config with
    | Some {| cfg_systemPrompts := Some custom |} =>
        match custom route with
        | Some p => p
        | None => DEFAULT_SYSTEM_PROMPTS route
        end
    | _ => DEFAULT_SYSTEM_PROMPTS route
    end in
  pm <- match config with
        | Some {| cfg_providerManager := Some pm |} => ret pm
        | _ => ProviderManager.new env None
        end ;;
  ret {| systemPrompts := prompts; providerManager := pm |}.

(** Build messages array from context. *)
Definition buildMessages (context : ExecutionContext) : list Message :=
  (* Add conversation history if present *)
  let messages :=
    match ctx_conversationHistory context with
    | Some history => history
    | None => []
    end in
  (* Build the current query with context *)
  let userMessage :=
    match retrievedContext context with
    | Some retrieved =>
        if String.eqb retrieved "" then ctx_query context
        else "Context:" ++ nl ++ retrieved ++ nl ++ nl
             ++ "Question: " ++ ctx_query context
    | None => ctx_query context
    end in
  (messages ++ [{| msg_role := user; msg_content := userMessage |}])%list.

(** Estimate token count (rough approximation). *)
Definition estimateTokens (text : string) : number :=
  Zn (ceil_div4 (String.length text)).

(** Estimate cost from model and tokens.  The token counts enter the
    binary64 arithmetic here. *)
Definition estimateCostFromTokens (model : string)
           (inputTokens outputTokens : number) : F64.t :=
  let inputTokens := F64.of_number inputTokens in
  let outputTokens := F64.of_number outputTokens in
  match
    (* Try to find model in registry by ID *)
    estimateCost model inputTokens outputTokens
  with
  | Ok cost => cost
  | Throw _ =>
      (* Default estimate if model not found *)
      let inputCost :=
        F64.mul (F64.div inputTokens (F64.of_Z 1000000)) (F64.of_number (dec 300 100)) in
      let outputCost :=
        F64.mul (F64.div outputTokens (F64.of_Z 1000000)) (F64.of_number (dec 1500 100)) in
      F64.add inputCost outputCost
  end.

(** Execute a query through the appropriate route. *)
Definition execute (ex : t W) (route : RouteType) (context : ExecutionContext)
  : M (W:=W) ExecutionResult :=
  timing <- TimingTracker.new ;;
  let routeConfig := getRouteConfig route in
  primaryModel <- lift (getRouteModel route) ;;
  timing <- TimingTracker.mark timing "generation_start" ;;
  (* Build messages *)
  let messages := buildMessages context in
  (* Get system prompt *)
  let systemPrompt :=
    match ctx_systemPrompt context with
    | Some p => if String.eqb p "" then systemPrompts ex route else p
    | None => systemPrompts ex route
    end in
  (* Execute with provider manager *)
  let chatOptions :=
    {| temperature := Some (rc_temperature routeConfig);
       maxTokens := Some (rc_maxTokens routeConfig);
       jsonMode := None |} in
  let fallbackUsed := false in
  let fallbackReason : option string := None in
  attempt <- try_catch
               (result <- ProviderManager.chat (providerManager ex) messages
                                               systemPrompt (Some chatOptions) ;;
                ret (result, fallbackUsed, fallbackReason))
               (fun error =>
                  let fallbackUsed := true in
                  let fallbackReason := Some (err_message error) in
                  throw error) ;;
  let '(result, fallbackUsed, fallbackReason) := attempt in
  measured <- TimingTracker.measure timing "generationMs" "generation_start" ;;
  let '(generationMs, timing) := measured in
  (* Calculate costs *)
  let estimate_in :=
    estimateTokens (systemPrompt ++ join (map msg_content messages)) in
  let estimate_out := estimateTokens (content result) in
  let inputTokens :=
    match usage result with
    | Some u => num_or (inputTokens u) estimate_in
    | None => estimate_in
    end in
  let outputTokens :=
    match usage result with
    | Some u => num_or (outputTokens u) estimate_out
    | None => estimate_out
    end in
  total <- TimingTracker.getTotalMs timing ;;
  ret {| answer := content result;
         res_route := route;
         res_model := model result;
         res_provider := provider result;
         res_confidence :=
           match routerDecision context with
           | Some d => jnum_or (confidence d) (dec 8 10)
           | None => dec 8 10
           end;
         timing :=
           {| totalMs := Zn total;
              routingMs := match routerDecision context with
                           | Some d => latencyMs d
                           | None => None
                           end;
              generationMs := Zn generationMs |};
         costs :=
           {| estimated := estimateCostFromTokens (model result)
                                                  inputTokens outputTokens;
              cost_inputTokens := inputTokens;
              cost_outputTokens := outputTokens |};
         metadata :=
           {| fallbackUsed := fallbackUsed;
              fallbackReason := fallbackReason;
              routerBypassed := match routerDecision context with
                                | Some d => Some (bypassed d)
                                | None => None
                                end |} |}.

Definition getSystemPrompt (ex : t W) (route : RouteType) : string :=
  systemPrompts ex route.

Definition setSystemPrompt (ex : t W) (route : RouteType) (prompt : string)
  : t W :=
  {| systemPrompts :=
       fun r => if String.eqb (route_name r) (route_name route)
                then prompt else systemPrompts ex r;
     providerManager := providerManager ex |}.

End Methods.

End RouteExecutor.

(* ===================================================================== *)
(** * index.ts: the all-in-one orchestrator                                *)
(* ===================================================================== *)

Module Orchestrator.

Record t (W : Type) := {
  router : IntelligentRouter.t W;
  executor : RouteExecutor.t W;
  providerManager : ProviderManager.t W
}.

Record Config (W : Type) := {
  cfg_router : option RouterConfigOptions;
  cfg_executor : option (RouteExecutor.Config W);
  cfg_providers : option ProviderManager.Options
}.

Section Methods.
Context {W : Type} {RT : Runtime W}.

Definition new (env : ProviderManager.Env W) (config : option (Config W))
  : M (W:=W) (t W) :=
  let field {A} (f : Config W -> option A) : option A :=
    match config with Some c => f c | None => None end in
  pm <- ProviderManager.new env (field (@cfg_providers W)) ;;
  r <- IntelligentRouter.new (ProviderManager.ANTHROPIC_API_KEY env)
                             (field (@cfg_router W)) ;;
  ex <- RouteExecutor.new env
          (Some {| RouteExecutor.cfg_systemPrompts :=
                     match field (@cfg_executor W) with
                     | Some c => RouteExecutor.cfg_systemPrompts c
                     | None => None
                     end;
                   RouteExecutor.cfg_providerManager := Some pm |}) ;;
  ret {| router := r; executor := ex; providerManager := pm |}.

(** Runs [m] and hands back its outcome instead of throwing. *)
Definition settle {A} (m : M (W:=W) A) : M (W:=W) (Outcome A) :=
  try_catch (a <- m ;; ret (Ok a)) (fun e => ret (Throw e)).

(** Process a query through routing and execution.  The result comes
    with the orchestrator as the call leaves it: the router's
    statistics have moved on even when execution throws. *)
Definition process (o : t W) (context : ExecutionContext)
  : M (W:=W) (Outcome ExecutionResult * t W) :=
  (* Route the query *)
  routed <- IntelligentRouter.route (router o)
              {| query := ctx_query context;
                 mode := ctx_mode context;
                 conversationHistory := ctx_conversationHistory context;
                 context := None |} ;;
  let '(decision, router') := routed in
  (* Execute through the selected route *)
  res <- settle (RouteExecutor.execute (executor o) (route decision)
                   {| ctx_query := ctx_query context;
                      ctx_mode := ctx_mode context;
                      routerDecision := Some decision;
                      ctx_systemPrompt := ctx_systemPrompt context;
                      ctx_conversationHistory := ctx_conversationHistory context;
                      retrievedContext := retrievedContext context;
                      ctx_metadata := ctx_metadata context |}) ;;
  ret (res, {| router := router'; executor := executor o;
               providerManager := providerManager o |}).

(** Process with a specific route (bypass routing). *)
Definition processWithRoute (o : t W) (route : RouteType)
           (context : ExecutionContext) : M (W:=W) ExecutionResult :=
  RouteExecutor.execute (executor o) route context.

Definition getStats (o : t W) : RouterStats :=
  IntelligentRouter.getStats (router o).

Definition isReady (o : t W) : bool :=
  ProviderManager.isAvailable (providerManager o).

Definition getAvailableProviders (o : t W) : list string :=
  ProviderManager.getAvailableProviders (providerManager o).

End Methods.

End Orchestrator.

(* ===================================================================== *)
(** * A small world to run the code in                                     *)
(* ===================================================================== *)

(** The world is a clock in milliseconds; reading it takes one
    millisecond, a remote request takes a hundred. *)
Module Sample.

(** No string, array or object used below denotes a number. *)
#[export] Instance runtime : Runtime Z :=
  {| Date_now := fun t => (t, t + 1);
     coerce_number := fun _ => Ok F64.nan |}.

Definition rate_limited : JsError := mkError (Some 429) "429 Too Many Requests".
Definition unavailable : JsError := mkError (Some 503) "503 Service Unavailable".
Definition unauthorized : JsError := mkError (Some 401) "401 invalid x-api-key".
Definition quota_exceeded : JsError :=
  mkError (Some 403) "403 Forbidden: quota exceeded for this project".

(** An [AIProvider] that always throws [e]. *)
Definition down (label : string) (e : JsError) : AIProvider Z :=
  MkAIProvider label
    (fun _ _ _ w => (Throw e, w + 100, [Remote label "primary"]))
    true.

(** An [AIProvider] that always answers. *)
Definition up (label modelName : string) : AIProvider Z :=
  MkAIProvider label
    (fun _ _ _ w =>
       (Ok {| content := "42"; provider := label; model := modelName;
              usage := Some {| inputTokens := Zn 12; outputTokens := Zn 3 |} |},
        w + 100, [Remote label modelName]))
    true.

Definition hello : list Message :=
  [{| msg_role := user; msg_content := "What is the answer?" |}].

Definition pm_two_down_one_up : ProviderManager.t Z :=
  {| ProviderManager.providers :=
       [down "A" rate_limited; down "B" unauthorized; up "C" "c-1"; up "D" "d-1"] |}.

Definition pm_all_down : ProviderManager.t Z :=
  {| ProviderManager.providers :=
       [down "A" rate_limited; down "B" unauthorized] |}.

Definition pm_none : ProviderManager.t Z :=
  {| ProviderManager.providers := [] |}.


(** ** Adapters over scripted SDK clients

    Each client throws [e] when asked for the adapter's default primary
    model and answers for any other model. *)

Definition claude_reply : AnthropicProvider.Response :=
  {| AnthropicProvider.resp_content :=
       [{| AnthropicProvider.type := "text"; AnthropicProvider.text := "Hello" |}];
     AnthropicProvider.stop_reason := Some "end_turn";
     AnthropicProvider.input_tokens := Zn 20;
     AnthropicProvider.output_tokens := Zn 5 |}.

Definition claude_client (e : JsError) : AnthropicProvider.Client Z :=
  fun req w =>
    if String.eqb (AnthropicProvider.req_model req) "claude-sonnet-4-20250514"
    then (Throw e, w + 100)
    else (Ok claude_reply, w + 100).

Definition claude (e : JsError) : AnthropicProvider.t Z :=
  AnthropicProvider.new (Some (claude_client e)) None.

Definition gpt_reply : OpenAIProvider.Response :=
  {| OpenAIProvider.choices :=
       [{| OpenAIProvider.message_content := Some "Hello";
           OpenAIProvider.finish_reason := Some "stop" |}];
     OpenAIProvider.resp_usage := Some (Zn 20, Zn 5) |}.

Definition gpt_client (e : JsError) : OpenAIProvider.Client Z :=
  fun req w =>
    if String.eqb (OpenAIProvider.req_model req) "gpt-4o"
    then (Throw e, w + 100)
    else (Ok gpt_reply, w + 100).

Definition gpt (e : JsError) : OpenAIProvider.t Z :=
  OpenAIProvider.new (Some (gpt_client e)) None.

Definition gemini_reply : GeminiProvider.Response :=
  {| GeminiProvider.resp_text := Ok "Hello";
     GeminiProvider.finishReason := Some "STOP";
     GeminiProvider.usageMetadata := Some (Some (Zn 20), Some (Zn 5)) |}.

Definition gemini_client (e : JsError) : GeminiProvider.Client Z :=
  fun req w =>
    if String.eqb (GeminiProvider.req_model req) "gemini-1.5-pro"
    then (Throw e, w + 100)
    else (Ok gemini_reply, w + 100).

Definition gemini (e : JsError) : GeminiProvider.t Z :=
  GeminiProvider.new (Some (gemini_client e)) None.


(** ** Routers *)

Definition router_config : RouterConfig :=
  {| complexSignals := DEFAULT_COMPLEX_SIGNALS;
     researchSignals := DEFAULT_RESEARCH_SIGNALS;
     creativeSignals := DEFAULT_CREATIVE_SIGNALS;
     simplePatterns := DEFAULT_SIMPLE_PATTERNS;
     systemPrompt := DEFAULT_ROUTER_PROMPT |}.

(** A router without credentials. *)
Definition offline_router : IntelligentRouter.t Z :=
  {| IntelligentRouter.client := None;
     IntelligentRouter.modelId := "claude-3-5-haiku-20241022";
     IntelligentRouter.config := router_config;
     IntelligentRouter.stats := IntelligentRouter.initial_stats |}.

(** A classifier that answers every request with the text [reply]. *)
Definition classifier (reply : string) : AnthropicProvider.Client Z :=
  fun _ w =>
    (Ok {| AnthropicProvider.resp_content :=
             [{| AnthropicProvider.type := "text";
                 AnthropicProvider.text := reply |}];
           AnthropicProvider.stop_reason := Some "end_turn";
           AnthropicProvider.input_tokens := Zn 300;
           AnthropicProvider.output_tokens := Zn 40 |},
     w + 100).

Definition router_with (reply : string) : IntelligentRouter.t Z :=
  {| IntelligentRouter.client := Some (classifier reply);
     IntelligentRouter.modelId := "claude-3-5-haiku-20241022";
     IntelligentRouter.config := router_config;
     IntelligentRouter.stats := IntelligentRouter.initial_stats |}.

Definition ask (text : string) (m : option Mode) : RouterInput :=
  {| query := text; mode := m; conversationHistory := None; context := None |}.

Definition long_question : string :=
  "Please tell me everything there is to know about monads in functional programming".


(** ** Executors *)

Definition executor_of (pm : ProviderManager.t Z) : RouteExecutor.t Z :=
  {| RouteExecutor.systemPrompts := DEFAULT_SYSTEM_PROMPTS;
     RouteExecutor.providerManager := pm |}.

Definition pm_one_up : ProviderManager.t Z :=
  {| ProviderManager.providers := [up "C" "c-1"] |}.

Definition context_with (decision : option RouterDecision) : ExecutionContext :=
  {| ctx_query := "What is the answer?";
     ctx_mode := None;
     routerDecision := decision;
     ctx_systemPrompt := None;
     ctx_conversationHistory := None;
     retrievedContext := None;
     ctx_metadata := None |}.

(** A decision as the router makes it when the classifier reports a
    negative confidence: the clamp leaves [0]. *)
Definition unsure_decision : RouterDecision :=
  {| route := standard;
     confidence := Num (Zn 0);
     reasoning := JText "no idea";
     complexitySignals := JArr [];
     bypassed := false;
     timestamp := 990;
     latencyMs := Some (Zn 12) |}.


(** ** More scripted clients *)

(** A Claude client that always answers; the answer's first block has
    the given [type] and the response the given [stop_reason]. *)
Definition claude_answering (block_type stop : string)
  : AnthropicProvider.Client Z :=
  fun _ w =>
    (Ok {| AnthropicProvider.resp_content :=
             [{| AnthropicProvider.type := block_type;
                 AnthropicProvider.text := "Hello" |}];
           AnthropicProvider.stop_reason := Some stop;
           AnthropicProvider.input_tokens := Zn 20;
           AnthropicProvider.output_tokens := Zn 5 |},
     w + 100).

Definition claude_over (c : AnthropicProvider.Client Z) : AnthropicProvider.t Z :=
  AnthropicProvider.new (Some c) None.

(** A GPT client that always answers with the given choices. *)
Definition gpt_answering (cs : list OpenAIProvider.Choice)
  : OpenAIProvider.Client Z :=
  fun _ w =>
    (Ok {| OpenAIProvider.choices := cs; OpenAIProvider.resp_usage := None |},
     w + 100).

Definition gpt_over (c : OpenAIProvider.Client Z) : OpenAIProvider.t Z :=
  OpenAIProvider.new (Some c) None.

(** A classifier whose request always fails with [e]. *)
Definition broken_classifier (e : JsError) : AnthropicProvider.Client Z :=
  fun _ w => (Throw e, w + 100).

Definition router_over (c : AnthropicProvider.Client Z) : IntelligentRouter.t Z :=
  {| IntelligentRouter.client := Some c;
     IntelligentRouter.modelId := "claude-3-5-haiku-20241022";
     IntelligentRouter.config := router_config;
     IntelligentRouter.stats := IntelligentRouter.initial_stats |}.


(** ** Orchestrators *)

Definition orchestrator_of (r : IntelligentRouter.t Z) (pm : ProviderManager.t Z)
  : Orchestrator.t Z :=
  {| Orchestrator.router := r;
     Orchestrator.executor := executor_of pm;
     Orchestrator.providerManager := pm |}.


(** A GPT client whose default primary model throws [e] and whose other
    models answer with the given choices. *)
Definition gpt_failing_then (e : JsError) (cs : list OpenAIProvider.Choice)
  : OpenAIProvider.Client Z :=
  fun req w =>
    if String.eqb (OpenAIProvider.req_model req) "gpt-4o"
    then (Throw e, w + 100)
    else (Ok {| OpenAIProvider.choices := cs;
                OpenAIProvider.resp_usage := None |}, w + 100).

(** A Gemini client that always answers [reply]. *)
Definition gemini_answering (reply : GeminiProvider.Response)
  : GeminiProvider.Client Z :=
  fun _ w => (Ok reply, w + 100).

Definition gemini_over (c : GeminiProvider.Client Z) : GeminiProvider.t Z :=
  GeminiProvider.new (Some c) None.

Definition dialogue : list Message :=
  [{| msg_role := user; msg_content := "Hi" |};
   {| msg_role := assistant; msg_content := "Hello, how can I help?" |}].


(** A context that brings its own system prompt. *)
Definition prompted (p : string) : ExecutionContext :=
  {| ctx_query := "What is the answer?";
     ctx_mode := None;
     routerDecision := None;
     ctx_systemPrompt := Some p;
     ctx_conversationHistory := None;
     retrievedContext := None;
     ctx_metadata := None |}.


(** A Provider Manager whose one provider answers under the model
    identifier [modelName]. *)
Definition pm_answering_as (modelName : string) : ProviderManager.t Z :=
  {| ProviderManager.providers := [up "C" modelName] |}.

End Sample.

(* ===================================================================== *)
(** * Vocabulary of the statements                                         *)
(* ===================================================================== *)

Section ManagerVocabulary.
Context {W : Type}.
Variables (messages : list Message) (systemPrompt : string)
          (options : option ChatOptions).

Definition trying (p : AIProvider W) : Event :=
  Console LLog ("[ProviderManager] Trying: " ++ name p).
Definition succeeded (p : AIProvider W) : Event :=
  Console LLog ("[ProviderManager] Success: " ++ name p).
Definition failed (p : AIProvider W) (e : JsError) : Event :=
  Console LError ("[ProviderManager] " ++ name p ++ " failed: " ++ err_message e).

(** [AllFail ps w w' evs errs]: called one after the other from world
    [w], every provider of [ps] throws; [errs] lists their errors in
    order, [evs] is the trace of these rounds, [w'] the world they leave. *)
Inductive AllFail
  : list (AIProvider W) -> W -> W -> list Event -> list JsError -> Prop :=
| AllFail_nil w : AllFail [] w w [] []
| AllFail_cons p ps w e w1 ev1 w2 evs errs :
    chat p messages systemPrompt options w = (Throw e, w1, ev1) ->
    AllFail ps w1 w2 evs errs ->
    AllFail (p :: ps) w w2
            (trying p :: ev1 ++ failed p e :: evs)%list (e :: errs).

Fixpoint last_error (errs : list JsError) (dflt : option JsError)
  : option JsError :=
  match errs with
  | [] => dflt
  | e :: r => last_error r (Some e)
  end.

End ManagerVocabulary.

Section AdapterVocabulary.
Context {W : Type}.

(** [run] is a call of [chat] whose primary request failed; [retry] is
    the single call of [chatWithModel] on the fallback model from the
    world the failure left.  [run] ends as [retry] does, its requests
    are the primary one and then the one request of [retry]; an answer
    carries the fallback model and the adapter's name. *)
Definition RetriedOnce (run retry : Outcome ChatResult * W * list Event)
           (adapter primary fallback : string) : Prop :=
  outcome run = outcome retry
  /\ world run = world retry
  /\ remote_calls (trace retry) = [(adapter, fallback)]
  /\ remote_calls (trace run) = [(adapter, primary); (adapter, fallback)]
  /\ (forall r, outcome run = Ok r -> model r = fallback /\ provider r = adapter).

End AdapterVocabulary.

Section RouterVocabulary.
Context {W : Type} {RT : Runtime W}.

(** The world after [n] readings of the clock, and what the next reading
    returns. *)
Fixpoint after_reads (n : nat) (w : W) : W :=
  match n with
  | O => w
  | S k => after_reads k (snd (Date_now w))
  end.

Definition reading (n : nat) (w : W) : Z := fst (Date_now (after_reads n w)).

(** [query.trim().split(/\s+/).length]. *)
Definition word_count (query : string) : nat :=
  List.length (split_ws (trim query)).

(** The block of the classifier's text that [JSON.parse] turns into an
    object, if there is one. *)
Definition parsed_object (text : string) : option JsValue :=
  match match_json_block text with
  | Some block =>
      match Json.parse block with
      | Some (JObj members) => Some (JObj members)
      | _ => None
      end
  | None => None
  end.

(** The value [parseRouterResponse] clamps: [parsed.confidence || 0.7]. *)
Definition reported_confidence (parsed : JsValue) : JsValue :=
  if truthy (get parsed "confidence")
  then get parsed "confidence" else JNum (F64.of_ratio false 7 10).

(** [validRoutes.includes(parsed.route)], as the route it names. *)
Definition reported_route (parsed : JsValue) : option RouteType :=
  match get parsed "route" with
  | JStr s => route_of_string s
  | _ => None
  end.

(** [route] called on each input in turn, the router and the world handed
    on from call to call: the decisions made, the router and the world at
    the end.  (A call that throws would end the sequence; none does.) *)
Fixpoint route_all (r : IntelligentRouter.t W) (inputs : list RouterInput)
         (w : W) : list RouterDecision * IntelligentRouter.t W * W :=
  match inputs with
  | [] => ([], r, w)
  | input :: rest =>
      match IntelligentRouter.route r input w with
      | (Ok (d, r'), w', _) =>
          let '(ds, r'', w'') := route_all r' rest w' in (d :: ds, r'', w'')
      | (Throw _, w', _) => ([], r, w')
      end
  end.

End RouterVocabulary.

Definition parse_error_line : Event :=
  Console LError "[Router] Failed to parse response, using standard route".

(** The decision [llmRoute] builds from what [parseRouterResponse]
    returned and from its two readings of the clock. *)
Definition decision_of_parsed (parsed : IntelligentRouter.Parsed)
           (timestamp finish startTime : Z) : RouterDecision :=
  {| route := IntelligentRouter.p_route parsed;
     confidence := IntelligentRouter.p_confidence parsed;
     reasoning := IntelligentRouter.p_reasoning parsed;
     complexitySignals :=
       if truthy (IntelligentRouter.p_complexity_signals parsed)
       then IntelligentRouter.p_complexity_signals parsed else JArr [];
     bypassed := false;
     timestamp := timestamp;
     latencyMs := Some (Zn (finish - startTime)) |}.

(** The decision of the bypass tier. *)
Definition bypass_decision (timestamp finish startTime : Z) : RouterDecision :=
  {| route := fast;
     confidence := Num (dec 95 100);
     reasoning := JText "Query matched simple pattern - router bypassed";
     complexitySignals := JArr [];
     bypassed := true;
     timestamp := timestamp;
     latencyMs := Some (Zn (finish - startTime)) |}.

(** [input.mode || 'standard']. *)
Definition mode_of (input : RouterInput) : Mode :=
  match mode input with
  | Some m => m
  | None => mode_standard
  end.

Definition in_unit (c : number) : Prop := (Zn 0 <= c)%Qc /\ (c <= Zn 1)%Qc.

(** A confidence the router can hand out: [NaN], or a number of [[0, 1]]. *)
Definition unit_or_NaN (x : JsNum) : Prop :=
  match x with
  | NaN => True
  | Num c => in_unit c
  end.


Section ExecutorVocabulary.
Context {W : Type} {RT : Runtime W}.

(** What [execute] hands to the Provider Manager. *)
Definition executor_prompt (ex : RouteExecutor.t W) (route : RouteType)
           (context : ExecutionContext) : string :=
  match ctx_systemPrompt context with
  | Some p => if String.eqb p "" then RouteExecutor.systemPrompts ex route else p
  | None => RouteExecutor.systemPrompts ex route
  end.

Definition executor_options (route : RouteType) : option ChatOptions :=
  Some {| temperature := Some (rc_temperature (getRouteConfig route));
          maxTokens := Some (rc_maxTokens (getRouteConfig route));
          jsonMode := None |}.

(** The call of the Provider Manager inside [execute] started in world
    [w]: it comes after two readings of the clock. *)
Definition executor_chat (ex : RouteExecutor.t W) (route : RouteType)
           (context : ExecutionContext) (w : W)
  : Outcome ChatResult * W * list Event :=
  ProviderManager.chat (RouteExecutor.providerManager ex)
                       (RouteExecutor.buildMessages context)
                       (executor_prompt ex route context)
                       (executor_options route)
                       (after_reads 2 w).

(** [context.routerDecision?.confidence || 0.8]. *)
Definition inherited_confidence (context : ExecutionContext) : number :=
  match routerDecision context with
  | Some d => jnum_or (confidence d) (dec 8 10)
  | None => dec 8 10
  end.

(** [context.routerDecision?.latencyMs]. *)
Definition inherited_latency (context : ExecutionContext) : option number :=
  match routerDecision context with
  | Some d => latencyMs d
  | None => None
  end.

(** The estimate [execute] falls back on for the input tokens: a quarter
    of the length of the system prompt followed by all message contents. *)
Definition estimated_input (ex : RouteExecutor.t W) (route : RouteType)
           (context : ExecutionContext) : number :=
  RouteExecutor.estimateTokens
    (executor_prompt ex route context
     ++ join (map msg_content (RouteExecutor.buildMessages context))).

(** What [process] hands to the router and to the executor. *)
Definition router_input (ctx : ExecutionContext) : RouterInput :=
  {| query := ctx_query ctx;
     mode := ctx_mode ctx;
     conversationHistory := ctx_conversationHistory ctx;
     context := None |}.

Definition with_decision (ctx : ExecutionContext) (d : RouterDecision)
  : ExecutionContext :=
  {| ctx_query := ctx_query ctx;
     ctx_mode := ctx_mode ctx;
     routerDecision := Some d;
     ctx_systemPrompt := ctx_systemPrompt ctx;
     ctx_conversationHistory := ctx_conversationHistory ctx;
     retrievedContext := retrievedContext ctx;
     ctx_metadata := ctx_metadata ctx |}.

(** The orchestrator with its router replaced. *)
Definition with_router (o : Orchestrator.t W) (r : IntelligentRouter.t W)
  : Orchestrator.t W :=
  {| Orchestrator.router := r;
     Orchestrator.executor := Orchestrator.executor o;
     Orchestrator.providerManager := Orchestrator.providerManager o |}.

End ExecutorVocabulary.

Section ConstructorVocabulary.
Context {W : Type}.

(** [options?.providerOrder || ['anthropic', 'openai', 'google']]. *)
Definition requested_order (options : option ProviderManager.Options)
  : list Provider :=
  match options with
  | Some {| ProviderManager.providerOrder := Some o |} => o
  | _ => [anthropic; openai; google]
  end.

Definition has_credential (env : ProviderManager.Env W) (p : Provider) : bool :=
  match p with
  | anthropic =>
      match ProviderManager.ANTHROPIC_API_KEY env with Some _ => true | None => false end
  | openai =>
      match ProviderManager.OPENAI_API_KEY env with Some _ => true | None => false end
  | google =>
      match ProviderManager.GOOGLE_AI_API_KEY env with Some _ => true | None => false end
  end.

Definition adapter_name (p : Provider) : string :=
  match p with
  | anthropic => AnthropicProvider.name
  | openai => OpenAIProvider.name
  | google => GeminiProvider.name
  end.

End ConstructorVocabulary.

(** Counters read off a list of decisions. *)
Definition dist_total (d : Distribution) : Z :=
  n_fast d + n_standard d + n_deep d + n_creative d + n_research d.

Definition count_bypassed (ds : list RouterDecision) : Z :=
  Z.of_nat (List.length (filter bypassed ds)).

Definition RouteType_eqb (a b : RouteType) : bool :=
  String.eqb (route_name a) (route_name b).

Definition count_route (rt : RouteType) (ds : list RouterDecision) : Z :=
  Z.of_nat (List.length (filter (fun d => RouteType_eqb (route d) rt) ds)).

Definition dist_of (d : Distribution) (rt : RouteType) : Z :=
  match rt with
  | fast => n_fast d
  | standard => n_standard d
  | deep => n_deep d
  | creative => n_creative d
  | research => n_research d
  end.

(** ** Prices *)

(** [(i / 1,000,000) * inputPrice + (o / 1,000,000) * outputPrice], each
    operation rounded to binary64. *)
Definition priced_at (inputPrice outputPrice i o : F64.t) : F64.t :=
  F64.add (F64.mul (F64.div i (F64.of_Z 1000000)) inputPrice)
          (F64.mul (F64.div o (F64.of_Z 1000000)) outputPrice).

(** The price of [i] input and [o] output tokens at USD 3.00 and
    USD 15.00 per million. *)
Definition default_price (i o : number) : F64.t :=
  priced_at (F64.of_Z 3) (F64.of_Z 15) (F64.of_number i) (F64.of_number o).

(** The price of [i] input and [o] output tokens at the prices of a
    model of the table. *)
Definition table_price (cfg : ModelConfig) (i o : number) : F64.t :=
  priced_at (F64.of_number (inputCost cfg)) (F64.of_number (outputCost cfg))
            (F64.of_number i) (F64.of_number o).

(** ** Model selection *)

(** [m] passes the filters of [getCheapestModel options]. *)
Definition meets (options : CheapestOptions) (m : ModelConfig) : Prop :=
  (forall p, want_provider options = Some p -> mc_provider m = p)
  /\ (forall t, want_tier options = Some t -> tier m = t)
  /\ (forall n, minContextWindow options = Some n -> n <> Zn 0 ->
                (n <= contextWindow m)%Qc).

(** The head of [l], if any, costs no more than the rest. *)
Definition head_cheapest (l : list ModelConfig) : Prop :=
  match l with
  | [] => True
  | h :: r => forall x, In x r -> (total_cost h <= total_cost x)%Qc
  end.

(** ** Routing without a classifier *)

(** The route the heuristic tier decides on. *)
Definition heuristic_choice {W : Type} (r : IntelligentRouter.t W)
           (q0 : string) (m : Mode) : RouteType :=
  match m with
  | mode_research =>
      if IntelligentRouter.hasResearchSignals r q0 then research else standard
  | mode_standard =>
      if IntelligentRouter.hasCreativeSignals r q0 then creative
      else if IntelligentRouter.hasComplexSignals r q0 then deep
      else if (word_count q0 <? 10)%nat
              && some (fun p => p q0) (simplePatterns (IntelligentRouter.config r))
      then fast
      else standard
  end.

(* ===================================================================== *)
(** * Properties                                                           *)
(* ===================================================================== *)

(** ** Numbers *)

Lemma Zn_0 : Zn 0 = 0%Qc.
Proof. apply Qc_is_canon. reflexivity. Qed.

Lemma Zn_1 : Zn 1 = 1%Qc.
Proof. apply Qc_is_canon. reflexivity. Qed.


Lemma Zn_inj (a b : Z) : Zn a = Zn b -> a = b.
Proof.
  intros H. apply (f_equal this) in H. unfold Zn, Q2Qc in H; cbn [this] in H.
  assert (E : inject_Z a == inject_Z b).
  { rewrite <- (Qred_correct (inject_Z a)), <- (Qred_correct (inject_Z b)).
    rewrite H. reflexivity. }
  unfold Qeq in E. cbn in E. lia.
Qed.


Lemma num_eqb_true (a b : number) : num_eqb a b = true <-> a = b.
Proof.
  unfold num_eqb. rewrite Qeq_bool_iff. split.
  - apply Qc_is_canon.
  - intros ->. reflexivity.
Qed.

Lemma num_eqb_false (a b : number) : num_eqb a b = false <-> a <> b.
Proof.
  rewrite <- num_eqb_true. destruct (num_eqb a b); split; congruence.
Qed.

Lemma num_leb_true (a b : number) : num_leb a b = true <-> (a <= b)%Qc.
Proof. unfold num_leb, Qcle. apply Qle_bool_iff. Qed.

Lemma num_leb_false (a b : number) : num_leb a b = false -> (b <= a)%Qc.
Proof.
  intros H. destruct (Qclt_le_dec a b) as [Hlt | Hle]; [| exact Hle].
  apply Qclt_le_weak in Hlt. apply num_leb_true in Hlt. congruence.
Qed.


Lemma Ok_inj (A : Type) (a b : A) : Ok a = Ok b -> a = b.
Proof. intros H. injection H as H. exact H. Qed.

Lemma Qccompare_Lt (a b : number) : (a ?= b)%Qc = Lt <-> (a < b)%Qc.
Proof. symmetry. apply Qclt_alt. Qed.

Lemma Qccompare_Gt (a b : number) : (a ?= b)%Qc = Gt <-> (b < a)%Qc.
Proof. symmetry. apply Qcgt_alt. Qed.

Lemma Qccompare_Eq (a b : number) : (a ?= b)%Qc = Eq <-> a = b.
Proof. symmetry. apply Qceq_alt. Qed.

Lemma rational_one : F64.rational (F64.of_Z 1) = Zn 1.
Proof. apply Qc_is_canon. reflexivity. Qed.

Lemma rational_zero (s : bool) : F64.rational (S754_zero s) = Zn 0.
Proof. apply Qc_is_canon. reflexivity. Qed.

(** The clamp [Math.max(0, Math.min(1, x))] of a finite number: of the
    rational it is, what lies nearest in [[0, 1]]. *)
Lemma clamp_finite (x : F64.t) :
  (forall s, x <> S754_infinity s) -> x <> S754_nan ->
  number_of (Math_max F64.zero (Math_min (F64.of_Z 1) x))
  = Num (if num_leb (F64.rational x) (Zn 0) then Zn 0
         else if num_leb (Zn 1) (F64.rational x) then Zn 1
         else F64.rational x).
Proof.
  intros Hinf Hnan.
  assert (C1 : F64.compare (F64.of_Z 1) x = Some (Zn 1 ?= F64.rational x)%Qc).
  { rewrite <- rational_one.
    destruct x as [s | s | | s m e]; try reflexivity.
    - exfalso. exact (Hinf s eq_refl).
    - contradiction. }
  assert (C0 : forall y, (forall s, y <> S754_infinity s) -> y <> S754_nan ->
                         F64.compare F64.zero y
                         = Some (Zn 0 ?= F64.rational y)%Qc).
  { intros y Hi Hn. rewrite <- (rational_zero false).
    destruct y as [s | s | | s m e]; try reflexivity.
    - exfalso. exact (Hi s eq_refl).
    - contradiction. }
  assert (L01 : (Zn 0 < Zn 1)%Qc) by (rewrite Zn_0, Zn_1; reflexivity).
  unfold Math_min. rewrite C1.
  destruct (Zn 1 ?= F64.rational x)%Qc eqn:E.
  - (* x is one *)
    apply Qccompare_Eq in E.
    replace (match F64.of_Z 1 with S754_zero true => F64.of_Z 1 | _ => x end)
      with x by reflexivity.
    unfold Math_max. rewrite (C0 x Hinf Hnan), <- E.
    replace (Zn 0 ?= Zn 1)%Qc with Lt by (symmetry; apply Qccompare_Lt; exact L01).
    replace (num_leb (Zn 1) (Zn 0)) with false by reflexivity.
    replace (num_leb (Zn 1) (Zn 1)) with true by reflexivity.
    destruct x as [s | s | | s m e]; try reflexivity.
    + exfalso. rewrite rational_zero in E. apply Zn_inj in E. discriminate E.
    + exfalso. exact (Hinf s eq_refl).
    + contradiction.
    + unfold number_of. rewrite <- E. reflexivity.
  - (* x is above one *)
    apply Qccompare_Lt in E.
    unfold Math_max. rewrite C0 by ((intros s; discriminate) || discriminate).
    rewrite rational_one.
    replace (Zn 0 ?= Zn 1)%Qc with Lt by (symmetry; apply Qccompare_Lt; exact L01).
    assert (N0 : num_leb (F64.rational x) (Zn 0) = false).
    { destruct (num_leb (F64.rational x) (Zn 0)) eqn:N; [| reflexivity].
      apply num_leb_true in N. exfalso.
      apply (Qclt_not_le _ _ (Qclt_trans _ _ _ L01 E)). exact N. }
    assert (N1 : num_leb (Zn 1) (F64.rational x) = true)
      by (apply num_leb_true; apply Qclt_le_weak; exact E).
    rewrite N0, N1.
    change (number_of (F64.of_Z 1)) with (Num (F64.rational (F64.of_Z 1))).
    rewrite rational_one. reflexivity.
  - (* x is below one *)
    apply Qccompare_Gt in E.
    assert (N1 : num_leb (Zn 1) (F64.rational x) = false).
    { destruct (num_leb (Zn 1) (F64.rational x)) eqn:N; [| reflexivity].
      apply num_leb_true in N. exfalso. exact (Qclt_not_le _ _ E N). }
    rewrite N1.
    unfold Math_max. rewrite (C0 x Hinf Hnan).
    destruct (Zn 0 ?= F64.rational x)%Qc eqn:E0.
    + apply Qccompare_Eq in E0.
      replace (num_leb (F64.rational x) (Zn 0)) with true
        by (symmetry; apply num_leb_true; rewrite <- E0; apply Qcle_refl).
      reflexivity.
    + apply Qccompare_Lt in E0.
      replace (num_leb (F64.rational x) (Zn 0)) with false.
      2:{ symmetry. destruct (num_leb (F64.rational x) (Zn 0)) eqn:N; [| reflexivity].
          apply num_leb_true in N. exfalso. exact (Qclt_not_le _ _ E0 N). }
      destruct x as [s | s | | s m e]; try reflexivity.
      * exfalso. exact (Hinf s eq_refl).
      * contradiction.
    + apply Qccompare_Gt in E0.
      replace (num_leb (F64.rational x) (Zn 0)) with true
        by (symmetry; apply num_leb_true; apply Qclt_le_weak; exact E0).
      reflexivity.
Qed.

(** The clamp of an infinity is the end of [[0, 1]] on its side. *)
Lemma clamp_infinity (s : bool) :
  number_of (Math_max F64.zero (Math_min (F64.of_Z 1) (S754_infinity s)))
  = Num (if s then Zn 0 else Zn 1).
Proof. destruct s; vm_compute; apply f_equal; apply Qc_is_canon; reflexivity. Qed.

Lemma clamp_NaN :
  number_of (Math_max F64.zero (Math_min (F64.of_Z 1) F64.nan)) = NaN.
Proof. reflexivity. Qed.

(** The clamp of a number that is not [NaN] lies in [[0, 1]]. *)
Lemma clamp_unit (x : F64.t) :
  x <> S754_nan ->
  exists c, number_of (Math_max F64.zero (Math_min (F64.of_Z 1) x)) = Num c
            /\ (Zn 0 <= c)%Qc /\ (c <= Zn 1)%Qc.
Proof.
  intros Hnan.
  assert (L01 : (Zn 0 <= Zn 1)%Qc) by (rewrite Zn_0, Zn_1; discriminate).
  destruct x as [s | s | | s m e].
  - rewrite clamp_finite by discriminate.
    destruct (num_leb _ (Zn 0)) eqn:N0.
    + eexists. split; [reflexivity |]. split; [apply Qcle_refl | exact L01].
    + destruct (num_leb (Zn 1) _) eqn:N1.
      * eexists. split; [reflexivity |]. split; [exact L01 | apply Qcle_refl].
      * eexists. split; [reflexivity |].
        split; [apply (num_leb_false N0) | apply (num_leb_false N1)].
  - rewrite clamp_infinity. eexists. split; [reflexivity |].
    destruct s; split; try apply Qcle_refl; exact L01.
  - contradiction.
  - rewrite clamp_finite by discriminate.
    destruct (num_leb _ (Zn 0)) eqn:N0.
    + eexists. split; [reflexivity |]. split; [apply Qcle_refl | exact L01].
    + destruct (num_leb (Zn 1) _) eqn:N1.
      * eexists. split; [reflexivity |]. split; [exact L01 | apply Qcle_refl].
      * eexists. split; [reflexivity |].
        split; [apply (num_leb_false N0) | apply (num_leb_false N1)].
Qed.

(** What the clamp hands to [number_of] is never an infinity. *)
Lemma clamp_never_infinite (x : F64.t) (s : bool) :
  Math_max F64.zero (Math_min (F64.of_Z 1) x) <> S754_infinity s.
Proof.
  destruct x as [sx | sx | | sx m e].
  - destruct sx; vm_compute; discriminate.
  - destruct sx; vm_compute; discriminate.
  - vm_compute. discriminate.
  - unfold Math_min.
    assert (C1 : F64.compare (F64.of_Z 1) (S754_finite sx m e)
                 = Some (F64.rational (F64.of_Z 1) ?= F64.rational (S754_finite sx m e))%Qc)
      by reflexivity.
    rewrite C1.
    destruct (_ ?= _)%Qc.
    + replace (match F64.of_Z 1 with
               | S754_zero true => F64.of_Z 1
               | _ => S754_finite sx m e
               end) with (S754_finite sx m e) by reflexivity.
      unfold Math_max.
      assert (C0 : F64.compare F64.zero (S754_finite sx m e)
                   = Some (F64.rational F64.zero ?= F64.rational (S754_finite sx m e))%Qc)
        by reflexivity.
      rewrite C0. destruct (_ ?= _)%Qc; discriminate.
    + vm_compute. discriminate.
    + unfold Math_max.
      assert (C0 : F64.compare F64.zero (S754_finite sx m e)
                   = Some (F64.rational F64.zero ?= F64.rational (S754_finite sx m e))%Qc)
        by reflexivity.
      rewrite C0. destruct (_ ?= _)%Qc; discriminate.
Qed.

(** ** The registry *)

Lemma getRouteModel_defined (route : RouteType) :
  exists m, getRouteModel route = Ok m.
Proof. destruct route; eexists; reflexivity. Qed.




Lemma route_valid (r : RouteType) : In r validRoutes.
Proof. destruct r; simpl; auto 6. Qed.

(** ** Binary64 arithmetic *)

Lemma fexp_normal (x : Z) : -1021 <= x -> fexp 53 1024 x = x - 53.
Proof. unfold fexp, emin. lia. Qed.

Lemma digits2_size (p : positive) : digits2_pos p = Pos.size p.
Proof. induction p; cbn; congruence. Qed.

Lemma Zdigits2_log2 (p : positive) : Zdigits2 (Zpos p) = Z.log2 (Zpos p) + 1.
Proof.
  cbn. rewrite digits2_size. destruct p; cbn; try rewrite Pos2Z.inj_succ; lia.
Qed.

Lemma Zdigits2_bounds (z : Z) :
  0 < z -> 2 ^ (Zdigits2 z - 1) <= z < 2 ^ Zdigits2 z.
Proof.
  intros H. destruct z as [| p | p]; try lia.
  rewrite Zdigits2_log2.
  pose proof (Z.log2_spec (Zpos p) H) as B.
  replace (Z.log2 (Zpos p) + 1 - 1) with (Z.log2 (Zpos p)) by lia.
  replace (Z.log2 (Zpos p) + 1) with (Z.succ (Z.log2 (Zpos p))) by lia.
  exact B.
Qed.

Lemma Zdigits2_unique (z k : Z) :
  1 <= k -> 2 ^ (k - 1) <= z < 2 ^ k -> Zdigits2 z = k.
Proof.
  intros Hk B.
  assert (0 < z) by (pose proof (Z.pow_pos_nonneg 2 (k - 1)); lia).
  destruct z as [| p | p]; try lia.
  rewrite Zdigits2_log2.
  rewrite (Z.log2_unique (Zpos p) (k - 1)); [lia | lia |].
  replace (Z.succ (k - 1)) with k by lia. exact B.
Qed.

Lemma Zdigits2_pos (z : Z) : 0 < z -> 1 <= Zdigits2 z.
Proof. destruct z; cbn; lia. Qed.

Lemma iter_pos_iter {A} (f : A -> A) (p : positive) :
  forall x, iter_pos f p x = Nat.iter (Pos.to_nat p) f x.
Proof.
  induction p as [p IH | p IH |]; intros x; cbn [iter_pos].
  - rewrite !IH. rewrite Pos2Nat.inj_xI.
    replace (S (2 * Pos.to_nat p))%nat with (Pos.to_nat p + S (Pos.to_nat p))%nat by lia.
    rewrite Nat.iter_add. f_equal. rewrite Nat.iter_succ_r. reflexivity.
  - rewrite !IH. rewrite Pos2Nat.inj_xO.
    replace (2 * Pos.to_nat p)%nat with (Pos.to_nat p + Pos.to_nat p)%nat by lia.
    rewrite Nat.iter_add. reflexivity.
  - reflexivity.
Qed.

Lemma shr_m_shr_1 (r : shr_record) :
  0 <= shr_m r -> shr_m (shr_1 r) = Z.div2 (shr_m r).
Proof.
  destruct r as [m rb sb]. cbn [shr_m]. intros H.
  destruct m as [| [p | p |] | p]; cbn; try reflexivity; lia.
Qed.

Lemma shr_m_iter (n : nat) (r : shr_record) :
  0 <= shr_m r ->
  shr_m (Nat.iter n shr_1 r) = Z.shiftr (shr_m r) (Z.of_nat n)
  /\ 0 <= shr_m (Nat.iter n shr_1 r).
Proof.
  intros H. induction n as [| n [IH1 IH2]].
  - cbn. split; [reflexivity | exact H].
  - change (Nat.iter (S n) shr_1 r) with (shr_1 (Nat.iter n shr_1 r)).
    rewrite shr_m_shr_1 by exact IH2. rewrite IH1.
    rewrite Z.div2_spec, Z.shiftr_shiftr by lia.
    split; [f_equal; lia |].
    rewrite !Z.shiftr_nonneg. exact H.
Qed.

Lemma shr_record_of_loc_m m l : shr_m (shr_record_of_loc m l) = m.
Proof. destruct l as [| []]; reflexivity. Qed.

(** First stage of rounding: the mantissa keeps its 53 leading digits. *)
Lemma shr_fexp_spec (m e : Z) (l : location) :
  0 < m -> 53 <= Zdigits2 m -> -1021 <= Zdigits2 m + e ->
  exists r,
    shr_fexp 53 1024 m e l = (r, e + (Zdigits2 m - 53))
    /\ shr_m r = Z.shiftr m (Zdigits2 m - 53).
Proof.
  intros Hm Hd Hn. unfold shr_fexp. rewrite fexp_normal by exact Hn.
  replace (Zdigits2 m + e - 53 - e) with (Zdigits2 m - 53) by lia.
  unfold shr. destruct (Zdigits2 m - 53) as [| p | p] eqn:E; try lia.
  - eexists. split; [f_equal; lia |]. rewrite shr_record_of_loc_m.
    reflexivity.
  - eexists. split; [reflexivity |].
    rewrite iter_pos_iter.
    destruct (@shr_m_iter (Pos.to_nat p) (shr_record_of_loc m l)) as [H1 _].
    { rewrite shr_record_of_loc_m. lia. }
    rewrite H1, shr_record_of_loc_m, positive_nat_Z. reflexivity.
Qed.

Lemma shr_fexp_shift (m e : Z) (l : location) :
  -1021 <= Zdigits2 m + e ->
  shr_fexp 53 1024 m (e + 1) l
  = (fst (shr_fexp 53 1024 m e l), snd (shr_fexp 53 1024 m e l) + 1).
Proof.
  intros H. unfold shr_fexp. rewrite !fexp_normal by lia.
  replace (Zdigits2 m + (e + 1) - 53 - (e + 1)) with (Zdigits2 m + e - 53 - e) by lia.
  unfold shr. destruct (Zdigits2 m + e - 53 - e); cbn [fst snd]; f_equal; lia.
Qed.

Lemma leading_digits (m : Z) :
  0 < m -> 53 <= Zdigits2 m ->
  2 ^ 52 <= Z.shiftr m (Zdigits2 m - 53) < 2 ^ 53.
Proof.
  intros Hm Hd. pose proof (Zdigits2_bounds Hm) as [B1 B2].
  rewrite Z.shiftr_div_pow2 by lia.
  set (k := Zdigits2 m - 53) in *.
  assert (Hk : 0 <= k) by lia.
  assert (P : 0 < 2 ^ k) by (apply Z.pow_pos_nonneg; lia).
  replace (Zdigits2 m - 1) with (52 + k) in B1 by lia.
  replace (Zdigits2 m) with (53 + k) in B2 by lia.
  rewrite Z.pow_add_r in B1, B2 by lia.
  split.
  - apply Z.div_le_lower_bound; lia.
  - apply Z.div_lt_upper_bound; lia.
Qed.

Lemma rne_bounds (m : Z) (l : location) :
  m <= round_nearest_even m l <= m + 1.
Proof.
  unfold round_nearest_even. destruct l as [| []]; try lia.
  destruct (Z.even m); lia.
Qed.

(** Rounding a mantissa of at least 53 digits in the normal range: the
    result is a normal number, and it follows the exponent. *)
Lemma bra_spec (s : bool) (m e : Z) (l : location) :
  0 < m -> 53 <= Zdigits2 m ->
  -1021 <= Zdigits2 m + e -> Zdigits2 m + e <= 1022 ->
  exists m' e',
    binary_round_aux 53 1024 s m e l = S754_finite s m' e'
    /\ Zpos (digits2_pos m') = 53
    /\ Zdigits2 m + e - 53 <= e' <= Zdigits2 m + e - 52
    /\ binary_round_aux 53 1024 s m (e + 1) l = S754_finite s m' (e' + 1).
Proof.
  intros Hm Hd Hlo Hhi.
  unfold binary_round_aux.
  rewrite (@shr_fexp_shift m e l Hlo).
  destruct (@shr_fexp_spec m e l Hm Hd Hlo) as (r & E1 & Hr).
  rewrite E1. cbn [fst snd].
  pose proof (leading_digits Hm Hd) as L. rewrite <- Hr in L.
  pose proof (rne_bounds (shr_m r) (loc_of_shr_record r)) as R.
  set (m2 := round_nearest_even (shr_m r) (loc_of_shr_record r)) in *.
  set (e1 := e + (Zdigits2 m - 53)) in *.
  assert (C : m2 < 2 ^ 53 \/ m2 = 2 ^ 53) by lia.
  destruct C as [C | C].
  - assert (D : Zdigits2 m2 = 53) by (apply Zdigits2_unique; lia).
    assert (S1 : shr_fexp 53 1024 m2 e1 loc_Exact
                 = ({| shr_m := m2; shr_r := false; shr_s := false |}, e1)).
    { unfold shr_fexp. rewrite D, fexp_normal by lia.
      replace (53 + e1 - 53 - e1) with 0 by lia. reflexivity. }
    rewrite shr_fexp_shift by lia. rewrite S1. cbn [fst snd shr_m].
    destruct m2 as [| p | p]; try lia.
    replace (e1 <=? 1024 - 53) with true by (symmetry; apply Z.leb_le; lia).
    replace (e1 + 1 <=? 1024 - 53) with true by (symmetry; apply Z.leb_le; lia).
    exists p, e1. split; [reflexivity |]. split; [exact D |].
    split; [lia | reflexivity].
  - assert (S1 : shr_fexp 53 1024 m2 e1 loc_Exact
                 = ({| shr_m := 2 ^ 52; shr_r := false; shr_s := false |}, e1 + 1)).
    { rewrite C. unfold shr_fexp.
      replace (Zdigits2 (2 ^ 53)) with 54 by reflexivity.
      rewrite fexp_normal by lia.
      replace (54 + e1 - 53 - e1) with 1 by lia. reflexivity. }
    rewrite shr_fexp_shift by (rewrite C; change (Zdigits2 (2 ^ 53)) with 54; lia).
    rewrite S1. cbn [fst snd shr_m].
    change (2 ^ 52) with (Zpos 4503599627370496).
    replace (e1 + 1 <=? 1024 - 53) with true by (symmetry; apply Z.leb_le; lia).
    replace (e1 + 1 + 1 <=? 1024 - 53) with true by (symmetry; apply Z.leb_le; lia).
    exists 4503599627370496%positive, (e1 + 1). split; [reflexivity |].
    split; [reflexivity |]. split; [lia | reflexivity].
Qed.

Lemma digits53_bounds (m : positive) :
  Zpos (digits2_pos m) = 53 -> 2 ^ 52 <= Zpos m < 2 ^ 53.
Proof.
  intros H. pose proof (@Zdigits2_bounds (Zpos m) ltac:(lia)) as B.
  cbn [Zdigits2] in B. rewrite H in B. exact B.
Qed.

Lemma mul_spec (a c : spec_float) (la ha lc hc : Z) :
  F64.normal a la ha -> F64.normal c lc hc ->
  -1126 <= la + lc -> ha + hc <= 916 ->
  F64.normal (F64.mul a c) (la + lc + 52) (ha + hc + 54)
  /\ F64.mul (F64.next_exponent a) c = F64.next_exponent (F64.mul a c).
Proof.
  intros (ma & ea & -> & Da & Ea) (mc & ec & -> & Dc & Ec) Hlo Hhi.
  unfold F64.mul, F64.prec, F64.emax. cbn [SFmul F64.next_exponent xorb].
  pose proof (digits53_bounds Da) as Ba. pose proof (digits53_bounds Dc) as Bc.
  assert (Bm : 2 ^ 104 <= Zpos (ma * mc) < 2 ^ 106).
  { rewrite Pos2Z.inj_mul.
    change (2 ^ 104) with (2 ^ 52 * 2 ^ 52). change (2 ^ 106) with (2 ^ 53 * 2 ^ 53).
    split; [apply Z.mul_le_mono_nonneg; lia | apply Z.mul_lt_mono_nonneg; lia]. }
  assert (Dm : Zdigits2 (Zpos (ma * mc)) = 105 \/ Zdigits2 (Zpos (ma * mc)) = 106).
  { destruct (Z_lt_le_dec (Zpos (ma * mc)) (2 ^ 105)).
    - left. apply Zdigits2_unique; [lia |]. change (105 - 1) with 104. lia.
    - right. apply Zdigits2_unique; [lia |]. change (106 - 1) with 105. lia. }
  destruct (@bra_spec false (Zpos (ma * mc)) (ea + ec) loc_Exact)
    as (m' & e' & E & D' & Be & Eshift); try lia.
  replace (ea + 1 + ec) with (ea + ec + 1) by lia.
  rewrite E, Eshift. split; [| reflexivity].
  exists m', e'. split; [reflexivity |]. split; [exact D' |]. lia.
Qed.

Lemma div_spec (a c : spec_float) (la ha lc hc : Z) :
  F64.normal a la ha -> F64.normal c lc hc ->
  -1021 <= la - hc -> ha - lc <= 1020 ->
  F64.normal (F64.div a c) (la - hc - 53) (ha - lc - 51)
  /\ F64.div (F64.next_exponent a) c = F64.next_exponent (F64.div a c).
Proof.
  intros (ma & ea & -> & Da & Ea) (mc & ec & -> & Dc & Ec) Hlo Hhi.
  unfold F64.div, F64.prec, F64.emax. cbn [SFdiv F64.next_exponent xorb]. unfold SFdiv_core_binary.
  cbn [Zdigits2]. rewrite Da, Dc.
  rewrite !fexp_normal by lia.
  replace (Z.min (53 + ea - (53 + ec) - 53) (ea - ec)) with (ea - ec - 53) by lia.
  replace (Z.min (53 + (ea + 1) - (53 + ec) - 53) (ea + 1 - ec))
    with (ea - ec - 53 + 1) by lia.
  replace (ea - ec - (ea - ec - 53)) with 53 by lia.
  replace (ea + 1 - ec - (ea - ec - 53 + 1)) with 53 by lia.
  pose proof (digits53_bounds Da) as Ba. pose proof (digits53_bounds Dc) as Bc.
  pose proof (Z_div_mod (Z.shiftl (Zpos ma) 53) (Zpos mc) ltac:(lia)) as DM.
  destruct (Z.div_eucl (Z.shiftl (Zpos ma) 53) (Zpos mc)) as [q r].
  destruct DM as [DM1 DM2].
  rewrite Z.shiftl_mul_pow2 in DM1 by lia.
  assert (Bq : 2 ^ 52 <= q < 2 ^ 54).
  { split.
    - destruct (Z_lt_le_dec q (2 ^ 52)) as [C |]; [| assumption].
      exfalso.
      assert (Zpos mc * (q + 1) <= Zpos mc * 2 ^ 52)
        by (apply Z.mul_le_mono_nonneg_l; lia).
      assert (Zpos mc * 2 ^ 52 < 2 ^ 53 * 2 ^ 52)
        by (apply Z.mul_lt_mono_pos_r; lia).
      assert (2 ^ 52 * 2 ^ 53 <= Zpos ma * 2 ^ 53)
        by (apply Z.mul_le_mono_nonneg_r; lia).
      lia.
    - destruct (Z_lt_le_dec q (2 ^ 54)) as [| C]; [assumption |].
      exfalso.
      assert (2 ^ 52 * 2 ^ 54 <= Zpos mc * q)
        by (apply Z.mul_le_mono_nonneg; lia).
      assert (Zpos ma * 2 ^ 53 < 2 ^ 53 * 2 ^ 53)
        by (apply Z.mul_lt_mono_pos_r; lia).
      change (2 ^ 52 * 2 ^ 54) with (2 ^ 53 * 2 ^ 53) in *.
      lia. }
  assert (Dq : Zdigits2 q = 53 \/ Zdigits2 q = 54).
  { destruct (Z_lt_le_dec q (2 ^ 53)).
    - left. apply Zdigits2_unique; [lia |]. change (53 - 1) with 52. lia.
    - right. apply Zdigits2_unique; [lia |]. change (54 - 1) with 53. lia. }
  destruct (@bra_spec false q (ea - ec - 53) (new_location (Zpos mc) r))
    as (m' & e' & E & D' & Be & Eshift); try lia.
  rewrite E, Eshift. split; [| reflexivity].
  exists m', e'. split; [reflexivity |]. split; [exact D' |]. lia.
Qed.

Lemma iter_xO (m d : positive) : Zpos (Pos.iter xO m d) = Zpos m * 2 ^ Zpos d.
Proof.
  induction d as [| d IH] using Pos.peano_ind.
  - cbn. lia.
  - rewrite Pos.iter_succ, Pos2Z.inj_xO, IH, Pos2Z.inj_succ, Z.pow_succ_r by lia.
    lia.
Qed.

Lemma shl_align_spec (m : positive) (e ez : Z) :
  ez <= e ->
  Zpos (fst (shl_align m e ez)) = Zpos m * 2 ^ (e - ez)
  /\ fst (shl_align m (e + 1) (ez + 1)) = fst (shl_align m e ez).
Proof.
  intros H. unfold shl_align.
  replace (ez + 1 - (e + 1)) with (ez - e) by lia.
  split; [| destruct (ez - e); reflexivity].
  destruct (ez - e) as [| p | p] eqn:E; try lia.
  - replace (e - ez) with 0 by lia. cbn [fst]. lia.
  - cbn [fst]. rewrite iter_xO. f_equal. f_equal. lia.
Qed.

Lemma add_spec (a c : spec_float) (la ha lc hc : Z) :
  F64.normal a la ha -> F64.normal c lc hc ->
  -1074 <= Z.min la lc -> Z.max ha hc <= 968 ->
  F64.normal (F64.add a c) (Z.min la lc) (Z.max ha hc + 2)
  /\ F64.add (F64.next_exponent a) (F64.next_exponent c) = F64.next_exponent (F64.add a c).
Proof.
  intros (ma & ea & -> & Da & Ea) (mc & ec & -> & Dc & Ec) Hlo Hhi.
  unfold F64.add, F64.prec, F64.emax. cbn [SFadd F64.next_exponent cond_Zopp].
  replace (Z.min (ea + 1) (ec + 1)) with (Z.min ea ec + 1) by lia.
  set (ez := Z.min ea ec).
  destruct (@shl_align_spec ma ea ez ltac:(lia)) as [Va Sa].
  destruct (@shl_align_spec mc ec ez ltac:(lia)) as [Vc Sc].
  rewrite Sa, Sc.
  pose proof (digits53_bounds Da) as Ba. pose proof (digits53_bounds Dc) as Bc.
  set (A := fst (shl_align ma ea ez)) in *.
  set (C := fst (shl_align mc ec ez)) in *.
  change (Zpos A + Zpos C) with (Zpos (A + C)).
  cbn [binary_normalize]. unfold binary_round.
  set (em := Z.max ea ec).
  assert (Pa : 0 < 2 ^ (ea - ez)) by (apply Z.pow_pos_nonneg; lia).
  assert (Pc : 0 < 2 ^ (ec - ez)) by (apply Z.pow_pos_nonneg; lia).
  assert (Ua : 2 ^ (ea - ez) <= 2 ^ (em - ez)) by (apply Z.pow_le_mono_r; lia).
  assert (Uc : 2 ^ (ec - ez) <= 2 ^ (em - ez)) by (apply Z.pow_le_mono_r; lia).
  assert (Bs : 2 ^ 52 <= Zpos (A + C) < 2 ^ (54 + (em - ez))).
  { rewrite Pos2Z.inj_add, Va, Vc. split.
    - assert (2 ^ 52 * 1 <= Zpos ma * 2 ^ (ea - ez))
        by (apply Z.mul_le_mono_nonneg; lia).
      assert (0 <= Zpos mc * 2 ^ (ec - ez)) by lia.
      lia.
    - rewrite Z.pow_add_r by lia. change (2 ^ 54) with (2 * 2 ^ 53).
      assert (Zpos ma * 2 ^ (ea - ez) < 2 ^ 53 * 2 ^ (em - ez)).
      { apply Z.le_lt_trans with (Zpos ma * 2 ^ (em - ez)).
        - apply Z.mul_le_mono_nonneg_l; lia.
        - apply Z.mul_lt_mono_pos_r; lia. }
      assert (Zpos mc * 2 ^ (ec - ez) < 2 ^ 53 * 2 ^ (em - ez)).
      { apply Z.le_lt_trans with (Zpos mc * 2 ^ (em - ez)).
        - apply Z.mul_le_mono_nonneg_l; lia.
        - apply Z.mul_lt_mono_pos_r; lia. }
      lia. }
  assert (Ds : 53 <= Zdigits2 (Zpos (A + C)) <= 54 + (em - ez)).
  { pose proof (@Zdigits2_bounds (Zpos (A + C)) ltac:(lia)) as [B1 B2].
    split.
    - destruct (Z_lt_le_dec (Zdigits2 (Zpos (A + C))) 53) as [L |]; [| assumption].
      exfalso.
      assert (2 ^ Zdigits2 (Zpos (A + C)) <= 2 ^ 52)
        by (apply Z.pow_le_mono_r; lia).
      lia.
    - destruct (Z_lt_le_dec (54 + (em - ez)) (Zdigits2 (Zpos (A + C)))) as [L |];
        [| assumption].
      exfalso.
      assert (2 ^ (54 + (em - ez)) <= 2 ^ (Zdigits2 (Zpos (A + C)) - 1))
        by (apply Z.pow_le_mono_r; lia).
      lia. }
  cbn [Zdigits2] in Ds.
  assert (Al : forall e0, e0 = ez \/ e0 = ez + 1 ->
                shl_align (A + C) e0
                          (fexp 53 1024 (Zpos (digits2_pos (A + C)) + e0))
                = ((A + C)%positive, e0)).
  { intros e0 He0. unfold shl_align. rewrite fexp_normal by lia.
    destruct (Zpos (digits2_pos (A + C)) + e0 - 53 - e0) eqn:E; try reflexivity.
    lia. }
  rewrite (Al ez) by (left; reflexivity).
  rewrite (Al (ez + 1)) by (right; reflexivity).
  destruct (@bra_spec false (Zpos (A + C)) ez loc_Exact)
    as (m' & e' & E & D' & Be & Eshift); cbn [Zdigits2]; try lia.
  rewrite E, Eshift. split; [| reflexivity].
  exists m', e'. split; [reflexivity |]. split; [exact D' |].
  cbn [Zdigits2] in Be. lia.
Qed.

Lemma shr_1_even (k : Z) :
  0 <= k ->
  shr_1 {| shr_m := 2 * k; shr_r := false; shr_s := false |}
  = {| shr_m := k; shr_r := false; shr_s := false |}.
Proof. destruct k; cbn; try reflexivity; lia. Qed.

Lemma shr_exact (n : nat) (k : Z) :
  0 <= k ->
  Nat.iter n shr_1 {| shr_m := k * 2 ^ Z.of_nat n; shr_r := false; shr_s := false |}
  = {| shr_m := k; shr_r := false; shr_s := false |}.
Proof.
  intros Hk. induction n as [| n IH].
  - cbn. f_equal. lia.
  - rewrite Nat.iter_succ_r.
    replace (k * 2 ^ Z.of_nat (S n)) with (2 * (k * 2 ^ Z.of_nat n))
      by (rewrite Nat2Z.inj_succ, Z.pow_succ_r by lia; lia).
    rewrite shr_1_even by (apply Z.mul_nonneg_nonneg; [lia | apply Z.pow_nonneg; lia]).
    exact IH.
Qed.

Lemma two_mul (c : spec_float) (lo hi : Z) :
  F64.normal c lo hi -> -1073 <= lo -> hi <= 970 ->
  F64.mul F64.two c = F64.next_exponent c.
Proof.
  intros (mc & ec & -> & Dc & Ec) Hlo Hhi.
  unfold F64.mul, F64.prec, F64.emax. change F64.two with (S754_finite false 4503599627370496 (-51)). cbn [SFmul F64.next_exponent xorb].
  pose proof (digits53_bounds Dc) as Bc.
  assert (V : Zpos (4503599627370496 * mc) = Zpos mc * 2 ^ 52)
    by (rewrite Pos2Z.inj_mul; change (2 ^ 52) with 4503599627370496; lia).
  assert (D : Zdigits2 (Zpos (4503599627370496 * mc)) = 105).
  { apply Zdigits2_unique; [lia |]. rewrite V.
    change (2 ^ (105 - 1)) with (2 ^ 52 * 2 ^ 52). change (2 ^ 105) with (2 ^ 53 * 2 ^ 52).
    split; [apply Z.mul_le_mono_nonneg_r; lia | apply Z.mul_lt_mono_pos_r; lia]. }
  unfold binary_round_aux.
  assert (S1 : shr_fexp 53 1024 (Zpos (4503599627370496 * mc)) (-51 + ec) loc_Exact
               = ({| shr_m := Zpos mc; shr_r := false; shr_s := false |}, ec + 1)).
  { unfold shr_fexp. rewrite D, fexp_normal by lia.
    replace (105 + (-51 + ec) - 53 - (-51 + ec)) with 52 by lia.
    unfold shr. rewrite iter_pos_iter. cbn [shr_record_of_loc].
    rewrite V. change 52 with (Z.of_nat 52) at 1.
    change (Pos.to_nat 52) with 52%nat.
    rewrite shr_exact by lia. f_equal. lia. }
  rewrite S1. cbn [shr_m loc_of_shr_record round_nearest_even].
  assert (S2 : shr_fexp 53 1024 (Zpos mc) (ec + 1) loc_Exact
               = ({| shr_m := Zpos mc; shr_r := false; shr_s := false |}, ec + 1)).
  { unfold shr_fexp. cbn [Zdigits2]. rewrite Dc, fexp_normal by lia.
    replace (53 + (ec + 1) - 53 - (ec + 1)) with 0 by lia. reflexivity. }
  rewrite S2. cbn [shr_m].
  replace (ec + 1 <=? 1024 - 53) with true by (symmetry; apply Z.leb_le; lia).
  reflexivity.
Qed.

Lemma is_count_cases (x : F64.t) :
  F64.is_count x = true -> x = F64.zero \/ F64.normal x (-52) 900.
Proof.
  destruct x as [[|] | | | [|] m e]; unfold F64.is_count; try discriminate.
  - left. reflexivity.
  - intros H. apply andb_true_iff in H. destruct H as [H H3].
    apply andb_true_iff in H. destruct H as [H1 H2].
    apply Z.eqb_eq in H1. apply Z.leb_le in H2, H3.
    right. exists m, e. split; [reflexivity |]. split; [exact H1 | lia].
Qed.

Lemma is_price_normal (x : F64.t) :
  F64.is_price x = true -> F64.normal x (-60) (-40).
Proof.
  destruct x as [| | | [|] m e]; unfold F64.is_price; try discriminate.
  intros H. apply andb_true_iff in H. destruct H as [H H3].
  apply andb_true_iff in H. destruct H as [H1 H2].
  apply Z.eqb_eq in H1. apply Z.leb_le in H2, H3.
  exists m, e. split; [reflexivity |]. split; [exact H1 | lia].
Qed.

Lemma million_normal : F64.normal (F64.of_Z 1000000) (-33) (-33).
Proof.
  exists 8589934592000000%positive, (-33). split; [reflexivity |].
  split; [reflexivity | lia].
Qed.

(** The price of one kind of tokens follows a doubling of their count. *)
Lemma part_doubles (x price : F64.t) :
  F64.is_count x = true -> F64.normal price (-60) (-40) ->
  let part := F64.mul (F64.div x (F64.of_Z 1000000)) price in
  F64.mul (F64.div (F64.mul F64.two x) (F64.of_Z 1000000)) price
  = F64.next_exponent part
  /\ (part = F64.zero \/ F64.normal part (-80) 896).
Proof.
  intros Hx Hp. cbv zeta.
  destruct (is_count_cases Hx) as [-> | Nx].
  - destruct Hp as (mp & ep & -> & _). split; [reflexivity | left; reflexivity].
  - rewrite (two_mul Nx) by lia.
    destruct (div_spec Nx million_normal) as [Nq Eq]; try lia.
    rewrite Eq.
    destruct (mul_spec Nq Hp) as [Nm Em]; try lia.
    rewrite Em. split; [reflexivity |]. right.
    destruct Nm as (m & e & E & D & B). exists m, e.
    split; [exact E |]. split; [exact D | lia].
Qed.

(** Doubling both token counts doubles the price, exactly. *)
Lemma priced_at_doubles (inputPrice outputPrice x y : F64.t) :
  F64.is_price inputPrice = true -> F64.is_price outputPrice = true ->
  F64.is_count x = true -> F64.is_count y = true ->
  priced_at inputPrice outputPrice (F64.mul F64.two x) (F64.mul F64.two y)
  = F64.mul F64.two (priced_at inputPrice outputPrice x y).
Proof.
  intros Hi Ho Hx Hy. unfold priced_at.
  destruct (part_doubles Hx (is_price_normal Hi)) as [Ex Nx].
  destruct (part_doubles Hy (is_price_normal Ho)) as [Ey Ny].
  cbv zeta in Ex, Ey, Nx, Ny. rewrite Ex, Ey.
  set (px := F64.mul (F64.div x (F64.of_Z 1000000)) inputPrice) in *.
  set (py := F64.mul (F64.div y (F64.of_Z 1000000)) outputPrice) in *.
  destruct Nx as [-> | Nx], Ny as [-> | Ny].
  - reflexivity.
  - destruct Ny as (m & e & E & D & B). rewrite E.
    unfold F64.zero, F64.add, F64.prec, F64.emax.
    cbn [F64.next_exponent SFadd].
    change (S754_finite false m (e + 1))
      with (F64.next_exponent (S754_finite false m e)).
    symmetry. apply (@two_mul _ (-80) 896); [| lia | lia].
    exists m, e. split; [reflexivity |]. split; [exact D | exact B].
  - destruct Nx as (m & e & E & D & B). rewrite E.
    unfold F64.zero, F64.add, F64.prec, F64.emax.
    cbn [F64.next_exponent SFadd].
    change (S754_finite false m (e + 1))
      with (F64.next_exponent (S754_finite false m e)).
    symmetry. apply (@two_mul _ (-80) 896); [| lia | lia].
    exists m, e. split; [reflexivity |]. split; [exact D | exact B].
  - destruct (add_spec Nx Ny) as [Ns Es]; try lia.
    rewrite Es. symmetry. apply (two_mul Ns); lia.
Qed.

(** Every price of the table is a normal number. *)
Lemma table_prices (key : string) (cfg : ModelConfig) :
  lookup key MODELS = Some cfg ->
  F64.is_price (F64.of_number (inputCost cfg)) = true
  /\ F64.is_price (F64.of_number (outputCost cfg)) = true.
Proof.
  assert (All : forallb (fun kv =>
                           F64.is_price (F64.of_number (inputCost (snd kv)))
                           && F64.is_price (F64.of_number (outputCost (snd kv))))
                        MODELS = true) by (vm_compute; reflexivity).
  rewrite forallb_forall in All.
  intros H.
  assert (Hin : In (key, cfg) MODELS).
  { revert H. generalize MODELS. intros table.
    induction table as [| [k v] rest IH]; cbn; [discriminate |].
    destruct (String.eqb k key) eqn:E.
    - intros [= <-]. apply String.eqb_eq in E. subst k. left. reflexivity.
    - intros H. right. exact (IH H). }
  specialize (All _ Hin). cbn [snd] in All.
  apply andb_true_iff in All. exact All.
Qed.

(** C7.  For a model key registered in [MODELS], [estimateCost] returns
    [(i / 1,000,000) * inputCost + (o / 1,000,000) * outputCost], every
    operation rounded to binary64; and for token counts [x] and [y],
    [estimateCost(m, 2x, 2y)] is [2 * estimateCost(m, x, y)] exactly. *)
Theorem estimateCost_doubling (m : string) (cfg : ModelConfig) :
  lookup m MODELS = Some cfg ->
  (forall i o,
      estimateCost m i o
      = Ok (priced_at (F64.of_number (inputCost cfg))
                      (F64.of_number (outputCost cfg)) i o))
  /\ (forall x y,
         F64.is_count x = true -> F64.is_count y = true ->
         exists c,
           estimateCost m x y = Ok c
           /\ estimateCost m (F64.mul F64.two x) (F64.mul F64.two y)
              = Ok (F64.mul F64.two c)).
Proof.
  intros H.
  assert (F : forall i o,
             estimateCost m i o
             = Ok (priced_at (F64.of_number (inputCost cfg))
                             (F64.of_number (outputCost cfg)) i o)).
  { intros i o. unfold estimateCost, property. rewrite H. reflexivity. }
  split; [exact F |].
  intros x y Hx Hy. eexists. split; [apply F |].
  rewrite F. destruct (table_prices H) as [Pi Po].
  rewrite (priced_at_doubles Pi Po Hx Hy). reflexivity.
Qed.

Lemma estimateCost_doubling_witness :
  estimateCost "gpt-4o" (F64.of_Z 1200) (F64.of_Z 300)
  = Ok (S754_finite false 6917529027641081 (-60))
  /\ estimateCost "gpt-4o" (F64.mul F64.two (F64.of_Z 1200))
                  (F64.mul F64.two (F64.of_Z 300))
     = Ok (F64.mul F64.two (S754_finite false 6917529027641081 (-60)))
  /\ F64.mul F64.two (F64.of_Z 1200) = F64.of_Z 2400.
Proof.
  destruct (@estimateCost_doubling "gpt-4o"
              {| id := "gpt-4o"; alias := None;
                 mc_provider := openai; tier := tier_balanced;
                 contextWindow := Zn 128000; maxOutput := Zn 16384;
                 inputCost := dec 250 100; outputCost := dec 1000 100;
                 features := ["json_mode"; "vision"; "function_calling"];
                 notes := Some "Strong fallback for Claude Sonnet." |}
              eq_refl) as [F D].
  destruct (D (F64.of_Z 1200) (F64.of_Z 300) eq_refl eq_refl) as (c & E1 & E2).
  assert (Hc : c = S754_finite false 6917529027641081 (-60)).
  { rewrite F in E1. apply Ok_inj in E1. rewrite <- E1. vm_compute. reflexivity. }
  subst c. split; [exact E1 |]. split; [exact E2 |]. vm_compute. reflexivity.
Defined.

(** C7, where the claim fails: the estimate is not additive in the
    token counts.  For [gpt-4o-mini], the estimate of 21 input tokens is
    not three times the estimate of 7 input tokens. *)
Lemma estimateCost_is_not_additive :
  exists a b,
    estimateCost "gpt-4o-mini" (F64.mul (F64.of_Z 3) (F64.of_Z 7))
                 (F64.mul (F64.of_Z 3) F64.zero) = Ok a
    /\ estimateCost "gpt-4o-mini" (F64.of_Z 7) F64.zero = Ok b
    /\ a = S754_finite false 7437727210519691 (-71)
    /\ F64.mul (F64.of_Z 3) b = S754_finite false 7437727210519690 (-71)
    /\ a <> F64.mul (F64.of_Z 3) b.
Proof.
  do 2 eexists. split; [vm_compute; reflexivity |].
  split; [vm_compute; reflexivity |].
  split; [reflexivity |]. split; [vm_compute; reflexivity |].
  vm_compute. discriminate.
Qed.

(** What [estimateCostFromTokens] returns, by the kind of the model
    identifier: a key of [MODELS], a name every object inherits, or
    neither. *)
Lemma estimateCostFromTokens_cases (model : string) (i o : number) :
  RouteExecutor.estimateCostFromTokens model i o
  = match property model MODELS with
    | Own cfg => table_price cfg i o
    | Inherited => F64.nan
    | Missing => default_price i o
    end.
Proof.
  unfold RouteExecutor.estimateCostFromTokens, estimateCost.
  destruct (property model MODELS); try reflexivity.
  cbn. unfold F64.mul, F64.add, F64.nan.
  destruct (F64.div _ _), (F64.div _ _); reflexivity.
Qed.

(** ** Traces *)

(** Brings a trace built by nested [bind]s to a right-nested list. *)
Ltac trace_norm :=
  repeat (progress cbn [app] || rewrite app_nil_r || rewrite <- app_assoc).

(** ** Provider Manager *)

Section ManagerProperties.
Context {W : Type}.
Variables (messages : list Message) (systemPrompt : string)
          (options : option ChatOptions).

Lemma AllFail_length (ps : list (AIProvider W)) w w' evs errs :
  AllFail messages systemPrompt options ps w w' evs errs ->
  List.length errs = List.length ps.
Proof. induction 1; simpl; congruence. Qed.

Lemma chat_from_failed_round (p : AIProvider W) rest lastError w e w1 ev1 :
  chat p messages systemPrompt options w = (Throw e, w1, ev1) ->
  ProviderManager.chat_from (p :: rest) lastError messages systemPrompt options w
  = let '(o, w2, ev2) :=
      ProviderManager.chat_from rest (Some e) messages systemPrompt options w1 in
    (o, w2, (trying p :: ev1 ++ failed p e :: ev2)%list).
Proof.
  intros H. cbn [ProviderManager.chat_from].
  unfold bind, try_catch, console_log, console_error, emit, ret.
  rewrite H.
  destruct (ProviderManager.chat_from rest (Some e) messages systemPrompt
                                      options w1) as [[o w2] ev2].
  cbn. trace_norm. reflexivity.
Qed.

Lemma chat_from_success_round (p : AIProvider W) rest lastError w r w1 ev1 :
  chat p messages systemPrompt options w = (Ok r, w1, ev1) ->
  ProviderManager.chat_from (p :: rest) lastError messages systemPrompt options w
  = (Ok r, w1, (trying p :: ev1 ++ [succeeded p])%list).
Proof.
  intros H. cbn [ProviderManager.chat_from].
  unfold bind, try_catch, console_log, console_error, emit, ret.
  rewrite H. cbn. trace_norm. reflexivity.
Qed.

Lemma chat_from_after_failures (pre : list (AIProvider W)) w w1 evs errs :
  AllFail messages systemPrompt options pre w w1 evs errs ->
  forall rest lastError,
    ProviderManager.chat_from (pre ++ rest) lastError messages systemPrompt options w
    = let '(o, w2, ev2) :=
        ProviderManager.chat_from rest (last_error errs lastError)
                                  messages systemPrompt options w1 in
      (o, w2, (evs ++ ev2)%list).
Proof.
  induction 1 as [w | p ps w e w1 ev1 w2 evs errs Hp _ IH]; intros rest lastError.
  - cbn [app last_error].
    destruct (ProviderManager.chat_from rest lastError messages systemPrompt
                                        options w) as [[o w2] ev2].
    reflexivity.
  - rewrite <- app_comm_cons, (chat_from_failed_round _ _ Hp), IH.
    cbn [last_error].
    destruct (ProviderManager.chat_from rest (last_error errs (Some e))
                                        messages systemPrompt options w2)
      as [[o w3] ev3].
    cbn. trace_norm. reflexivity.
Qed.

End ManagerProperties.

(** C1.  [ProviderManager.chat] (a) with no adapter throws the
    no-providers error at once, touching nothing; (b) when the adapters
    before [p] all throw and [p] answers, returns [p]'s very result (so
    its [provider] and [model] fields are the ones [p] wrote), after
    exactly the rounds of the adapters before it, in their stored order,
    and without calling any adapter after [p]; (c) when every adapter
    throws, throws the error of the last adapter. *)
Theorem ProviderManager_chat_first_success
        {W : Type} (pm : ProviderManager.t W)
        (messages : list Message) (systemPrompt : string)
        (options : option ChatOptions) :
  (ProviderManager.providers pm = [] ->
   forall w, ProviderManager.chat pm messages systemPrompt options w
             = (Throw ProviderManager.NoProviders, w, []))
  /\ (forall pre p post w w1 evs errs r w2 evp,
         ProviderManager.providers pm = (pre ++ p :: post)%list ->
         AllFail messages systemPrompt options pre w w1 evs errs ->
         chat p messages systemPrompt options w1 = (Ok r, w2, evp) ->
         ProviderManager.chat pm messages systemPrompt options w
         = (Ok r, w2, (evs ++ trying p :: evp ++ [succeeded p])%list)
         /\ List.length errs = List.length pre)
  /\ (forall pre p w w1 evs errs e w2 evp,
         ProviderManager.providers pm = (pre ++ [p])%list ->
         AllFail messages systemPrompt options pre w w1 evs errs ->
         chat p messages systemPrompt options w1 = (Throw e, w2, evp) ->
         ProviderManager.chat pm messages systemPrompt options w
         = (Throw e, w2, (evs ++ trying p :: evp ++ [failed p e])%list)).
Proof.
  repeat split.
  - intros H w. unfold ProviderManager.chat. rewrite H. reflexivity.
  - unfold ProviderManager.chat. rewrite H.
    destruct (pre ++ p :: post)%list eqn:E.
    + destruct pre; discriminate E.
    + rewrite <- E, (chat_from_after_failures H0),
        (chat_from_success_round _ _ H1).
      reflexivity.
  - eapply AllFail_length; eassumption.
  - intros pre p w w1 evs errs e w2 evp H Hpre Hp.
    unfold ProviderManager.chat. rewrite H.
    destruct (pre ++ [p])%list eqn:E.
    + destruct pre; discriminate E.
    + rewrite <- E, (chat_from_after_failures Hpre),
        (chat_from_failed_round _ _ Hp).
      cbn. trace_norm. reflexivity.
Qed.

Lemma ProviderManager_chat_first_success_witness :
  (forall w, ProviderManager.chat Sample.pm_none Sample.hello "sys" None w
             = (Throw ProviderManager.NoProviders, w, []))
  /\ (exists evs,
         ProviderManager.chat Sample.pm_two_down_one_up Sample.hello "sys" None 0
         = (Ok {| content := "42"; provider := "C"; model := "c-1";
                  usage := Some {| inputTokens := Zn 12; outputTokens := Zn 3 |} |},
            300, evs)
         /\ remote_calls evs = [("A", "primary"); ("B", "primary"); ("C", "c-1")])
  /\ (exists evs,
         ProviderManager.chat Sample.pm_all_down Sample.hello "sys" None 0
         = (Throw Sample.unauthorized, 200, evs)).
Proof.
  assert (F2 : AllFail Sample.hello "sys" None
                 [Sample.down "A" Sample.rate_limited;
                  Sample.down "B" Sample.unauthorized]
                 0 200
                 (trying (Sample.down "A" Sample.rate_limited)
                    :: [Remote "A" "primary"]
                    ++ failed (Sample.down "A" Sample.rate_limited) Sample.rate_limited
                    :: trying (Sample.down "B" Sample.unauthorized)
                    :: [Remote "B" "primary"]
                    ++ failed (Sample.down "B" Sample.unauthorized) Sample.unauthorized
                    :: [])%list
                 [Sample.rate_limited; Sample.unauthorized]).
  { eapply AllFail_cons; [reflexivity |].
    eapply AllFail_cons; [reflexivity |]. apply AllFail_nil. }
  assert (F1 : AllFail Sample.hello "sys" None
                 [Sample.down "A" Sample.rate_limited]
                 0 100
                 (trying (Sample.down "A" Sample.rate_limited)
                    :: [Remote "A" "primary"]
                    ++ failed (Sample.down "A" Sample.rate_limited) Sample.rate_limited
                    :: [])%list
                 [Sample.rate_limited]).
  { eapply AllFail_cons; [reflexivity |]. apply AllFail_nil. }
  split; [| split].
  - exact (proj1 (ProviderManager_chat_first_success
                    Sample.pm_none Sample.hello "sys" None) eq_refl).
  - eexists. split.
    + exact (proj1 (proj1 (proj2 (ProviderManager_chat_first_success
                      Sample.pm_two_down_one_up Sample.hello "sys" None))
                    [Sample.down "A" Sample.rate_limited;
                     Sample.down "B" Sample.unauthorized]
                    (Sample.up "C" "c-1") [Sample.up "D" "d-1"]
                    _ _ _ _ _ _ _ eq_refl F2 eq_refl)).
    + reflexivity.
  - eexists.
    exact (proj2 (proj2 (ProviderManager_chat_first_success
                    Sample.pm_all_down Sample.hello "sys" None))
                 [Sample.down "A" Sample.rate_limited]
                 (Sample.down "B" Sample.unauthorized)
                 _ _ _ _ _ _ _ eq_refl F1 eq_refl).
Defined.

(** ** Provider adapters *)

Section AdapterProperties.
Context {W : Type}.

Lemma anthropic_chatWithModel_run (p : AnthropicProvider.t W) c m msgs sys opts w :
  AnthropicProvider.client p = Some c ->
  let run := AnthropicProvider.chatWithModel p m msgs sys opts w in
  remote_calls (trace run) = [(AnthropicProvider.name, m)]
  /\ (forall r, outcome run = Ok r
                -> model r = m /\ provider r = AnthropicProvider.name).
Proof.
  intros Hc. unfold AnthropicProvider.chatWithModel. rewrite Hc.
  unfold bind, request, AnthropicProvider.text_block.
  destruct (c _ w) as [[resp | e] w1]; cbn; [| split; [reflexivity | discriminate]].
  destruct (AnthropicProvider.resp_content resp) as [| blk rest]; cbn;
    [split; [reflexivity | discriminate] |].
  destruct (negb _); cbn; split; try reflexivity; try discriminate.
  intros r [= <-]. split; reflexivity.
Qed.

Lemma anthropic_chat_primary_failed (p : AnthropicProvider.t W) c msgs sys opts w e w1 :
  AnthropicProvider.client p = Some c ->
  c (AnthropicProvider.build_request (AnthropicProvider.primaryModel p) msgs sys opts) w
  = (Throw e, w1) ->
  AnthropicProvider.chat p msgs sys opts w
  = if status_is e 429 || status_is e 503
    then let '(o, w2, ev) :=
           AnthropicProvider.chatWithModel p (AnthropicProvider.fallbackModel p)
                                           msgs sys opts w1 in
         (o, w2, Remote AnthropicProvider.name (AnthropicProvider.primaryModel p)
                   :: Console LLog "[Anthropic] Primary failed, trying fallback model..."
                   :: ev)
    else (Throw e, w1,
          [Remote AnthropicProvider.name (AnthropicProvider.primaryModel p)]).
Proof.
  intros Hc Hreq. unfold AnthropicProvider.chat. rewrite Hc.
  unfold try_catch at 1. unfold bind at 1. unfold request at 1. rewrite Hreq.
  destruct (status_is e 429 || status_is e 503).
  - unfold bind, console_log, emit.
    destruct (AnthropicProvider.chatWithModel _ _ _ _ _ w1) as [[o w2] ev].
    cbn. reflexivity.
  - reflexivity.
Qed.

Lemma openai_chatWithModel_run (p : OpenAIProvider.t W) c m msgs sys opts w :
  OpenAIProvider.client p = Some c ->
  let run := OpenAIProvider.chatWithModel p m msgs sys opts w in
  remote_calls (trace run) = [(OpenAIProvider.name, m)]
  /\ (forall r, outcome run = Ok r
                -> model r = m /\ provider r = OpenAIProvider.name).
Proof.
  intros Hc. unfold OpenAIProvider.chatWithModel. rewrite Hc.
  unfold bind, request.
  destruct (c _ w) as [[resp | e] w1]; cbn; [| split; [reflexivity | discriminate]].
  destruct (OpenAIProvider.choices resp) as [| ch rest]; cbn;
    split; try reflexivity; try discriminate.
  intros r [= <-]. split; reflexivity.
Qed.

Lemma openai_chat_primary_failed (p : OpenAIProvider.t W) c msgs sys opts w e w1 :
  OpenAIProvider.client p = Some c ->
  c (OpenAIProvider.build_request (OpenAIProvider.primaryModel p) msgs sys opts) w
  = (Throw e, w1) ->
  OpenAIProvider.chat p msgs sys opts w
  = if status_is e 429 || status_is e 503
    then let '(o, w2, ev) :=
           OpenAIProvider.chatWithModel p (OpenAIProvider.fallbackModel p)
                                        msgs sys opts w1 in
         (o, w2, Remote OpenAIProvider.name (OpenAIProvider.primaryModel p)
                   :: Console LLog "[OpenAI] Primary failed, trying fallback model..."
                   :: ev)
    else (Throw e, w1,
          [Remote OpenAIProvider.name (OpenAIProvider.primaryModel p)]).
Proof.
  intros Hc Hreq. unfold OpenAIProvider.chat. rewrite Hc.
  unfold try_catch at 1. unfold bind at 1. unfold request at 1. rewrite Hreq.
  destruct (status_is e 429 || status_is e 503).
  - unfold bind, console_log, emit.
    destruct (OpenAIProvider.chatWithModel _ _ _ _ _ w1) as [[o w2] ev].
    cbn. reflexivity.
  - reflexivity.
Qed.

Lemma gemini_chatWithModel_eq (p : GeminiProvider.t W) c m msgs last others
      sys opts w :
  GeminiProvider.client p = Some c ->
  rev msgs = last :: others ->
  GeminiProvider.chatWithModel p m msgs sys opts w
  = match c (GeminiProvider.build_request m msgs last sys opts) w with
    | (Ok resp, w1) =>
        match GeminiProvider.resp_text resp with
        | Ok txt =>
            (Ok {| content := txt; provider := GeminiProvider.name; model := m;
                   usage := GeminiProvider.usage_of resp |},
             w1, [Remote GeminiProvider.name m])
        | Throw e => (Throw e, w1, [Remote GeminiProvider.name m])
        end
    | (Throw e, w1) => (Throw e, w1, [Remote GeminiProvider.name m])
    end.
Proof.
  intros Hc Hlast. unfold GeminiProvider.chatWithModel. rewrite Hc.
  unfold bind at 1. unfold GeminiProvider.last_message. rewrite Hlast.
  unfold ret at 1. unfold bind, request, lift.
  destruct (c _ w) as [[resp | e] w1]; cbn; [| reflexivity].
  destruct (GeminiProvider.resp_text resp); reflexivity.
Qed.

Lemma gemini_chatWithModel_run (p : GeminiProvider.t W) c m msgs last others
      sys opts w :
  GeminiProvider.client p = Some c ->
  rev msgs = last :: others ->
  let run := GeminiProvider.chatWithModel p m msgs sys opts w in
  remote_calls (trace run) = [(GeminiProvider.name, m)]
  /\ (forall r, outcome run = Ok r
                -> model r = m /\ provider r = GeminiProvider.name).
Proof.
  intros Hc Hlast run. subst run.
  rewrite (@gemini_chatWithModel_eq p c m msgs last others sys opts w Hc Hlast).
  destruct (c _ w) as [[resp | e] w1]; cbn; [| split; [reflexivity | discriminate]].
  destruct (GeminiProvider.resp_text resp); cbn;
    split; try reflexivity; try discriminate.
  intros r [= <-]. split; reflexivity.
Qed.

Lemma gemini_chat_primary_failed (p : GeminiProvider.t W) c msgs last others
      sys opts w e w1 :
  GeminiProvider.client p = Some c ->
  rev msgs = last :: others ->
  c (GeminiProvider.build_request (GeminiProvider.primaryModel p) msgs last sys opts) w
  = (Throw e, w1) ->
  GeminiProvider.chat p msgs sys opts w
  = if GeminiProvider.retryable e
    then let '(o, w2, ev) :=
           GeminiProvider.chatWithModel p (GeminiProvider.fallbackModel p)
                                        msgs sys opts w1 in
         (o, w2, Remote GeminiProvider.name (GeminiProvider.primaryModel p)
                   :: Console LLog "[Gemini] Primary failed, trying fallback model..."
                   :: ev)
    else (Throw e, w1,
          [Remote GeminiProvider.name (GeminiProvider.primaryModel p)]).
Proof.
  intros Hc Hlast Hreq. unfold GeminiProvider.chat. rewrite Hc.
  unfold try_catch at 1. unfold bind at 1.
  unfold GeminiProvider.last_message. rewrite Hlast. unfold ret at 1.
  unfold bind at 1. unfold request at 1. rewrite Hreq.
  destruct (GeminiProvider.retryable e).
  - unfold bind, console_log, emit.
    destruct (GeminiProvider.chatWithModel _ _ _ _ _ w1) as [[o w2] ev].
    cbn. reflexivity.
  - reflexivity.
Qed.

Lemma retried_once (run retry : Outcome ChatResult * W * list Event)
      (adapter primary fallback line : string) :
  run = (let '(o, w2, ev) := retry in
         (o, w2, Remote adapter primary :: Console LLog line :: ev)) ->
  remote_calls (trace retry) = [(adapter, fallback)] ->
  (forall r, outcome retry = Ok r -> model r = fallback /\ provider r = adapter) ->
  RetriedOnce run retry adapter primary fallback.
Proof.
  destruct retry as [[o w2] ev]. intros -> Hcalls Hres.
  unfold RetriedOnce, outcome, world, trace in *. cbn in *.
  rewrite Hcalls. repeat split; try reflexivity; apply Hres; assumption.
Qed.

End AdapterProperties.

Lemma status_is_true (e : JsError) (c : Z) :
  status_is e c = true <-> err_status e = Some c.
Proof.
  unfold status_is. destruct (err_status e) as [s |].
  - rewrite Z.eqb_eq. split; congruence.
  - split; discriminate.
Qed.

Lemma status_is_false (e : JsError) (c : Z) :
  status_is e c = false <-> err_status e <> Some c.
Proof.
  rewrite <- status_is_true. destruct (status_is e c); split; congruence.
Qed.

(** C2, as the code has it.  When the request for the primary model
    throws [e]:
    - the Anthropic and OpenAI adapters, for a status of 429 or 503, issue
      exactly one request for the fallback model and end as that request
      does (an answer names the fallback model; a failure of the retry,
      retryable or not, is final), and for any other status rethrow [e]
      with no further request;
    - the Gemini adapter does the same single retry when the status is 429
      or the message contains [quota], and rethrows [e] with no further
      request when the status is neither 429 nor 503 and the message does
      not contain [quota]. *)
Theorem adapter_fallback_policy
        {W : Type} (msgs : list Message) (sys : string)
        (opts : option ChatOptions) (w w1 : W) (e : JsError) :
  (forall (p : AnthropicProvider.t W) c,
      AnthropicProvider.client p = Some c ->
      c (AnthropicProvider.build_request (AnthropicProvider.primaryModel p)
                                         msgs sys opts) w = (Throw e, w1) ->
      (err_status e = Some 429 \/ err_status e = Some 503 ->
       RetriedOnce (AnthropicProvider.chat p msgs sys opts w)
                   (AnthropicProvider.chatWithModel
                      p (AnthropicProvider.fallbackModel p) msgs sys opts w1)
                   AnthropicProvider.name
                   (AnthropicProvider.primaryModel p)
                   (AnthropicProvider.fallbackModel p))
      /\ (err_status e <> Some 429 -> err_status e <> Some 503 ->
          AnthropicProvider.chat p msgs sys opts w
          = (Throw e, w1,
             [Remote AnthropicProvider.name (AnthropicProvider.primaryModel p)])))
  /\ (forall (p : OpenAIProvider.t W) c,
         OpenAIProvider.client p = Some c ->
         c (OpenAIProvider.build_request (OpenAIProvider.primaryModel p)
                                         msgs sys opts) w = (Throw e, w1) ->
         (err_status e = Some 429 \/ err_status e = Some 503 ->
          RetriedOnce (OpenAIProvider.chat p msgs sys opts w)
                      (OpenAIProvider.chatWithModel
                         p (OpenAIProvider.fallbackModel p) msgs sys opts w1)
                      OpenAIProvider.name
                      (OpenAIProvider.primaryModel p)
                      (OpenAIProvider.fallbackModel p))
         /\ (err_status e <> Some 429 -> err_status e <> Some 503 ->
             OpenAIProvider.chat p msgs sys opts w
             = (Throw e, w1,
                [Remote OpenAIProvider.name (OpenAIProvider.primaryModel p)])))
  /\ (forall (p : GeminiProvider.t W) c last others,
         GeminiProvider.client p = Some c ->
         rev msgs = last :: others ->
         c (GeminiProvider.build_request (GeminiProvider.primaryModel p)
                                         msgs last sys opts) w = (Throw e, w1) ->
         (err_status e = Some 429 \/ includes (err_message e) "quota" = true ->
          RetriedOnce (GeminiProvider.chat p msgs sys opts w)
                      (GeminiProvider.chatWithModel
                         p (GeminiProvider.fallbackModel p) msgs sys opts w1)
                      GeminiProvider.name
                      (GeminiProvider.primaryModel p)
                      (GeminiProvider.fallbackModel p))
         /\ (err_status e <> Some 429 -> err_status e <> Some 503 ->
             includes (err_message e) "quota" = false ->
             GeminiProvider.chat p msgs sys opts w
             = (Throw e, w1,
                [Remote GeminiProvider.name (GeminiProvider.primaryModel p)]))).
Proof.
  split; [| split].
  - intros p c Hc Hreq.
    pose proof (anthropic_chat_primary_failed (p:=p) Hc Hreq) as E. split.
    + intros Hs.
      assert (R : status_is e 429 || status_is e 503 = true).
      { apply orb_true_iff. rewrite !status_is_true. exact Hs. }
      rewrite R in E.
      destruct (anthropic_chatWithModel_run
                  (AnthropicProvider.fallbackModel p) msgs sys opts w1 Hc)
        as [Hcalls Hres].
      eapply retried_once; eassumption.
    + intros H1 H2. apply status_is_false in H1, H2.
      rewrite H1, H2 in E. exact E.
  - intros p c Hc Hreq.
    pose proof (openai_chat_primary_failed (p:=p) Hc Hreq) as E. split.
    + intros Hs.
      assert (R : status_is e 429 || status_is e 503 = true).
      { apply orb_true_iff. rewrite !status_is_true. exact Hs. }
      rewrite R in E.
      destruct (openai_chatWithModel_run
                  (OpenAIProvider.fallbackModel p) msgs sys opts w1 Hc)
        as [Hcalls Hres].
      eapply retried_once; eassumption.
    + intros H1 H2. apply status_is_false in H1, H2.
      rewrite H1, H2 in E. exact E.
  - intros p c last others Hc Hlast Hreq.
    pose proof (gemini_chat_primary_failed (p:=p) Hc Hlast Hreq) as E. split.
    + intros Hs.
      assert (R : GeminiProvider.retryable e = true).
      { unfold GeminiProvider.retryable. apply orb_true_iff.
        rewrite status_is_true. exact Hs. }
      rewrite R in E.
      destruct (gemini_chatWithModel_run
                  (GeminiProvider.fallbackModel p) sys opts w1 Hc Hlast)
        as [Hcalls Hres].
      eapply retried_once; eassumption.
    + intros H1 _ H3. apply status_is_false in H1.
      unfold GeminiProvider.retryable in E. rewrite H1, H3 in E. exact E.
Qed.

Lemma adapter_fallback_policy_witness :
  RetriedOnce
    (AnthropicProvider.chat (Sample.claude Sample.rate_limited) Sample.hello "sys" None 0)
    (AnthropicProvider.chatWithModel (Sample.claude Sample.rate_limited)
                                     "claude-3-5-haiku-20241022"
                                     Sample.hello "sys" None 100)
    "Anthropic Claude" "claude-sonnet-4-20250514" "claude-3-5-haiku-20241022"
  /\ RetriedOnce
       (OpenAIProvider.chat (Sample.gpt Sample.unavailable) Sample.hello "sys" None 0)
       (OpenAIProvider.chatWithModel (Sample.gpt Sample.unavailable) "gpt-4o-mini"
                                     Sample.hello "sys" None 100)
       "OpenAI GPT" "gpt-4o" "gpt-4o-mini"
  /\ GeminiProvider.chat (Sample.gemini Sample.unauthorized) Sample.hello "sys" None 0
     = (Throw Sample.unauthorized, 100, [Remote "Google Gemini" "gemini-1.5-pro"]).
Proof.
  split; [| split].
  - refine (proj1 (proj1 (adapter_fallback_policy Sample.hello "sys" None 0 100
                            Sample.rate_limited)
                         (Sample.claude Sample.rate_limited) _ eq_refl eq_refl) _).
    left; reflexivity.
  - refine (proj1 (proj1 (proj2 (adapter_fallback_policy Sample.hello "sys" None 0 100
                                   Sample.unavailable))
                         (Sample.gpt Sample.unavailable) _ eq_refl eq_refl) _).
    right; reflexivity.
  - refine (proj2 (proj2 (proj2 (adapter_fallback_policy Sample.hello "sys" None 0 100
                                   Sample.unauthorized))
                         (Sample.gemini Sample.unauthorized) _ _ [] eq_refl eq_refl
                         eq_refl) _ _ _).
    + discriminate.
    + discriminate.
    + reflexivity.
Defined.

(** C2 as stated fails on the Gemini adapter: an error whose status is
    403, hence neither 429 nor 503, but whose message mentions [quota],
    is not rethrown; the fallback model is asked and its answer
    returned. *)
Lemma gemini_retries_on_quota_message :
  err_status Sample.quota_exceeded = Some 403
  /\ Sample.gemini_client Sample.quota_exceeded
       (GeminiProvider.build_request "gemini-1.5-pro" Sample.hello
          {| msg_role := user; msg_content := "What is the answer?" |} "sys" None) 0
     = (Throw Sample.quota_exceeded, 100)
  /\ GeminiProvider.chat (Sample.gemini Sample.quota_exceeded) Sample.hello "sys" None 0
     = (Ok {| content := "Hello"; provider := "Google Gemini";
              model := "gemini-1.5-flash";
              usage := Some {| inputTokens := Zn 20; outputTokens := Zn 5 |} |},
        200,
        [Remote "Google Gemini" "gemini-1.5-pro";
         Console LLog "[Gemini] Primary failed, trying fallback model...";
         Remote "Google Gemini" "gemini-1.5-flash"])
  /\ GeminiProvider.chat (Sample.gemini Sample.quota_exceeded) Sample.hello "sys" None 0
     <> (Throw Sample.quota_exceeded, 100, [Remote "Google Gemini" "gemini-1.5-pro"]).
Proof.
  assert (E : GeminiProvider.chat (Sample.gemini Sample.quota_exceeded)
                                  Sample.hello "sys" None 0
              = (Ok {| content := "Hello"; provider := "Google Gemini";
                       model := "gemini-1.5-flash";
                       usage := Some {| inputTokens := Zn 20; outputTokens := Zn 5 |} |},
                 200,
                 [Remote "Google Gemini" "gemini-1.5-pro";
                  Console LLog "[Gemini] Primary failed, trying fallback model...";
                  Remote "Google Gemini" "gemini-1.5-flash"])).
  { reflexivity. }
  split; [reflexivity |]. split; [reflexivity |]. split; [exact E |].
  rewrite E. discriminate.
Qed.

(** ** Router *)

Section RouterProperties.
Context {W : Type} {RT : Runtime W}.

Lemma now_run (w : W) :
  now w = (Ok (fst (Date_now w)), snd (Date_now w), []).
Proof. unfold now. destruct (Date_now w). reflexivity. Qed.

(** No object in the text: the fixed fallback decision. *)
Lemma parseRouterResponse_no_object (text : string) (w : W) :
  parsed_object text = None ->
  IntelligentRouter.parseRouterResponse text w
  = (Ok IntelligentRouter.parse_failure, w, [parse_error_line]).
Proof.
  unfold parsed_object, IntelligentRouter.parseRouterResponse.
  unfold try_catch, bind.
  destruct (match_json_block text) as [block |]; cbn; [| reflexivity].
  destruct (Json.parse block) as [[| | | | | |] |]; cbn;
    try reflexivity; discriminate.
Qed.

(** An object in the text: its route if valid (else [standard]), its
    confidence clamped, unless the coercion of the confidence throws. *)
Lemma parseRouterResponse_object (text : string) (parsed : JsValue) (w : W) :
  parsed_object text = Some parsed ->
  IntelligentRouter.parseRouterResponse text w
  = match ToNumber (reported_confidence parsed) with
    | Ok c =>
        (Ok {| IntelligentRouter.p_route :=
                 match reported_route parsed with
                 | Some r => r
                 | None => standard
                 end;
               IntelligentRouter.p_confidence :=
                 number_of (Math_max F64.zero (Math_min (F64.of_Z 1) c));
               IntelligentRouter.p_reasoning := get parsed "reasoning";
               IntelligentRouter.p_complexity_signals :=
                 get parsed "complexity_signals" |},
         w, [])
    | Throw _ => (Ok IntelligentRouter.parse_failure, w, [parse_error_line])
    end.
Proof.
  unfold parsed_object, IntelligentRouter.parseRouterResponse.
  unfold try_catch, bind.
  destruct (match_json_block text) as [block |]; cbn; [| discriminate].
  destruct (Json.parse block) as [[| | | | | | members] |]; cbn;
    try discriminate.
  intros [= <-]. unfold lift, reported_confidence, reported_route.
  cbn [get].
  destruct (ToNumber _) as [c | e]; cbn; [| reflexivity].
  change [114%N; 111%N; 117%N; 116%N; 101%N] with (units "route").
  destruct (lookup_last (units "route") members); reflexivity.
Qed.

(** The heuristic tier always decides: two readings of the clock, no
    request, statistics updated once, never [bypassed], a confidence
    among its fixed values. *)
Lemma heuristicRoute_run (r : IntelligentRouter.t W) (q0 : string) (m : Mode)
      (startTime : Z) (w : W) :
  exists d,
    IntelligentRouter.heuristicRoute r q0 m startTime w
    = (Ok (d, IntelligentRouter.updateStats r d), after_reads 2 w, [])
    /\ bypassed d = false
    /\ (exists c, confidence d = Num c /\ in_unit c)
    /\ timestamp d = reading 0 w
    /\ latencyMs d = Some (Zn (reading 1 w - startTime))
    /\ (m = mode_research -> route d = research \/ route d = standard).
Proof.
  unfold IntelligentRouter.heuristicRoute, reading. cbn [after_reads].
  destruct m.
  - destruct (IntelligentRouter.hasResearchSignals r q0);
      unfold bind; rewrite !now_run; cbn;
      (eexists; split; [reflexivity |]; cbn;
       repeat split; try reflexivity;
       [eexists; split; [reflexivity | split; apply num_leb_true; reflexivity]
       | intros _; auto]).
  - destruct (IntelligentRouter.hasCreativeSignals r q0);
      [| destruct (IntelligentRouter.hasComplexSignals r q0);
         [| destruct ((_ <? 10)%nat && _)]];
      unfold bind; rewrite !now_run; cbn;
      (eexists; split; [reflexivity |]; cbn;
       repeat split; try reflexivity;
       [eexists; split; [reflexivity | split; apply num_leb_true; reflexivity]
       | discriminate]).
Qed.

Lemma nan_dec (x : F64.t) : {x = S754_nan} + {x <> S754_nan}.
Proof. destruct x; (left; reflexivity) || (right; discriminate). Qed.

Lemma unit_or_NaN_clamp (c : F64.t) :
  unit_or_NaN (number_of (Math_max F64.zero (Math_min (F64.of_Z 1) c))).
Proof.
  destruct (nan_dec c) as [-> | Hc]; [exact I |].
  destruct (clamp_unit Hc) as [x [-> H]]. exact H.
Qed.


Lemma in_unit_half : in_unit (dec 5 10).
Proof. split; apply num_leb_true; reflexivity. Qed.

(** [parseRouterResponse] never throws, leaves the world alone, sends
    nothing, and returns a confidence that is [NaN] or within [[0, 1]]. *)
Lemma parseRouterResponse_run (text : string) (w : W) :
  exists p ev,
    IntelligentRouter.parseRouterResponse text w = (Ok p, w, ev)
    /\ remote_calls ev = []
    /\ unit_or_NaN (IntelligentRouter.p_confidence p).
Proof.
  destruct (parsed_object text) as [parsed |] eqn:E.
  - rewrite (parseRouterResponse_object w E).
    destruct (ToNumber (reported_confidence parsed)) as [c | e].
    + do 2 eexists. split; [reflexivity |]. split; [reflexivity |].
      apply unit_or_NaN_clamp.
    + do 2 eexists. split; [reflexivity |]. split; [reflexivity |].
      exact in_unit_half.
  - rewrite (parseRouterResponse_no_object w E).
    do 2 eexists. split; [reflexivity |]. split; [reflexivity |].
    exact in_unit_half.
Qed.

(** The classifier answered with a text block: the decision is built from
    the parse of that text. *)
Lemma llmRoute_answer (r : IntelligentRouter.t W) c (input : RouterInput)
      (startTime : Z) (w w1 : W) resp blk rest p ev :
  c (IntelligentRouter.classifier_request r input) w = (Ok resp, w1) ->
  AnthropicProvider.resp_content resp = blk :: rest ->
  AnthropicProvider.type blk = "text" ->
  IntelligentRouter.parseRouterResponse (AnthropicProvider.text blk) w1
  = (Ok p, w1, ev) ->
  IntelligentRouter.llmRoute r c input startTime w
  = (Ok (decision_of_parsed p (reading 0 w1) (reading 1 w1) startTime),
     after_reads 2 w1,
     (Remote IntelligentRouter.remote_label (IntelligentRouter.modelId r) :: ev)%list).
Proof.
  intros Hc Hblk Hty Hp. unfold IntelligentRouter.llmRoute.
  unfold bind at 1. unfold request at 1. rewrite Hc.
  unfold bind at 1. unfold IntelligentRouter.text_block. rewrite Hblk, Hty.
  change (negb (String.eqb "text" "text")) with false. unfold ret at 1.
  unfold bind at 1. rewrite Hp.
  unfold bind. rewrite !now_run. cbn. trace_norm.
  reflexivity.
Qed.

(** Whatever the classifier does, [llmRoute] sends exactly one request;
    a decision it returns is not [bypassed], carries a latency, and has a
    confidence that is [NaN] or within [[0, 1]]. *)
Lemma llmRoute_run (r : IntelligentRouter.t W) c (input : RouterInput)
      (startTime : Z) (w : W) :
  let run := IntelligentRouter.llmRoute r c input startTime w in
  remote_calls (trace run)
  = [(IntelligentRouter.remote_label, IntelligentRouter.modelId r)]
  /\ (forall d, outcome run = Ok d ->
                bypassed d = false /\ unit_or_NaN (confidence d)
                /\ exists l, latencyMs d = Some l).
Proof.
  intros run. subst run.
  destruct (c (IntelligentRouter.classifier_request r input) w)
    as [[resp | e] w1] eqn:Hc.
  - destruct (AnthropicProvider.resp_content resp) as [| blk rest] eqn:Hblk.
    + unfold IntelligentRouter.llmRoute, bind, request,
        IntelligentRouter.text_block.
      rewrite Hc, Hblk. cbn. split; [reflexivity | discriminate].
    + destruct (String.eqb (AnthropicProvider.type blk) "text") eqn:Hty.
      * apply String.eqb_eq in Hty.
        destruct (parseRouterResponse_run (AnthropicProvider.text blk) w1)
          as (p & ev & Hp & Hev & Hconf).
        rewrite (@llmRoute_answer r c input startTime w w1 resp blk rest p ev
                                  Hc Hblk Hty Hp).
        unfold trace, outcome. cbn. rewrite Hev. split; [reflexivity |].
        intros d [= <-]. cbn. repeat split; [exact Hconf | eexists; reflexivity].
      * unfold IntelligentRouter.llmRoute, bind, request,
          IntelligentRouter.text_block.
        rewrite Hc, Hblk, Hty. cbn. split; [reflexivity | discriminate].
  - unfold IntelligentRouter.llmRoute, bind, request. rewrite Hc. cbn.
    split; [reflexivity | discriminate].
Qed.

Lemma shouldBypass_research (r : IntelligentRouter.t W) (q0 : string) :
  IntelligentRouter.shouldBypass r q0 mode_research = None.
Proof. reflexivity. Qed.

Lemma shouldBypass_fast (r : IntelligentRouter.t W) (q0 : string) (m : Mode)
      (rt : RouteType) :
  IntelligentRouter.shouldBypass r q0 m = Some rt -> rt = fast.
Proof.
  unfold IntelligentRouter.shouldBypass. destruct m; [discriminate |].
  destruct (_ && _ && _); [congruence |].
  destruct (_ && _); congruence.
Qed.

Lemma shouldBypass_short (r : IntelligentRouter.t W) (q0 : string) :
  (word_count q0 <= 5)%nat ->
  IntelligentRouter.hasComplexSignals r q0 = false ->
  IntelligentRouter.shouldBypass r q0 mode_standard = Some fast.
Proof.
  intros Hlen Hsig. unfold IntelligentRouter.shouldBypass.
  fold (word_count q0). rewrite Hsig.
  destruct (_ && _ && _); [reflexivity |].
  apply Nat.leb_le in Hlen. rewrite Hlen. reflexivity.
Qed.

(** The three ways through [route]. *)
Lemma route_bypassing (r : IntelligentRouter.t W) (input : RouterInput) (w : W)
      (rt : RouteType) :
  IntelligentRouter.shouldBypass r (query input) (mode_of input) = Some rt ->
  IntelligentRouter.route r input w
  = (let d := bypass_decision (reading 1 w) (reading 2 w) (reading 0 w) in
     (Ok (d, IntelligentRouter.updateStats r d), after_reads 3 w, [])).
Proof.
  intros H. pose proof (shouldBypass_fast H) as ->.
  unfold IntelligentRouter.route. unfold bind at 1. rewrite now_run.
  fold (mode_of input). rewrite H.
  unfold bind, reading. rewrite !now_run. cbn. reflexivity.
Qed.

Lemma route_without_client (r : IntelligentRouter.t W) (input : RouterInput)
      (w : W) :
  IntelligentRouter.shouldBypass r (query input) (mode_of input) = None ->
  IntelligentRouter.client r = None ->
  IntelligentRouter.route r input w
  = (let '(o, w', ev) :=
       IntelligentRouter.heuristicRoute r (query input) (mode_of input)
                                        (reading 0 w) (after_reads 1 w) in
     (o, w', Console LWarn "[Router] No Anthropic client, using heuristic routing"
               :: ev)).
Proof.
  intros H Hc. unfold IntelligentRouter.route. unfold bind at 1. rewrite now_run.
  fold (mode_of input). rewrite H, Hc.
  unfold bind, console_warn, emit, reading. cbn [after_reads].
  destruct (IntelligentRouter.heuristicRoute _ _ _ _ _) as [[o w'] ev].
  cbn. reflexivity.
Qed.

Lemma route_classified (r : IntelligentRouter.t W) (input : RouterInput)
      (w : W) c d w' ev :
  IntelligentRouter.shouldBypass r (query input) (mode_of input) = None ->
  IntelligentRouter.client r = Some c ->
  IntelligentRouter.llmRoute r c input (reading 0 w) (after_reads 1 w)
  = (Ok d, w', ev) ->
  IntelligentRouter.route r input w
  = (Ok (d, IntelligentRouter.updateStats r d), w', ev).
Proof.
  intros H Hc Hllm. unfold IntelligentRouter.route. unfold bind at 1.
  rewrite now_run. fold (mode_of input). rewrite H, Hc.
  unfold try_catch, bind. unfold reading in Hllm. cbn [after_reads] in Hllm.
  rewrite Hllm. cbn. trace_norm. reflexivity.
Qed.

Lemma route_classifier_failed (r : IntelligentRouter.t W) (input : RouterInput)
      (w : W) c e w' ev :
  IntelligentRouter.shouldBypass r (query input) (mode_of input) = None ->
  IntelligentRouter.client r = Some c ->
  IntelligentRouter.llmRoute r c input (reading 0 w) (after_reads 1 w)
  = (Throw e, w', ev) ->
  IntelligentRouter.route r input w
  = (let '(o, w'', ev2) :=
       IntelligentRouter.heuristicRoute r (query input) (mode_of input)
                                        (reading 0 w) w' in
     (o, w'',
      (ev ++ Console LError "[Router] LLM routing failed, falling back to heuristic"
          :: ev2)%list)).
Proof.
  intros H Hc Hllm. unfold IntelligentRouter.route. unfold bind at 1.
  rewrite now_run. fold (mode_of input). rewrite H, Hc.
  unfold try_catch. unfold reading in Hllm. cbn [after_reads] in Hllm.
  unfold bind at 1. rewrite Hllm.
  unfold bind, console_error, emit.
  destruct (IntelligentRouter.heuristicRoute _ _ _ _ w') as [[o w''] ev2].
  cbn. trace_norm. reflexivity.
Qed.

(** Every call of [route] returns a decision and the router with its
    statistics updated by that decision, once. *)
Lemma route_run (r : IntelligentRouter.t W) (input : RouterInput) (w : W) :
  exists d w' ev,
    IntelligentRouter.route r input w
    = (Ok (d, IntelligentRouter.updateStats r d), w', ev)
    /\ unit_or_NaN (confidence d)
    /\ (exists l, latencyMs d = Some l)
    /\ (bypassed d = true ->
        IntelligentRouter.shouldBypass r (query input) (mode_of input) = Some fast).
Proof.
  destruct (IntelligentRouter.shouldBypass r (query input) (mode_of input))
    as [rt |] eqn:Hb.
  - pose proof (shouldBypass_fast Hb) as ->.
    rewrite (route_bypassing w Hb). do 3 eexists. split; [reflexivity |].
    cbn. repeat split; try (apply num_leb_true; reflexivity).
    eexists; reflexivity.
  - destruct (IntelligentRouter.client r) as [c |] eqn:Hc.
    + destruct (IntelligentRouter.llmRoute r c input (reading 0 w) (after_reads 1 w))
        as [[[d | e] w'] ev] eqn:Hllm.
      * rewrite (route_classified Hb Hc Hllm).
        destruct (llmRoute_run r c input (reading 0 w) (after_reads 1 w))
          as [_ Hd].
        rewrite Hllm in Hd. destruct (Hd d eq_refl) as (Hbp & Hconf & Hlat).
        do 3 eexists. split; [reflexivity |].
        repeat split; [exact Hconf | exact Hlat | congruence].
      * rewrite (route_classifier_failed Hb Hc Hllm).
        destruct (heuristicRoute_run r (query input) (mode_of input)
                                     (reading 0 w) w')
          as (d & -> & Hbp & (c0 & Hc0 & Hu) & _ & Hlat & _).
        do 3 eexists. split; [reflexivity |].
        repeat split; [rewrite Hc0; exact Hu | eexists; exact Hlat | congruence].
    + rewrite (route_without_client w Hb Hc).
      destruct (heuristicRoute_run r (query input) (mode_of input)
                                   (reading 0 w) (after_reads 1 w))
        as (d & -> & Hbp & (c0 & Hc0 & Hu) & _ & Hlat & _).
      do 3 eexists. split; [reflexivity |].
      repeat split; [rewrite Hc0; exact Hu | eexists; exact Hlat | congruence].
Qed.

End RouterProperties.

(** C4.  Outside research mode, a query of at most five words that
    contains none of the configured complexity signals is bypassed: three
    readings of the clock, no request and no console line, and the
    decision is [fast] with confidence 0.95 and [bypassed] set; the
    statistics take that decision in. *)
Theorem short_plain_query_bypasses
        {W : Type} {RT : Runtime W}
        (r : IntelligentRouter.t W) (input : RouterInput) (w : W) :
  mode input <> Some mode_research ->
  (word_count (query input) <= 5)%nat ->
  IntelligentRouter.hasComplexSignals r (query input) = false ->
  exists d,
    IntelligentRouter.route r input w
    = (Ok (d, IntelligentRouter.updateStats r d), after_reads 3 w, [])
    /\ route d = fast
    /\ confidence d = Num (dec 95 100)
    /\ bypassed d = true.
Proof.
  intros Hmode Hlen Hsig.
  assert (Hm : mode_of input = mode_standard).
  { unfold mode_of. destruct (mode input) as [[|] |]; congruence. }
  pose proof (shouldBypass_short Hlen Hsig) as Hb. rewrite <- Hm in Hb.
  rewrite (route_bypassing w Hb). cbv zeta.
  eexists. split; [reflexivity |]. repeat split.
Qed.

Lemma short_plain_query_bypasses_witness :
  exists d,
    IntelligentRouter.route (RT:=Sample.runtime)
      (Sample.router_with "unused") (Sample.ask "What is TypeScript?" None) 1000
    = (Ok (d, IntelligentRouter.updateStats (Sample.router_with "unused") d),
       1003, [])
    /\ route d = fast
    /\ confidence d = Num (dec 95 100)
    /\ bypassed d = true.
Proof.
  apply (@short_plain_query_bypasses Z Sample.runtime
           (Sample.router_with "unused") (Sample.ask "What is TypeScript?" None)
           1000).
  - discriminate.
  - vm_compute. lia.
  - vm_compute. reflexivity.
Defined.

(** C5.  In research mode [route] always returns a decision, and that
    decision is never [bypassed]. *)
Theorem research_mode_never_bypasses
        {W : Type} {RT : Runtime W}
        (r : IntelligentRouter.t W) (input : RouterInput) (w : W) :
  mode input = Some mode_research ->
  exists d w' ev,
    IntelligentRouter.route r input w
    = (Ok (d, IntelligentRouter.updateStats r d), w', ev)
    /\ bypassed d = false.
Proof.
  intros Hmode.
  destruct (route_run r input w) as (d & w' & ev & Hrun & _ & _ & Hb).
  exists d, w', ev. split; [exact Hrun |].
  destruct (bypassed d); [| reflexivity].
  specialize (Hb eq_refl). unfold mode_of in Hb. rewrite Hmode in Hb.
  discriminate Hb.
Qed.

Lemma research_mode_never_bypasses_witness :
  exists d w' ev,
    IntelligentRouter.route (RT:=Sample.runtime)
      Sample.offline_router (Sample.ask "What is TypeScript?" (Some mode_research))
      1000
    = (Ok (d, IntelligentRouter.updateStats Sample.offline_router d), w', ev)
    /\ bypassed d = false.
Proof.
  exact (@research_mode_never_bypasses Z Sample.runtime
           Sample.offline_router
           (Sample.ask "What is TypeScript?" (Some mode_research)) 1000 eq_refl).
Defined.




(** ** Statistics *)







(** Along a sequence of calls every input yields one decision, and the
    statistics at the end are those at the start updated by each
    decision once, in order. *)
Lemma route_all_updates {W : Type} {RT : Runtime W}
      (inputs : list RouterInput) :
  forall (r : IntelligentRouter.t W) (w : W),
  exists ds r' w',
    route_all r inputs w = (ds, r', w')
    /\ List.length ds = List.length inputs
    /\ IntelligentRouter.stats r'
       = fold_left IntelligentRouter.updateStats_on ds (IntelligentRouter.stats r).
Proof.
  induction inputs as [| input rest IH]; intros r w.
  - exists [], r, w. repeat split.
  - destruct (route_run r input w) as (d & w1 & ev & Hrun & _).
    destruct (IH (IntelligentRouter.updateStats r d) w1)
      as (ds & r' & w' & Hall & Hlen & Hstats).
    exists (d :: ds), r', w'. cbn [route_all]. rewrite Hrun, Hall.
    split; [reflexivity |]. split; [cbn; congruence |].
    rewrite Hstats. reflexivity.
Qed.




(** ** Route executor *)

Section ExecutorProperties.
Context {W : Type} {RT : Runtime W}.

(** [execute] ends as the Provider Manager's call does: it rethrows what
    that call throws, and builds its result from what that call
    returns. *)
Lemma execute_run (ex : RouteExecutor.t W) (route : RouteType)
      (context : ExecutionContext) (w : W) :
  match executor_chat ex route context w with
  | (Throw e, w3, ev) =>
      RouteExecutor.execute ex route context w = (Throw e, w3, ev)
  | (Ok result, w3, ev) =>
      exists res,
        RouteExecutor.execute ex route context w = (Ok res, after_reads 2 w3, ev)
        /\ answer res = content result
        /\ res_route res = route
        /\ res_model res = model result
        /\ res_provider res = provider result
        /\ res_confidence res = inherited_confidence context
        /\ routingMs (timing res) = inherited_latency context
        /\ estimated (costs res)
           = RouteExecutor.estimateCostFromTokens
               (model result) (cost_inputTokens (costs res))
               (cost_outputTokens (costs res))
        /\ fallbackUsed (metadata res) = false
        /\ fallbackReason (metadata res) = None
  end.
Proof.
  unfold executor_chat, RouteExecutor.execute.
  destruct (getRouteModel_defined route) as [m Hm]. rewrite Hm.
  fold (executor_prompt ex route context). fold (executor_options route).
  generalize (ProviderManager.chat (RouteExecutor.providerManager ex)).
  intros pm_chat.
  unfold TimingTracker.new, TimingTracker.mark, TimingTracker.measure,
    TimingTracker.getTotalMs, lift, bind, try_catch, ret.
  repeat (rewrite now_run; cbn).
  destruct (pm_chat _ _ _ _) as [[[result | e] w3] ev].
  - repeat (rewrite now_run; cbn). trace_norm.
    eexists. split; [reflexivity |]. cbn. repeat split.
  - cbn. trace_norm. reflexivity.
Qed.

Lemma execute_answered (ex : RouteExecutor.t W) (route : RouteType)
      (context : ExecutionContext) (w : W) result w3 ev :
  executor_chat ex route context w = (Ok result, w3, ev) ->
  exists res,
    RouteExecutor.execute ex route context w = (Ok res, after_reads 2 w3, ev)
    /\ answer res = content result
    /\ res_route res = route
    /\ res_model res = model result
    /\ res_provider res = provider result
    /\ res_confidence res = inherited_confidence context
    /\ routingMs (timing res) = inherited_latency context
    /\ estimated (costs res)
       = RouteExecutor.estimateCostFromTokens
           (model result) (cost_inputTokens (costs res))
           (cost_outputTokens (costs res))
    /\ fallbackUsed (metadata res) = false
    /\ fallbackReason (metadata res) = None.
Proof.
  intros H. pose proof (execute_run ex route context w) as R.
  rewrite H in R. exact R.
Qed.

Lemma execute_failed (ex : RouteExecutor.t W) (route : RouteType)
      (context : ExecutionContext) (w : W) e w3 ev :
  executor_chat ex route context w = (Throw e, w3, ev) ->
  RouteExecutor.execute ex route context w = (Throw e, w3, ev).
Proof.
  intros H. pose proof (execute_run ex route context w) as R.
  rewrite H in R. exact R.
Qed.

Lemma execute_accounting (ex : RouteExecutor.t W) (route : RouteType)
      (context : ExecutionContext) (w : W) result w3 ev :
  executor_chat ex route context w = (Ok result, w3, ev) ->
  exists res,
    RouteExecutor.execute ex route context w = (Ok res, after_reads 2 w3, ev)
    /\ cost_inputTokens (costs res)
       = match usage result with
         | Some u => num_or (inputTokens u) (estimated_input ex route context)
         | None => estimated_input ex route context
         end
    /\ cost_outputTokens (costs res)
       = match usage result with
         | Some u => num_or (outputTokens u)
                            (RouteExecutor.estimateTokens (content result))
         | None => RouteExecutor.estimateTokens (content result)
         end
    /\ routerBypassed (metadata res)
       = match routerDecision context with
         | Some d => Some (bypassed d)
         | None => None
         end
    /\ totalMs (timing res) = Zn (reading 1 w3 - reading 0 w)
    /\ generationMs (timing res)
       = Zn (reading 0 w3 - (if reading 1 w =? 0 then reading 0 w else reading 1 w)).
Proof.
  unfold executor_chat, RouteExecutor.execute, estimated_input.
  destruct (getRouteModel_defined route) as [m Hm]. rewrite Hm.
  fold (executor_prompt ex route context). fold (executor_options route).
  generalize (ProviderManager.chat (RouteExecutor.providerManager ex)).
  intros pm_chat.
  unfold TimingTracker.new, TimingTracker.mark, TimingTracker.measure,
    TimingTracker.getTotalMs, lift, bind, try_catch, ret, reading.
  repeat (rewrite now_run; cbn).
  intros H. rewrite H.
  repeat (rewrite now_run; cbn). trace_norm.
  eexists. split; [reflexivity |]. cbn.
  repeat split.
Qed.

End ExecutorProperties.

(** C8.  When the Provider Manager answers under the model identifier
    "constructor", which is no key of [MODELS], [execute] returns a
    result whose estimated cost is [NaN]: the read [MODELS[model]] finds
    the member every object inherits under that name, nothing is thrown,
    and the default price of the same token counts, which is a number,
    is not applied. *)
Theorem inherited_model_name_is_not_priced :
  lookup "constructor" MODELS = None
  /\ exists res,
       RouteExecutor.execute (RT:=Sample.runtime)
         (Sample.executor_of (Sample.pm_answering_as "constructor"))
         standard (Sample.context_with None) 0
       = (Ok res, 104,
          [trying (Sample.up "C" "constructor"); Remote "C" "constructor";
           succeeded (Sample.up "C" "constructor")])
       /\ res_model res = "constructor"
       /\ cost_inputTokens (costs res) = Zn 12
       /\ cost_outputTokens (costs res) = Zn 3
       /\ estimated (costs res) = F64.nan
       /\ default_price (Zn 12) (Zn 3)
          = S754_finite false 5976745079881895 (-66).
Proof.
  split; [reflexivity |].
  destruct (@execute_answered Z Sample.runtime
              (Sample.executor_of (Sample.pm_answering_as "constructor"))
              standard (Sample.context_with None) 0
              {| content := "42"; provider := "C"; model := "constructor";
                 usage := Some {| inputTokens := Zn 12;
                                  outputTokens := Zn 3 |} |}
              102
              [trying (Sample.up "C" "constructor");
               Remote "C" "constructor";
               succeeded (Sample.up "C" "constructor")]
              eq_refl)
    as (res & Hrun & _ & _ & Hmodel & _ & _ & _ & Hcost & _).
  destruct (@execute_accounting Z Sample.runtime
              (Sample.executor_of (Sample.pm_answering_as "constructor"))
              standard (Sample.context_with None) 0
              {| content := "42"; provider := "C"; model := "constructor";
                 usage := Some {| inputTokens := Zn 12;
                                  outputTokens := Zn 3 |} |}
              102
              [trying (Sample.up "C" "constructor");
               Remote "C" "constructor";
               succeeded (Sample.up "C" "constructor")]
              eq_refl)
    as (res' & Hrun' & Hin & Hout & _).
  rewrite Hrun in Hrun'. injection Hrun' as <-.
  exists res. split; [exact Hrun |]. split; [exact Hmodel |].
  cbn [usage inputTokens outputTokens] in Hin, Hout.
  assert (Hi : cost_inputTokens (costs res) = Zn 12)
    by (rewrite Hin; vm_compute; reflexivity).
  assert (Ho : cost_outputTokens (costs res) = Zn 3)
    by (rewrite Hout; vm_compute; reflexivity).
  split; [exact Hi |]. split; [exact Ho |]. split.
  - rewrite Hcost, estimateCostFromTokens_cases. reflexivity.
  - vm_compute. reflexivity.
Qed.

(** C9, what the code does.  A returned result takes its routing latency
    from the supplied decision, and its confidence too unless that
    confidence is [0] or [NaN], in which case (as when no decision is
    supplied) the confidence is 0.8. *)
Lemma execute_inherits_unless_falsy
      {W : Type} {RT : Runtime W}
      (ex : RouteExecutor.t W) (route : RouteType) (context : ExecutionContext)
      (w w' : W) res ev :
  RouteExecutor.execute ex route context w = (Ok res, w', ev) ->
  routingMs (timing res)
  = match routerDecision context with Some d => latencyMs d | None => None end
  /\ res_confidence res
     = match routerDecision context with
       | Some d =>
           match confidence d with
           | Num c => if num_eqb c (Zn 0) then dec 8 10 else c
           | NaN => dec 8 10
           end
       | None => dec 8 10
       end.
Proof.
  intros H. pose proof (execute_run ex route context w) as R.
  destruct (executor_chat ex route context w) as [[[result | e] w3] ev3].
  - destruct R as (res0 & Hrun & _ & _ & _ & _ & Hconf & Hlat & _).
    rewrite Hrun in H. injection H as <- _ _.
    split; [exact Hlat |]. rewrite Hconf. unfold inherited_confidence.
    destruct (routerDecision context) as [d |]; [| reflexivity].
    destruct (confidence d); reflexivity.
  - rewrite R in H. discriminate H.
Qed.

(** C9 at the failing input: the supplied decision has confidence [0];
    the result reports 0.8 (its routing latency is the decision's). *)
Lemma execute_drops_zero_confidence :
  confidence Sample.unsure_decision = Num (Zn 0)
  /\ exists res w' ev,
       RouteExecutor.execute (RT:=Sample.runtime)
         (Sample.executor_of Sample.pm_one_up) standard
         (Sample.context_with (Some Sample.unsure_decision)) 0
       = (Ok res, w', ev)
       /\ res_confidence res = dec 8 10
       /\ res_confidence res <> Zn 0
       /\ routingMs (timing res) = Some (Zn 12).
Proof.
  split; [reflexivity |].
  destruct (@execute_answered Z Sample.runtime
              (Sample.executor_of Sample.pm_one_up) standard
              (Sample.context_with (Some Sample.unsure_decision)) 0
              {| content := "42"; provider := "C"; model := "c-1";
                 usage := Some {| inputTokens := Zn 12; outputTokens := Zn 3 |} |}
              102
              [trying (Sample.up "C" "c-1"); Remote "C" "c-1";
               succeeded (Sample.up "C" "c-1")]
              eq_refl)
    as (res & Hrun & _ & _ & _ & _ & Hconf & Hlat & _).
  exists res, 104, [trying (Sample.up "C" "c-1"); Remote "C" "c-1";
                    succeeded (Sample.up "C" "c-1")].
  split; [exact Hrun |]. rewrite Hconf, Hlat.
  split; [reflexivity |]. split; [| reflexivity].
  intros E. apply num_eqb_true in E. vm_compute in E. discriminate E.
Qed.

(** C10.  A result that [execute] returns has [fallbackUsed = false] and
    no [fallbackReason], whatever the Provider Manager went through to
    produce the answer. *)
Theorem returned_result_never_reports_fallback
        {W : Type} {RT : Runtime W}
        (ex : RouteExecutor.t W) (route : RouteType) (context : ExecutionContext)
        (w w' : W) res ev :
  RouteExecutor.execute ex route context w = (Ok res, w', ev) ->
  fallbackUsed (metadata res) = false /\ fallbackReason (metadata res) = None.
Proof.
  intros H. pose proof (execute_run ex route context w) as R.
  destruct (executor_chat ex route context w) as [[[result | e] w3] ev3].
  - destruct R as (res0 & Hrun & _ & _ & _ & _ & _ & _ & _ & Hused & Hreason).
    rewrite Hrun in H. injection H as <- _ _. split; assumption.
  - rewrite R in H. discriminate H.
Qed.

Lemma returned_result_never_reports_fallback_witness :
  exists res ev,
    RouteExecutor.execute (RT:=Sample.runtime)
      (Sample.executor_of Sample.pm_two_down_one_up) standard
      (Sample.context_with None) 0
    = (Ok res, 304, ev)
    /\ remote_calls ev = [("A", "primary"); ("B", "primary"); ("C", "c-1")]
    /\ res_provider res = "C"
    /\ fallbackUsed (metadata res) = false
    /\ fallbackReason (metadata res) = None.
Proof.
  destruct (@execute_answered Z Sample.runtime
              (Sample.executor_of Sample.pm_two_down_one_up) standard
              (Sample.context_with None) 0
              {| content := "42"; provider := "C"; model := "c-1";
                 usage := Some {| inputTokens := Zn 12; outputTokens := Zn 3 |} |}
              302
              [trying (Sample.down "A" Sample.rate_limited); Remote "A" "primary";
               failed (Sample.down "A" Sample.rate_limited) Sample.rate_limited;
               trying (Sample.down "B" Sample.unauthorized); Remote "B" "primary";
               failed (Sample.down "B" Sample.unauthorized) Sample.unauthorized;
               trying (Sample.up "C" "c-1"); Remote "C" "c-1";
               succeeded (Sample.up "C" "c-1")]
              eq_refl)
    as (res & Hrun & _ & _ & _ & Hprov & _).
  exists res. eexists. split; [exact Hrun |]. split; [reflexivity |].
  split; [exact Hprov |].
  exact (returned_result_never_reports_fallback Hrun).
Defined.

(* ===================================================================== *)
(** * Further properties of the code                                       *)
(* ===================================================================== *)

(** ** Construction of the Provider Manager *)

Lemma kept_adapters {W : Type} (env : ProviderManager.Env W)
      (f : Provider -> AIProvider W) (order : list Provider) :
  (forall p, isAvailable (f p) = has_credential env p) ->
  (forall p, name (f p) = adapter_name p) ->
  map (fun p => name p) (filter (fun p => isAvailable p) (map f order))
  = map adapter_name (filter (has_credential env) order)
  /\ Forall (fun p => isAvailable p = true)
            (filter (fun p => isAvailable p) (map f order)).
Proof.
  intros Hav Hname. split.
  - induction order as [| p order IH]; [reflexivity |].
    cbn [map filter]. rewrite Hav.
    destruct (has_credential env p); cbn [map]; rewrite ?Hname, IH; reflexivity.
  - apply Forall_forall. intros p Hin. apply filter_In in Hin. apply Hin.
Qed.

Lemma existsb_filter {A : Type} (f : A -> bool) (l : list A) :
  existsb f l = match filter f l with [] => false | _ => true end.
Proof.
  induction l as [| a l IH]; [reflexivity |].
  cbn [existsb filter]. destruct (f a); [reflexivity | exact IH].
Qed.

(** X1. The constructor never throws and sends nothing; it keeps, in the
    requested order, exactly the adapters whose credential is set, so
    every adapter it stores is available, and the manager is available
    iff some requested adapter has its credential. *)
Theorem manager_keeps_configured_adapters
        {W : Type} (env : ProviderManager.Env W)
        (options : option ProviderManager.Options) (w : W) :
  exists pm ev,
    ProviderManager.new env options w = (Ok pm, w, ev)
    /\ remote_calls ev = []
    /\ ProviderManager.getAvailableProviders pm
       = map adapter_name (filter (has_credential env) (requested_order options))
    /\ Forall (fun p => isAvailable p = true) (ProviderManager.providers pm)
    /\ ProviderManager.isAvailable pm
       = existsb (has_credential env) (requested_order options).
Proof.
  unfold ProviderManager.new.
  set (configs := match options with
                  | Some {| ProviderManager.providerConfigs := Some c |} => c
                  | _ => _
                  end).
  fold (requested_order options).
  set (f := fun name0 : Provider => match name0 with
                                    | anthropic => _
                                    | openai => _
                                    | google => _
                                    end).
  destruct (@kept_adapters W env f (requested_order options)) as [Hnames Hall].
  { intros [| |]; reflexivity. }
  { intros [| |]; reflexivity. }
  assert (Hex : forall l : list (AIProvider W),
             map (fun p => name p) l
             = map adapter_name (filter (has_credential env) (requested_order options)) ->
             match l with [] => false | _ => true end
             = existsb (has_credential env) (requested_order options)).
  { intros l Hl.
    rewrite existsb_filter.
    revert Hl.
    destruct (filter (has_credential env) (requested_order options));
      destruct l; cbn; intros Hl; try reflexivity; discriminate Hl. }
  destruct (filter (fun provider => isAvailable provider)
                   (map f (requested_order options))) as [| p ps] eqn:E.
  - do 2 eexists. split; [reflexivity |]. cbn.
    split; [reflexivity |]. split; [exact Hnames |]. split; [constructor |].
    exact (Hex [] Hnames).
  - do 2 eexists. split; [reflexivity |]. cbn [remote_calls app].
    split; [reflexivity |].
    unfold ProviderManager.getAvailableProviders, ProviderManager.isAvailable.
    cbn [ProviderManager.providers].
    split; [exact Hnames |]. split; [exact Hall |].
    exact (Hex (p :: ps) Hnames).
Qed.

(** ** Adapters: answers and malformed responses *)

(** X2. When the primary model answers with a text block, the Anthropic
    adapter returns that text under its own name and the primary model,
    with the reported usage, after exactly one request; a response cut at
    [max_tokens] is returned all the same, with one warning line. *)
Theorem anthropic_primary_answer
        {W : Type} (p : AnthropicProvider.t W) c msgs sys opts (w w1 : W)
        resp blk rest :
  AnthropicProvider.client p = Some c ->
  c (AnthropicProvider.build_request (AnthropicProvider.primaryModel p)
                                     msgs sys opts) w = (Ok resp, w1) ->
  AnthropicProvider.resp_content resp = blk :: rest ->
  AnthropicProvider.type blk = "text" ->
  AnthropicProvider.chat p msgs sys opts w
  = (Ok {| content := AnthropicProvider.text blk;
           provider := AnthropicProvider.name;
           model := AnthropicProvider.primaryModel p;
           usage := Some {| inputTokens := AnthropicProvider.input_tokens resp;
                            outputTokens := AnthropicProvider.output_tokens resp |} |},
     w1,
     Remote AnthropicProvider.name (AnthropicProvider.primaryModel p)
       :: (if string_is (AnthropicProvider.stop_reason resp) "max_tokens"
           then [Console LWarn "[Anthropic] Response truncated - max_tokens reached"]
           else [])).
Proof.
  intros Hc Hreq Hblk Hty. unfold AnthropicProvider.chat. rewrite Hc.
  unfold try_catch, bind, request, AnthropicProvider.text_block.
  rewrite Hreq, Hblk, Hty.
  change (negb (String.eqb "text" "text")) with false. cbn.
  destruct (string_is (AnthropicProvider.stop_reason resp) "max_tokens");
    cbn; reflexivity.
Qed.

Lemma anthropic_primary_answer_witness :
  AnthropicProvider.chat
    (Sample.claude_over (Sample.claude_answering "text" "max_tokens"))
    Sample.hello "sys" None 0
  = (Ok {| content := "Hello"; provider := "Anthropic Claude";
           model := "claude-sonnet-4-20250514";
           usage := Some {| inputTokens := Zn 20; outputTokens := Zn 5 |} |},
     100,
     [Remote "Anthropic Claude" "claude-sonnet-4-20250514";
      Console LWarn "[Anthropic] Response truncated - max_tokens reached"]).
Proof.
  exact (@anthropic_primary_answer Z
           (Sample.claude_over (Sample.claude_answering "text" "max_tokens"))
           (Sample.claude_answering "text" "max_tokens")
           Sample.hello "sys" None 0 100 _ _ [] eq_refl eq_refl eq_refl eq_refl).
Defined.

(** X3. A malformed answer of the primary model is an error without status:
    the Anthropic adapter (first block missing or not text) and the
    OpenAI adapter (no choice, or a choice without content) throw after
    that one request and do not ask the fallback model. *)
Theorem malformed_response_not_retried
        {W : Type} msgs sys opts (w w1 : W) :
  (forall (p : AnthropicProvider.t W) c resp,
      AnthropicProvider.client p = Some c ->
      c (AnthropicProvider.build_request (AnthropicProvider.primaryModel p)
                                         msgs sys opts) w = (Ok resp, w1) ->
      match AnthropicProvider.resp_content resp with
      | [] => True
      | blk :: _ => AnthropicProvider.type blk <> "text"
      end ->
      exists e,
        AnthropicProvider.chat p msgs sys opts w
        = (Throw e, w1,
           [Remote AnthropicProvider.name (AnthropicProvider.primaryModel p)])
        /\ err_status e = None)
  /\ (forall (p : OpenAIProvider.t W) c resp,
         OpenAIProvider.client p = Some c ->
         c (OpenAIProvider.build_request (OpenAIProvider.primaryModel p)
                                         msgs sys opts) w = (Ok resp, w1) ->
         match OpenAIProvider.choices resp with
         | [] => True
         | choice :: _ =>
             OpenAIProvider.message_content choice = None
             \/ OpenAIProvider.message_content choice = Some ""
         end ->
         OpenAIProvider.chat p msgs sys opts w
         = (Throw (Error "Unexpected response format from OpenAI"), w1,
            [Remote OpenAIProvider.name (OpenAIProvider.primaryModel p)])).
Proof.
  split.
  - intros p c resp Hc Hreq Hbad. unfold AnthropicProvider.chat. rewrite Hc.
    unfold try_catch, bind, request, AnthropicProvider.text_block.
    rewrite Hreq.
    destruct (AnthropicProvider.resp_content resp) as [| blk rest].
    + cbn. eexists. split; reflexivity.
    + apply String.eqb_neq in Hbad. rewrite Hbad. cbn.
      eexists. split; reflexivity.
  - intros p c resp Hc Hreq Hbad. unfold OpenAIProvider.chat. rewrite Hc.
    unfold try_catch, bind, request. rewrite Hreq.
    destruct (OpenAIProvider.choices resp) as [| [mc fr] rest].
    + reflexivity.
    + cbn in Hbad. destruct Hbad as [-> | ->]; reflexivity.
Qed.

Lemma malformed_response_not_retried_witness :
  (exists e,
      AnthropicProvider.chat
        (Sample.claude_over (Sample.claude_answering "tool_use" "tool_use"))
        Sample.hello "sys" None 0
      = (Throw e, 100, [Remote "Anthropic Claude" "claude-sonnet-4-20250514"])
      /\ err_status e = None)
  /\ OpenAIProvider.chat
       (Sample.gpt_over (Sample.gpt_answering
                           [{| OpenAIProvider.message_content := None;
                               OpenAIProvider.finish_reason := Some "content_filter" |}]))
       Sample.hello "sys" None 0
     = (Throw (Error "Unexpected response format from OpenAI"), 100,
        [Remote "OpenAI GPT" "gpt-4o"]).
Proof.
  split.
  - refine (proj1 (@malformed_response_not_retried Z Sample.hello "sys" None 0 100)
                  (Sample.claude_over (Sample.claude_answering "tool_use" "tool_use"))
                  _ _ eq_refl eq_refl _).
    cbn. discriminate.
  - refine (proj2 (@malformed_response_not_retried Z Sample.hello "sys" None 0 100)
                  (Sample.gpt_over (Sample.gpt_answering
                     [{| OpenAIProvider.message_content := None;
                         OpenAIProvider.finish_reason := Some "content_filter" |}]))
                  _ _ eq_refl eq_refl _).
    cbn. left. reflexivity.
Defined.

(** ** Router: requests, signals and fallback *)

Lemma remote_calls_app (a b : list Event) :
  remote_calls (a ++ b) = (remote_calls a ++ remote_calls b)%list.
Proof.
  induction a as [| [p m | l t] a IH]; cbn; [reflexivity | | exact IH].
  rewrite IH. reflexivity.
Qed.

Section RouterFurther.
Context {W : Type} {RT : Runtime W}.

Lemma shouldBypass_complex (r : IntelligentRouter.t W) (q0 : string) (m : Mode) :
  IntelligentRouter.hasComplexSignals r q0 = true ->
  IntelligentRouter.shouldBypass r q0 m = None.
Proof.
  intros H. unfold IntelligentRouter.shouldBypass. destruct m; [reflexivity |].
  rewrite H. cbn [negb]. rewrite !andb_false_r. reflexivity.
Qed.

Lemma llmRoute_request_failed (r : IntelligentRouter.t W) c
      (input : RouterInput) (startTime : Z) (w w1 : W) e :
  c (IntelligentRouter.classifier_request r input) w = (Throw e, w1) ->
  IntelligentRouter.llmRoute r c input startTime w
  = (Throw e, w1,
     [Remote IntelligentRouter.remote_label (IntelligentRouter.modelId r)]).
Proof.
  intros H. unfold IntelligentRouter.llmRoute, bind, request. rewrite H.
  reflexivity.
Qed.

End RouterFurther.



(** X5. A query that contains one of the configured complexity signals is
    never bypassed, however short it is and in whatever mode. *)
Theorem complex_query_never_bypassed
        {W : Type} {RT : Runtime W}
        (r : IntelligentRouter.t W) (input : RouterInput) (w : W) :
  IntelligentRouter.hasComplexSignals r (query input) = true ->
  exists d w' ev,
    IntelligentRouter.route r input w
    = (Ok (d, IntelligentRouter.updateStats r d), w', ev)
    /\ bypassed d = false.
Proof.
  intros H.
  destruct (route_run r input w) as (d & w' & ev & Hrun & _ & _ & Hb).
  exists d, w', ev. split; [exact Hrun |].
  destruct (bypassed d); [| reflexivity].
  specialize (Hb eq_refl).
  rewrite (shouldBypass_complex (mode_of input) H) in Hb.
  discriminate Hb.
Qed.

Lemma complex_query_never_bypassed_witness :
  exists d w' ev,
    IntelligentRouter.route (RT:=Sample.runtime)
      Sample.offline_router (Sample.ask "tabs vs spaces" None) 1000
    = (Ok (d, IntelligentRouter.updateStats Sample.offline_router d), w', ev)
    /\ bypassed d = false.
Proof.
  apply (@complex_query_never_bypassed Z Sample.runtime
           Sample.offline_router (Sample.ask "tabs vs spaces" None) 1000).
  vm_compute. reflexivity.
Defined.

(** X6. When the classifier's request throws, [route] does not ask again: it
    logs the failure and returns what the heuristic tier decides from
    the world the failed request left, with the statistics updated by
    that decision. *)
Theorem classifier_failure_falls_back_to_heuristics
        {W : Type} {RT : Runtime W}
        (r : IntelligentRouter.t W) (input : RouterInput) (w w1 : W) c e :
  IntelligentRouter.client r = Some c ->
  IntelligentRouter.shouldBypass r (query input) (mode_of input) = None ->
  c (IntelligentRouter.classifier_request r input) (after_reads 1 w)
  = (Throw e, w1) ->
  exists d,
    IntelligentRouter.heuristicRoute r (query input) (mode_of input)
                                     (reading 0 w) w1
    = (Ok (d, IntelligentRouter.updateStats r d), after_reads 2 w1, [])
    /\ IntelligentRouter.route r input w
       = (Ok (d, IntelligentRouter.updateStats r d), after_reads 2 w1,
          [Remote IntelligentRouter.remote_label (IntelligentRouter.modelId r);
           Console LError "[Router] LLM routing failed, falling back to heuristic"])
    /\ bypassed d = false.
Proof.
  intros Hc Hb Hreq.
  pose proof (llmRoute_request_failed (reading 0 w) Hreq) as Hllm.
  rewrite (route_classifier_failed Hb Hc Hllm).
  destruct (heuristicRoute_run r (query input) (mode_of input) (reading 0 w) w1)
    as (d & Hh & Hbp & _).
  exists d. rewrite Hh. repeat split; assumption.
Qed.

Lemma classifier_failure_falls_back_to_heuristics_witness :
  exists d,
    IntelligentRouter.route (RT:=Sample.runtime)
      (Sample.router_over (Sample.broken_classifier Sample.unavailable))
      (Sample.ask Sample.long_question None) 1000
    = (Ok (d, IntelligentRouter.updateStats
                (Sample.router_over (Sample.broken_classifier Sample.unavailable)) d),
       1103,
       [Remote "Router" "claude-3-5-haiku-20241022";
        Console LError "[Router] LLM routing failed, falling back to heuristic"])
    /\ bypassed d = false.
Proof.
  destruct (@classifier_failure_falls_back_to_heuristics Z Sample.runtime
              (Sample.router_over (Sample.broken_classifier Sample.unavailable))
              (Sample.ask Sample.long_question None) 1000 1101
              (Sample.broken_classifier Sample.unavailable) Sample.unavailable
              eq_refl)
    as (d & _ & Hrun & Hbp).
  - vm_compute. reflexivity.
  - reflexivity.
  - exists d. split; [exact Hrun | exact Hbp].
Defined.

(** ** Router: counters *)

Lemma bump_dist_of (d : Distribution) (rt rt' : RouteType) :
  dist_of (IntelligentRouter.bump d rt) rt'
  = dist_of d rt' + (if RouteType_eqb rt rt' then 1 else 0).
Proof. destruct rt, rt'; cbn; lia. Qed.

Lemma bump_dist_total (d : Distribution) (rt : RouteType) :
  dist_total (IntelligentRouter.bump d rt) = dist_total d + 1.
Proof. destruct rt; unfold dist_total; cbn; lia. Qed.

Lemma counters_fold (ds : list RouterDecision) :
  forall s : RouterStats,
    let s' := fold_left IntelligentRouter.updateStats_on ds s in
    totalRouted s' = totalRouted s + Z.of_nat (List.length ds)
    /\ dist_total (routeDistribution s')
       = dist_total (routeDistribution s) + Z.of_nat (List.length ds)
    /\ bypassedCount s' = bypassedCount s + count_bypassed ds
    /\ (forall rt, dist_of (routeDistribution s') rt
                   = dist_of (routeDistribution s) rt + count_route rt ds).
Proof.
  induction ds as [| d ds IH]; intros s.
  - cbn. unfold count_bypassed, count_route. cbn.
    repeat split; intros; lia.
  - cbn [fold_left]. cbv zeta.
    destruct (IH (IntelligentRouter.updateStats_on s d)) as (H1 & H2 & H3 & H4).
    rewrite H1, H2, H3. cbn [totalRouted routeDistribution bypassedCount
                               IntelligentRouter.updateStats_on].
    rewrite bump_dist_total. unfold count_bypassed, count_route in *.
    cbn [filter List.length].
    repeat split.
    + lia.
    + lia.
    + destruct (bypassed d); cbn [List.length]; lia.
    + intros rt. rewrite H4.
      cbn [routeDistribution IntelligentRouter.updateStats_on].
      rewrite bump_dist_of.
      destruct (RouteType_eqb (route d) rt); cbn [List.length]; lia.
Qed.

Lemma route_bypassed_is_fast {W : Type} {RT : Runtime W}
      (r : IntelligentRouter.t W) (input : RouterInput) (w w' : W) d r' ev :
  IntelligentRouter.route r input w = (Ok (d, r'), w', ev) ->
  bypassed d = true -> route d = fast.
Proof.
  intros Hrun Hbp.
  destruct (route_run r input w) as (d0 & w0 & ev0 & Hrun0 & _ & _ & Hb).
  rewrite Hrun0 in Hrun. injection Hrun as <- _ _ _.
  specialize (Hb Hbp). rewrite (route_bypassing w Hb) in Hrun0.
  cbv zeta in Hrun0. injection Hrun0 as <-. reflexivity.
Qed.

Lemma route_all_forall {W : Type} {RT : Runtime W} (P : RouterDecision -> Prop) :
  (forall (r : IntelligentRouter.t W) input w d r' w' ev,
      IntelligentRouter.route r input w = (Ok (d, r'), w', ev) -> P d) ->
  forall inputs (r : IntelligentRouter.t W) w ds r' w',
    route_all r inputs w = (ds, r', w') -> Forall P ds.
Proof.
  intros HP. induction inputs as [| input rest IH]; intros r w ds r' w' H.
  - cbn in H. injection H as <- _ _. constructor.
  - cbn [route_all] in H.
    destruct (IntelligentRouter.route r input w) as [[[[d r1] | e] w1] ev] eqn:E.
    + destruct (route_all r1 rest w1) as [[ds1 r2] w2] eqn:E1.
      injection H as <- _ _. constructor.
      * exact (HP _ _ _ _ _ _ _ E).
      * exact (IH _ _ _ _ _ E1).
    + injection H as <- _ _. constructor.
Qed.

Lemma bypassed_le_fast (ds : list RouterDecision) :
  Forall (fun d => bypassed d = true -> route d = fast) ds ->
  count_bypassed ds <= count_route fast ds.
Proof.
  unfold count_bypassed, count_route. induction 1 as [| d ds Hd _ IH];
    [cbn; lia |].
  cbn [filter]. destruct (bypassed d) eqn:Hb.
  - assert (E : RouteType_eqb (route d) fast = true)
      by (rewrite (Hd eq_refl); reflexivity).
    rewrite E. cbn [List.length]. lia.
  - destruct (RouteType_eqb (route d) fast); cbn [List.length]; lia.
Qed.

(** X7. After any sequence of calls of [route] from fresh statistics, the
    per-route counters add up to [totalRouted], each counts the decisions
    for its route, [bypassedCount] counts the bypassed decisions, and,
    every bypass being routed [fast], [bypassedCount] never exceeds the
    [fast] counter. *)
Theorem routing_counters_consistent
        {W : Type} {RT : Runtime W}
        (r : IntelligentRouter.t W) (inputs : list RouterInput) (w : W) :
  IntelligentRouter.stats r = IntelligentRouter.initial_stats ->
  exists ds r' w',
    route_all r inputs w = (ds, r', w')
    /\ dist_total (routeDistribution (IntelligentRouter.stats r'))
       = totalRouted (IntelligentRouter.stats r')
    /\ bypassedCount (IntelligentRouter.stats r') = count_bypassed ds
    /\ (forall rt, dist_of (routeDistribution (IntelligentRouter.stats r')) rt
                   = count_route rt ds)
    /\ bypassedCount (IntelligentRouter.stats r')
       <= n_fast (routeDistribution (IntelligentRouter.stats r')).
Proof.
  intros Hinit.
  destruct (route_all_updates inputs r w) as (ds & r' & w' & Hall & _ & Hstats).
  exists ds, r', w'. split; [exact Hall |].
  destruct (counters_fold ds (IntelligentRouter.stats r)) as (H1 & H2 & H3 & H4).
  cbv zeta in H1, H2, H3, H4. rewrite <- Hstats in H1, H2, H3, H4.
  rewrite Hinit in H1, H2, H3, H4. cbn in H1, H2, H3.
  assert (H4' : forall rt, dist_of (routeDistribution (IntelligentRouter.stats r')) rt
                           = count_route rt ds).
  { intros rt. rewrite H4. destruct rt; cbn; lia. }
  split; [unfold dist_total in *; lia |]. split; [lia |]. split; [exact H4' |].
  change (n_fast (routeDistribution (IntelligentRouter.stats r')))
    with (dist_of (routeDistribution (IntelligentRouter.stats r')) fast).
  rewrite H4', H3. cbn. apply bypassed_le_fast.
  apply (route_all_forall (P:=fun d => bypassed d = true -> route d = fast)
           (fun r0 input0 w0 d r1 w1 ev H => route_bypassed_is_fast H)
           Hall).
Qed.

Lemma routing_counters_consistent_witness :
  exists ds r' w',
    route_all (RT:=Sample.runtime) Sample.offline_router
      [Sample.ask "What is TypeScript?" None;
       Sample.ask "tabs vs spaces" None] 1000
    = (ds, r', w')
    /\ dist_total (routeDistribution (IntelligentRouter.stats r'))
       = totalRouted (IntelligentRouter.stats r')
    /\ bypassedCount (IntelligentRouter.stats r') = count_bypassed ds
    /\ bypassedCount (IntelligentRouter.stats r')
       <= n_fast (routeDistribution (IntelligentRouter.stats r')).
Proof.
  destruct (@routing_counters_consistent Z Sample.runtime Sample.offline_router
              [Sample.ask "What is TypeScript?" None;
               Sample.ask "tabs vs spaces" None] 1000 eq_refl)
    as (ds & r' & w' & H0 & H1 & H2 & _ & H4).
  exists ds, r', w'. repeat split; assumption.
Defined.

(** ** Router: what becomes of the reported confidence *)

Lemma Qclt_irrefl (x : number) : ~ (x < x)%Qc.
Proof. intros H. exact (Qclt_not_eq _ _ H eq_refl). Qed.



(** X9. A reported confidence whose conversion to a number is [NaN] goes
    through the clamp as [NaN]; and once the running average of the
    confidences is [NaN], or a decision with a [NaN] confidence is
    recorded, the average stays [NaN] through every later update. *)
Theorem NaN_confidence_poisons_average
        {W : Type} {RT : Runtime W} :
  (forall text parsed (w : W),
      parsed_object text = Some parsed ->
      ToNumber (reported_confidence parsed) = Ok F64.nan ->
      exists p,
        IntelligentRouter.parseRouterResponse text w = (Ok p, w, [])
        /\ IntelligentRouter.p_confidence p = NaN)
  /\ (forall s d,
         confidence d = NaN \/ avgConfidence s = NaN ->
         avgConfidence (IntelligentRouter.updateStats_on s d) = NaN)
  /\ (forall ds s,
         avgConfidence s = NaN ->
         avgConfidence (fold_left IntelligentRouter.updateStats_on ds s) = NaN).
Proof.
  assert (Hstep : forall s d,
             confidence d = NaN \/ avgConfidence s = NaN ->
             avgConfidence (IntelligentRouter.updateStats_on s d) = NaN).
  { intros s d [H | H]; cbn; rewrite H; [| reflexivity].
    destruct (avgConfidence s); reflexivity. }
  split; [| split].
  - intros text parsed w Hobj Hnan.
    rewrite (parseRouterResponse_object w Hobj), Hnan.
    eexists. split; reflexivity.
  - exact Hstep.
  - induction ds as [| d ds IH]; intros s Hs; [exact Hs |].
    cbn [fold_left]. apply IH. apply Hstep. right. exact Hs.
Qed.

Lemma NaN_confidence_poisons_average_witness :
  exists p,
    IntelligentRouter.parseRouterResponse (RT:=Sample.runtime)
      (q "{'route': 'fast', 'confidence': {}}") 0 = (Ok p, 0, [])
    /\ IntelligentRouter.p_confidence p = NaN
    /\ avgConfidence
         (fold_left IntelligentRouter.updateStats_on
            [Sample.unsure_decision; Sample.unsure_decision]
            (IntelligentRouter.updateStats_on
               IntelligentRouter.initial_stats
               (decision_of_parsed p 0 0 0)))
       = NaN.
Proof.
  pose proof (@NaN_confidence_poisons_average Z Sample.runtime) as (H1 & H2 & H3).
  destruct (H1 (q "{'route': 'fast', 'confidence': {}}")
               (JObj [(units "route", JText "fast"); (units "confidence", JObj [])])
               0 eq_refl eq_refl) as (p & Hp & Hnan).
  exists p. split; [exact Hp |]. split; [exact Hnan |].
  apply H3. apply H2. left. exact Hnan.
Defined.

(** ** Timing tracker *)

Lemma lookup_set_same (key : string) (v : Z) (m : list (string * Z)) :
  lookup key (TimingTracker.set key v m) = Some v.
Proof.
  induction m as [| [k x] m IH]; cbn.
  - rewrite String.eqb_refl. reflexivity.
  - destruct (String.eqb k key) eqn:E; cbn; rewrite E; [reflexivity | exact IH].
Qed.

Lemma lookup_set_other (key other : string) (v : Z) (m : list (string * Z)) :
  other <> key ->
  lookup other (TimingTracker.set key v m) = lookup other m.
Proof.
  intros Hne. induction m as [| [k x] m IH]; cbn.
  - apply String.eqb_neq in Hne. rewrite String.eqb_sym, Hne. reflexivity.
  - destruct (String.eqb k key) eqn:E; cbn.
    + apply String.eqb_eq in E. subst k.
      apply String.eqb_neq in Hne. rewrite String.eqb_sym, Hne. reflexivity.
    + destruct (String.eqb k other); [reflexivity | exact IH].
Qed.

(** X10. [mark] followed by [measure] from that mark: the duration is the time
    between the two readings of the clock, unless the mark was read as
    [0], which [measure] takes for "no such mark" and replaces by the
    tracker's start.  [getDuration] then returns what [measure]
    returned, the other durations are untouched. *)
Theorem mark_then_measure
        {W : Type} {RT : Runtime W}
        (tr : TimingTracker.t) (markName durationName : string) (w : W) :
  exists tr1 tr2,
    TimingTracker.mark tr markName w = (Ok tr1, after_reads 1 w, [])
    /\ TimingTracker.measure tr1 durationName markName (after_reads 1 w)
       = (Ok (reading 1 w - (if reading 0 w =? 0
                             then TimingTracker.startTime tr
                             else reading 0 w),
              tr2),
          after_reads 2 w, [])
    /\ TimingTracker.getDuration tr2 durationName
       = reading 1 w - (if reading 0 w =? 0
                        then TimingTracker.startTime tr
                        else reading 0 w)
    /\ (forall other, other <> durationName ->
                      TimingTracker.getDuration tr2 other
                      = TimingTracker.getDuration tr other)
    /\ TimingTracker.startTime tr2 = TimingTracker.startTime tr.
Proof.
  unfold reading. cbn [after_reads].
  exists {| TimingTracker.startTime := TimingTracker.startTime tr;
            TimingTracker.marks :=
              TimingTracker.set markName (fst (Date_now w)) (TimingTracker.marks tr);
            TimingTracker.durations := TimingTracker.durations tr |}.
  eexists.
  split.
  { unfold TimingTracker.mark, bind. rewrite now_run. reflexivity. }
  split.
  { unfold TimingTracker.measure, bind. rewrite now_run.
    cbn [TimingTracker.marks TimingTracker.startTime TimingTracker.durations].
    unfold TimingTracker.get_or. rewrite lookup_set_same. cbn. reflexivity. }
  unfold TimingTracker.getDuration, TimingTracker.get_or.
  cbn [TimingTracker.marks TimingTracker.startTime TimingTracker.durations].
  rewrite lookup_set_same. split.
  - destruct (_ - _ =? 0) eqn:E; [| reflexivity].
    apply Z.eqb_eq in E. symmetry. exact E.
  - split; [| reflexivity]. intros other Hne.
    rewrite (lookup_set_other _ _ Hne). reflexivity.
Qed.

(** ** Messages and token estimates *)

Lemma append_assoc (a b c : string) : (a ++ b) ++ c = a ++ (b ++ c).
Proof. induction a as [| ch a IH]; cbn; [reflexivity | rewrite IH; reflexivity]. Qed.

Lemma route_name_inj (a b : RouteType) : route_name a = route_name b -> a = b.
Proof. destruct a, b; cbn; intros H; try reflexivity; discriminate H. Qed.

(** X11. [buildMessages] returns the conversation history unchanged followed
    by exactly one new user turn, so the list is never empty and its last
    turn is the user's; that turn ends with the query, and is the query
    itself unless a non-empty retrieved context is put in front of it. *)
Theorem buildMessages_shape (context : ExecutionContext) :
  let history := match ctx_conversationHistory context with
                 | Some h => h
                 | None => []
                 end in
  exists turn,
    RouteExecutor.buildMessages context = (history ++ [turn])%list
    /\ msg_role turn = user
    /\ (exists before, msg_content turn = before ++ ctx_query context)
    /\ (retrievedContext context = None \/ retrievedContext context = Some "" ->
        msg_content turn = ctx_query context)
    /\ (forall retrieved,
           retrievedContext context = Some retrieved -> retrieved <> "" ->
           msg_content turn
           = "Context:" ++ nl ++ retrieved ++ nl ++ nl ++ "Question: "
             ++ ctx_query context)
    /\ rev (RouteExecutor.buildMessages context) = turn :: rev history.
Proof.
  cbv zeta. unfold RouteExecutor.buildMessages.
  eexists. split; [reflexivity |]. cbn [msg_role msg_content].
  split; [reflexivity |].
  destruct (retrievedContext context) as [retrieved |].
  - destruct (String.eqb retrieved "") eqn:E.
    + apply String.eqb_eq in E. subst retrieved.
      split; [exists ""; reflexivity |]. split; [reflexivity |].
      split; [intros r [= <-] Hne; contradiction | apply rev_unit].
    + split.
      { exists ("Context:" ++ nl ++ retrieved ++ nl ++ nl ++ "Question: ").
        rewrite !append_assoc. reflexivity. }
      split.
      { intros [H | H]; [discriminate H |].
        injection H as ->. discriminate E. }
      split; [intros r [= <-] _; reflexivity | apply rev_unit].
  - split; [exists ""; reflexivity |]. split; [reflexivity |].
    split; [intros r H; discriminate H | apply rev_unit].
Qed.

(** X12. The token estimate of a text is the least integer that is at least
    a quarter of its length: [0] for the empty text only. *)
Theorem estimateTokens_bounds (text : string) :
  exists t,
    RouteExecutor.estimateTokens text = Zn t
    /\ Z.of_nat (String.length text) <= 4 * t < Z.of_nat (String.length text) + 4
    /\ (t = 0 <-> text = "").
Proof.
  unfold RouteExecutor.estimateTokens, ceil_div4.
  exists ((Z.of_nat (String.length text) + 3) / 4). split; [reflexivity |].
  pose proof (Z.div_mod (Z.of_nat (String.length text) + 3) 4 ltac:(lia)) as Hdm.
  pose proof (Z.mod_pos_bound (Z.of_nat (String.length text) + 3) 4 ltac:(lia)) as Hb.
  split; [lia |]. split.
  - intros H0. destruct text; [reflexivity |]. cbn [String.length] in *. lia.
  - intros ->. reflexivity.
Qed.

(** ** Route executor: accounting *)

(** X13. The token counts of a result are the ones the provider reported
    when it reported non-zero counts, and otherwise estimates: a quarter
    (rounded up) of the length of the system prompt plus all message
    contents for the input, of the answer for the output. *)
Theorem execute_token_accounting
        {W : Type} {RT : Runtime W}
        (ex : RouteExecutor.t W) (route : RouteType) (context : ExecutionContext)
        (w : W) result w3 ev :
  executor_chat ex route context w = (Ok result, w3, ev) ->
  exists res,
    RouteExecutor.execute ex route context w = (Ok res, after_reads 2 w3, ev)
    /\ (forall u, usage result = Some u ->
                  inputTokens u <> Zn 0 -> outputTokens u <> Zn 0 ->
                  cost_inputTokens (costs res) = inputTokens u
                  /\ cost_outputTokens (costs res) = outputTokens u)
    /\ (usage result = None ->
        cost_inputTokens (costs res)
        = Zn (ceil_div4 (String.length
                           (executor_prompt ex route context
                            ++ join (map msg_content
                                         (RouteExecutor.buildMessages context)))))
        /\ cost_outputTokens (costs res)
           = Zn (ceil_div4 (String.length (content result))))
    /\ (forall u, usage result = Some u -> inputTokens u = Zn 0 ->
                  cost_inputTokens (costs res) = estimated_input ex route context).
Proof.
  intros H.
  destruct (execute_accounting H) as (res & Hrun & Hin & Hout & _).
  exists res. split; [exact Hrun |]. split; [| split].
  - intros u Hu Hi Ho. rewrite Hin, Hout, Hu. unfold num_or.
    apply num_eqb_false in Hi, Ho. rewrite Hi, Ho. split; reflexivity.
  - intros Hu. rewrite Hin, Hout, Hu. split; reflexivity.
  - intros u Hu Hi. rewrite Hin, Hu, Hi. reflexivity.
Qed.

Lemma execute_token_accounting_witness :
  exists res,
    RouteExecutor.execute (RT:=Sample.runtime)
      (Sample.executor_of Sample.pm_one_up) standard (Sample.context_with None) 0
    = (Ok res, 104, [trying (Sample.up "C" "c-1"); Remote "C" "c-1";
                     succeeded (Sample.up "C" "c-1")])
    /\ cost_inputTokens (costs res) = Zn 12
    /\ cost_outputTokens (costs res) = Zn 3.
Proof.
  destruct (@execute_token_accounting Z Sample.runtime
              (Sample.executor_of Sample.pm_one_up) standard
              (Sample.context_with None) 0
              {| content := "42"; provider := "C"; model := "c-1";
                 usage := Some {| inputTokens := Zn 12; outputTokens := Zn 3 |} |}
              102
              [trying (Sample.up "C" "c-1"); Remote "C" "c-1";
               succeeded (Sample.up "C" "c-1")]
              eq_refl)
    as (res & Hrun & Hrep & _).
  exists res. split; [exact Hrun |].
  apply (Hrep {| inputTokens := Zn 12; outputTokens := Zn 3 |} eq_refl).
  - intros E. apply Zn_inj in E. discriminate E.
  - intros E. apply Zn_inj in E. discriminate E.
Defined.

(** ** Orchestrator: routing, then execution *)

Section OrchestratorProperties.
Context {W : Type} {RT : Runtime W}.

(** [process] is [route] followed by [execute] on the route decided,
    with the decision added to the context. *)
Lemma process_run (o : Orchestrator.t W) (ctx : ExecutionContext) (w : W)
      d r' w1 ev1 :
  IntelligentRouter.route (Orchestrator.router o) (router_input ctx) w
  = (Ok (d, r'), w1, ev1) ->
  Orchestrator.process o ctx w
  = (let '(out, w2, ev2) :=
       RouteExecutor.execute (Orchestrator.executor o) (route d)
                             (with_decision ctx d) w1 in
     (Ok (out, with_router o r'), w2, (ev1 ++ ev2)%list)).
Proof.
  intros Hr.
  unfold Orchestrator.process, router_input, with_decision, with_router in *.
  unfold bind at 1. rewrite Hr.
  unfold Orchestrator.settle, try_catch, bind, ret.
  destruct (RouteExecutor.execute _ _ _ w1) as [[[res | e] w2] ev2];
    cbn; trace_norm; reflexivity.
Qed.

Lemma chat_no_providers (pm : ProviderManager.t W) messages systemPrompt
      options (w : W) :
  ProviderManager.providers pm = [] ->
  ProviderManager.chat pm messages systemPrompt options w
  = (Throw ProviderManager.NoProviders, w, []).
Proof.
  intros H. unfold ProviderManager.chat. rewrite H. reflexivity.
Qed.

End OrchestratorProperties.

(** X14. Every call of [process] routes once and then executes once on the
    route decided: the orchestrator it leaves has the router's
    statistics updated by the decision whether or not execution throws;
    what execution throws is what the Provider Manager threw; and a
    returned result carries the answer of the Provider Manager, the
    decided route, the decision's latency and bypass flag, and the
    decision's confidence unless that is falsy. *)
Theorem process_routes_then_executes
        {W : Type} {RT : Runtime W}
        (o : Orchestrator.t W) (ctx : ExecutionContext) (w : W) :
  exists d w1 ev1,
    IntelligentRouter.route (Orchestrator.router o) (router_input ctx) w
    = (Ok (d, IntelligentRouter.updateStats (Orchestrator.router o) d), w1, ev1)
    /\ let o' := with_router o (IntelligentRouter.updateStats (Orchestrator.router o) d) in
       match executor_chat (Orchestrator.executor o) (route d)
                           (with_decision ctx d) w1 with
       | (Throw e, w3, ev2) =>
           Orchestrator.process o ctx w = (Ok (Throw e, o'), w3, (ev1 ++ ev2)%list)
       | (Ok result, w3, ev2) =>
           exists res,
             Orchestrator.process o ctx w
             = (Ok (Ok res, o'), after_reads 2 w3, (ev1 ++ ev2)%list)
             /\ answer res = content result
             /\ res_model res = model result
             /\ res_provider res = provider result
             /\ res_route res = route d
             /\ res_confidence res = jnum_or (confidence d) (dec 8 10)
             /\ routingMs (timing res) = latencyMs d
             /\ routerBypassed (metadata res) = Some (bypassed d)
       end.
Proof.
  destruct (route_run (Orchestrator.router o) (router_input ctx) w)
    as (d & w1 & ev1 & Hr & _).
  exists d, w1, ev1. split; [exact Hr |]. cbn zeta.
  rewrite (process_run Hr).
  destruct (executor_chat (Orchestrator.executor o) (route d)
                          (with_decision ctx d) w1)
    as [[[result | e] w3] ev2] eqn:Hchat.
  - destruct (execute_answered Hchat)
      as (res & Hrun & Ha & Hrt & Hm & Hp & Hc & Hl & _).
    destruct (execute_accounting Hchat)
      as (res' & Hrun' & _ & _ & Hb & _).
    rewrite Hrun in Hrun'. injection Hrun' as <-.
    exists res. rewrite Hrun. repeat split; assumption.
  - rewrite (execute_failed Hchat). reflexivity.
Qed.

(** X15. With no provider configured nothing is answered and nothing is
    requested by the executor: [execute] throws the Provider Manager's
    error after reading the clock twice, and [process] ends with that
    error after routing, the router's statistics having counted the
    query all the same. *)
Theorem no_provider_no_answer
        {W : Type} {RT : Runtime W}
        (o : Orchestrator.t W) (ctx : ExecutionContext) (w : W) :
  ProviderManager.providers (RouteExecutor.providerManager (Orchestrator.executor o))
  = [] ->
  (forall rt c w0,
      RouteExecutor.execute (Orchestrator.executor o) rt c w0
      = (Throw ProviderManager.NoProviders, after_reads 2 w0, []))
  /\ exists d w1 ev1,
       IntelligentRouter.route (Orchestrator.router o) (router_input ctx) w
       = (Ok (d, IntelligentRouter.updateStats (Orchestrator.router o) d), w1, ev1)
       /\ Orchestrator.process o ctx w
          = (Ok (Throw ProviderManager.NoProviders,
                 with_router o (IntelligentRouter.updateStats (Orchestrator.router o) d)),
             after_reads 2 w1, ev1)
       /\ totalRouted (IntelligentRouter.getStats
                         (IntelligentRouter.updateStats (Orchestrator.router o) d))
          = totalRouted (IntelligentRouter.getStats (Orchestrator.router o)) + 1.
Proof.
  intros Hnone.
  assert (Hex : forall rt c w0,
             RouteExecutor.execute (Orchestrator.executor o) rt c w0
             = (Throw ProviderManager.NoProviders, after_reads 2 w0, [])).
  { intros rt c w0. apply execute_failed.
    unfold executor_chat. apply chat_no_providers. exact Hnone. }
  split; [exact Hex |].
  destruct (route_run (Orchestrator.router o) (router_input ctx) w)
    as (d & w1 & ev1 & Hr & _).
  exists d, w1, ev1. split; [exact Hr |]. split.
  - rewrite (process_run Hr), Hex. rewrite app_nil_r. reflexivity.
  - reflexivity.
Qed.

Lemma no_provider_no_answer_witness :
  (forall rt c w0,
      RouteExecutor.execute (RT:=Sample.runtime)
        (Sample.executor_of Sample.pm_none) rt c w0
      = (Throw ProviderManager.NoProviders, w0 + 1 + 1, []))
  /\ exists d,
       outcome (Orchestrator.process (RT:=Sample.runtime)
                  (Sample.orchestrator_of Sample.offline_router Sample.pm_none)
                  (Sample.context_with None) 0)
       = Ok (Throw ProviderManager.NoProviders,
             with_router (Sample.orchestrator_of Sample.offline_router Sample.pm_none)
                         (IntelligentRouter.updateStats Sample.offline_router d)).
Proof.
  destruct (@no_provider_no_answer Z Sample.runtime
              (Sample.orchestrator_of Sample.offline_router Sample.pm_none)
              (Sample.context_with None) 0 eq_refl)
    as (Hex & d & w1 & ev1 & _ & Hp & _).
  split; [exact Hex |].
  exists d. rewrite Hp. reflexivity.
Defined.

(** ** Route executor: system prompts *)

Section PromptProperties.
Context {W : Type} {RT : Runtime W}.

(** [execute] depends on the executor only through its Provider Manager
    and the system prompt in force. *)
Lemma execute_ext (ex1 ex2 : RouteExecutor.t W) (rt : RouteType)
      (ctx : ExecutionContext) (w : W) :
  RouteExecutor.providerManager ex1 = RouteExecutor.providerManager ex2 ->
  executor_prompt ex1 rt ctx = executor_prompt ex2 rt ctx ->
  RouteExecutor.execute ex1 rt ctx w = RouteExecutor.execute ex2 rt ctx w.
Proof.
  intros Hpm Hp. unfold RouteExecutor.execute.
  fold (executor_prompt ex1 rt ctx). fold (executor_prompt ex2 rt ctx).
  rewrite Hpm, Hp. reflexivity.
Qed.

Lemma route_name_eqb (r1 r2 : RouteType) :
  String.eqb (route_name r1) (route_name r2) = true <-> r1 = r2.
Proof.
  rewrite String.eqb_eq. split; [apply route_name_inj | intros ->; reflexivity].
Qed.

End PromptProperties.

(** X16. Which system prompt is in force.  After [setSystemPrompt route p],
    [getSystemPrompt route] is [p] and the prompts of the other routes
    are as before, so that executing on another route is unchanged; a
    non-empty prompt given with the call takes precedence over the
    executor's; an absent or empty one leaves the route's prompt in
    force, and this is the prompt the Provider Manager is called
    with. *)
Theorem system_prompt_precedence
        {W : Type} {RT : Runtime W}
        (ex : RouteExecutor.t W) (rt : RouteType) (p : string)
        (ctx : ExecutionContext) (w : W) :
  let ex' := RouteExecutor.setSystemPrompt ex rt p in
  RouteExecutor.getSystemPrompt ex' rt = p
  /\ (forall r, r <> rt ->
        RouteExecutor.getSystemPrompt ex' r = RouteExecutor.getSystemPrompt ex r
        /\ RouteExecutor.execute ex' r ctx w = RouteExecutor.execute ex r ctx w)
  /\ (forall own, ctx_systemPrompt ctx = Some own -> own <> "" ->
        RouteExecutor.execute ex' rt ctx w = RouteExecutor.execute ex rt ctx w
        /\ executor_chat ex rt ctx w
           = ProviderManager.chat (RouteExecutor.providerManager ex)
               (RouteExecutor.buildMessages ctx) own (executor_options rt)
               (after_reads 2 w))
  /\ (ctx_systemPrompt ctx = None \/ ctx_systemPrompt ctx = Some "" ->
        executor_chat ex' rt ctx w
        = ProviderManager.chat (RouteExecutor.providerManager ex)
            (RouteExecutor.buildMessages ctx) p (executor_options rt)
            (after_reads 2 w)).
Proof.
  intros ex'.
  assert (Hsame : String.eqb (route_name rt) (route_name rt) = true)
    by (apply route_name_eqb; reflexivity).
  assert (Hother : forall r, r <> rt ->
             String.eqb (route_name r) (route_name rt) = false).
  { intros r Hr.
    destruct (String.eqb (route_name r) (route_name rt)) eqn:E; [| reflexivity].
    apply route_name_eqb in E. contradiction. }
  split; [| split; [| split]].
  - unfold ex', RouteExecutor.getSystemPrompt, RouteExecutor.setSystemPrompt.
    cbn. rewrite Hsame. reflexivity.
  - intros r Hr. split.
    + unfold ex', RouteExecutor.getSystemPrompt, RouteExecutor.setSystemPrompt.
      cbn. rewrite (Hother r Hr). reflexivity.
    + apply execute_ext; [reflexivity |].
      unfold executor_prompt, ex', RouteExecutor.setSystemPrompt. cbn.
      rewrite (Hother r Hr). reflexivity.
  - intros own Hown Hne.
    assert (Hf : String.eqb own "" = false).
    { destruct (String.eqb own "") eqn:E; [| reflexivity].
      apply String.eqb_eq in E. contradiction. }
    split.
    + apply execute_ext; [reflexivity |].
      unfold executor_prompt. rewrite Hown, Hf. reflexivity.
    + unfold executor_chat, executor_prompt. rewrite Hown, Hf. reflexivity.
  - intros Hnone. unfold executor_chat, executor_prompt, ex',
      RouteExecutor.setSystemPrompt. cbn.
    destruct Hnone as [-> | ->]; cbn; rewrite Hsame; reflexivity.
Qed.

(** ** Model registry: the cheapest model *)

Lemma Provider_eqb_eq (a b : Provider) : Provider_eqb a b = true <-> a = b.
Proof. destruct a, b; cbn; split; congruence. Qed.

Lemma ModelTier_eqb_eq (a b : ModelTier) : ModelTier_eqb a b = true <-> a = b.
Proof. destruct a, b; cbn; split; congruence. Qed.

Lemma insert_by_cost_In (m x : ModelConfig) (l : list ModelConfig) :
  In x (insert_by_cost m l) <-> x = m \/ In x l.
Proof.
  induction l as [| h r IH]; cbn.
  - intuition congruence.
  - destruct (num_leb (total_cost m) (total_cost h)); cbn.
    + intuition congruence.
    + rewrite IH. intuition congruence.
Qed.

Lemma sort_by_cost_In (x : ModelConfig) (l : list ModelConfig) :
  In x (sort_by_cost l) <-> In x l.
Proof.
  induction l as [| h r IH]; cbn; [reflexivity |].
  rewrite insert_by_cost_In, IH. intuition congruence.
Qed.

Lemma insert_by_cost_head (m : ModelConfig) (l : list ModelConfig) :
  head_cheapest l -> head_cheapest (insert_by_cost m l).
Proof.
  destruct l as [| h r]; cbn; [intros _ x [] |].
  intros Hh. destruct (num_leb (total_cost m) (total_cost h)) eqn:E; cbn.
  - apply num_leb_true in E. intros x [<- | Hx]; [exact E |].
    apply Qcle_trans with (total_cost h); [exact E | apply Hh; exact Hx].
  - apply num_leb_false in E. intros x Hx.
    apply insert_by_cost_In in Hx. destruct Hx as [-> | Hx];
      [exact E | apply Hh; exact Hx].
Qed.

Lemma sort_by_cost_head (l : list ModelConfig) : head_cheapest (sort_by_cost l).
Proof.
  induction l as [| h r IH]; cbn; [exact I |].
  apply insert_by_cost_head. exact IH.
Qed.

Lemma candidates_for_meets (options : CheapestOptions) (m : ModelConfig) :
  In m (candidates_for options)
  <-> (exists key, In (key, m) MODELS) /\ meets options m.
Proof.
  assert (Hall : In m (map snd MODELS) <-> exists key, In (key, m) MODELS).
  { rewrite in_map_iff. split.
    - intros ([k m'] & E & Hin). cbn in E. subst m'. exists k. exact Hin.
    - intros (k & Hin). exists (k, m). split; [reflexivity | exact Hin]. }
  unfold candidates_for, meets.
  destruct options as [mcw wp wt]. cbn [minContextWindow want_provider want_tier].
  rewrite <- Hall. clear Hall. generalize (map snd MODELS). intros all.
  assert (Hp : forall l,
             In m (match wp with
                   | Some p => filter (fun m => Provider_eqb (mc_provider m) p) l
                   | None => l
                   end)
             <-> In m l /\ (forall p, wp = Some p -> mc_provider m = p)).
  { intros l. destruct wp as [p |].
    - rewrite filter_In, Provider_eqb_eq. split.
      + intros [Hin E]. split; [exact Hin |]. intros p' [= <-]. exact E.
      + intros [Hin E]. split; [exact Hin | apply E; reflexivity].
    - split; [intros Hin; split; [exact Hin | discriminate] | intros [Hin _]; exact Hin]. }
  assert (Ht : forall l,
             In m (match wt with
                   | Some t => filter (fun m => ModelTier_eqb (tier m) t) l
                   | None => l
                   end)
             <-> In m l /\ (forall t, wt = Some t -> tier m = t)).
  { intros l. destruct wt as [t |].
    - rewrite filter_In, ModelTier_eqb_eq. split.
      + intros [Hin E]. split; [exact Hin |]. intros t' [= <-]. exact E.
      + intros [Hin E]. split; [exact Hin | apply E; reflexivity].
    - split; [intros Hin; split; [exact Hin | discriminate] | intros [Hin _]; exact Hin]. }
  assert (Hn : forall l,
             In m (match mcw with
                   | Some n =>
                       if num_eqb n (Zn 0) then l
                       else filter (fun m => num_leb n (contextWindow m)) l
                   | None => l
                   end)
             <-> In m l /\ (forall n, mcw = Some n -> n <> Zn 0 ->
                                      (n <= contextWindow m)%Qc)).
  { intros l. destruct mcw as [n |].
    - destruct (num_eqb n (Zn 0)) eqn:E.
      + apply num_eqb_true in E. split.
        * intros Hin. split; [exact Hin |]. intros n' [= <-] Hne. contradiction.
        * intros [Hin _]. exact Hin.
      + apply num_eqb_false in E. rewrite filter_In, num_leb_true. split.
        * intros [Hin Hle]. split; [exact Hin |]. intros n' [= <-] _. exact Hle.
        * intros [Hin Hle]. split; [exact Hin | apply Hle; [reflexivity | exact E]].
    - split; [intros Hin; split; [exact Hin | discriminate] | intros [Hin _]; exact Hin]. }
  rewrite Hn, Ht, Hp. tauto.
Qed.

(** X17. [getCheapestModel] returns a model of the table that passes the
    requested filters and whose input-plus-output price is the least
    among all models passing them; it returns nothing exactly when no
    model of the table passes the filters.  A minimum context window of
    zero filters nothing. *)
Theorem getCheapestModel_is_cheapest (options : CheapestOptions) :
  match getCheapestModel options with
  | Some m =>
      (exists key, In (key, m) MODELS)
      /\ meets options m
      /\ (forall key' m', In (key', m') MODELS -> meets options m' ->
                          (total_cost m <= total_cost m')%Qc)
  | None => forall key m, In (key, m) MODELS -> ~ meets options m
  end.
Proof.
  unfold getCheapestModel.
  pose proof (sort_by_cost_head (candidates_for options)) as Hhead.
  pose proof (fun x => sort_by_cost_In x (candidates_for options)) as Hin.
  destruct (sort_by_cost (candidates_for options)) as [| m rest]; cbn.
  - intros key m Hm Hmeets.
    apply (Hin m). apply candidates_for_meets. split; [exists key |]; assumption.
  - assert (Hm : In m (candidates_for options)) by (apply Hin; left; reflexivity).
    apply candidates_for_meets in Hm. destruct Hm as [Hkey Hmeets].
    split; [exact Hkey |]. split; [exact Hmeets |].
    intros key' m' Hm' Hmeets'.
    assert (Hc : In m' (m :: rest)).
    { apply Hin. apply candidates_for_meets. split; [exists key' |]; assumption. }
    destruct Hc as [<- | Hc]; [apply Qcle_refl | apply Hhead; exact Hc].
Qed.

(** ** Adapters and the price table *)

Section AttributionProperties.
Context {W : Type}.

(** An answer of the Anthropic adapter names the primary or the
    fallback model. *)
Lemma anthropic_answer_model (p : AnthropicProvider.t W) c msgs sys opts w r :
  AnthropicProvider.client p = Some c ->
  outcome (AnthropicProvider.chat p msgs sys opts w) = Ok r ->
  (model r = AnthropicProvider.primaryModel p
   \/ model r = AnthropicProvider.fallbackModel p)
  /\ provider r = AnthropicProvider.name.
Proof.
  intros Hc.
  destruct (c (AnthropicProvider.build_request (AnthropicProvider.primaryModel p)
                                               msgs sys opts) w)
    as [[resp | e] w1] eqn:Hreq.
  - unfold AnthropicProvider.chat. rewrite Hc.
    unfold try_catch, bind, request, AnthropicProvider.text_block.
    rewrite Hreq.
    destruct (AnthropicProvider.resp_content resp) as [| blk rest]; cbn;
      [discriminate |].
    destruct (negb _); cbn; [discriminate |].
    destruct (string_is _ _); cbn; intros [= <-]; split; try reflexivity;
      left; reflexivity.
  - rewrite (anthropic_chat_primary_failed Hc Hreq).
    destruct (status_is e 429 || status_is e 503); [| discriminate].
    pose proof (@anthropic_chatWithModel_run W p c
                  (AnthropicProvider.fallbackModel p) msgs sys opts w1 Hc)
      as [_ Hm].
    destruct (AnthropicProvider.chatWithModel _ _ _ _ _ w1) as [[o w2] ev].
    cbn in *. intros Ho. destruct (Hm r Ho) as [-> ->].
    split; [right |]; reflexivity.
Qed.

End AttributionProperties.

(** X18. With its models left at their defaults the Anthropic adapter
    answers under an API identifier (of Claude Sonnet 4, or of Claude
    3.5 Haiku after a retry), and neither is a key of [MODELS]:
    [estimateCostFromTokens] prices every such answer at the default
    USD 3.00 and USD 15.00 per million tokens, which is not the price
    the table gives Claude 3.5 Haiku. *)
Theorem anthropic_answers_priced_by_default
        {W : Type} (c : AnthropicProvider.Client W) msgs sys opts (w : W)
        (r : ChatResult) (i o : number) :
  outcome (AnthropicProvider.chat (AnthropicProvider.new (Some c) None)
                                  msgs sys opts w) = Ok r ->
  (model r = "claude-sonnet-4-20250514" \/ model r = "claude-3-5-haiku-20241022")
  /\ lookup (model r) MODELS = None
  /\ property (model r) MODELS = Missing
  /\ RouteExecutor.estimateCostFromTokens (model r) i o = default_price i o
  /\ (exists haiku,
        lookup "claude-haiku-3.5" MODELS = Some haiku
        /\ id haiku = "claude-3-5-haiku-20241022"
        /\ inputCost haiku = dec 80 100 /\ outputCost haiku = dec 400 100).
Proof.
  intros Hr.
  destruct (@anthropic_answer_model W (AnthropicProvider.new (Some c) None)
              c msgs sys opts w r eq_refl Hr) as [Hm _].
  cbn in Hm.
  assert (Hl : lookup (model r) MODELS = None)
    by (destruct Hm as [-> | ->]; vm_compute; reflexivity).
  assert (Hp : property (model r) MODELS = Missing)
    by (destruct Hm as [-> | ->]; vm_compute; reflexivity).
  split; [exact Hm |]. split; [exact Hl |]. split; [exact Hp |]. split.
  - rewrite estimateCostFromTokens_cases, Hp. reflexivity.
  - eexists. split; [vm_compute; reflexivity |].
    repeat split.
Qed.

Lemma anthropic_answers_priced_by_default_witness :
  lookup "claude-sonnet-4-20250514" MODELS = None
  /\ RouteExecutor.estimateCostFromTokens "claude-sonnet-4-20250514"
                                          (Zn 1000000) (Zn 1000000)
     = F64.of_Z 18.
Proof.
  destruct (@anthropic_answers_priced_by_default Z
              (Sample.claude_answering "text" "end_turn")
              Sample.hello "sys" None 0
              {| content := "Hello"; provider := "Anthropic Claude";
                 model := "claude-sonnet-4-20250514";
                 usage := Some {| inputTokens := Zn 20; outputTokens := Zn 5 |} |}
              (Zn 1000000) (Zn 1000000) eq_refl)
    as (_ & Hl & _ & Hp & _).
  split; [exact Hl |]. cbn [model] in Hp. rewrite Hp. vm_compute. reflexivity.
Defined.

(** ** Router: routing without a classifier *)

Section OfflineRouting.
Context {W : Type} {RT : Runtime W}.

Lemma heuristicRoute_choice (r : IntelligentRouter.t W) (q0 : string) (m : Mode)
      (startTime : Z) (w : W) :
  exists d,
    IntelligentRouter.heuristicRoute r q0 m startTime w
    = (Ok (d, IntelligentRouter.updateStats r d), after_reads 2 w, [])
    /\ bypassed d = false
    /\ route d = heuristic_choice r q0 m.
Proof.
  unfold IntelligentRouter.heuristicRoute, heuristic_choice, word_count.
  cbn [after_reads].
  destruct m.
  - destruct (IntelligentRouter.hasResearchSignals r q0);
      unfold bind; rewrite !now_run; cbn;
      (eexists; split; [reflexivity |]; cbn; split; reflexivity).
  - destruct (IntelligentRouter.hasCreativeSignals r q0);
      [| destruct (IntelligentRouter.hasComplexSignals r q0);
         [| destruct ((_ <? 10)%nat && _)]];
      unfold bind; rewrite !now_run; cbn;
      (eexists; split; [reflexivity |]; cbn; split; reflexivity).
Qed.

End OfflineRouting.

(** X19. A router without a classifier decides by rule and requests nothing.
    A query that is not bypassed gets the route of the heuristic tier:
    in research mode [research] with research signals and [standard]
    without; otherwise [creative] with creative signals, else [deep]
    with complex signals, else [fast] for a simple pattern in fewer than
    ten words, else [standard].  Outside research mode the route is never
    [research]; and a query of at most five words without complex
    signals is bypassed to [fast] even when it has creative signals. *)
Theorem offline_routing_rules
        {W : Type} {RT : Runtime W}
        (r : IntelligentRouter.t W) (input : RouterInput) (w : W) :
  IntelligentRouter.client r = None ->
  exists d w' ev,
    IntelligentRouter.route r input w
    = (Ok (d, IntelligentRouter.updateStats r d), w', ev)
    /\ remote_calls ev = []
    /\ (IntelligentRouter.shouldBypass r (query input) (mode_of input) = None ->
        bypassed d = false
        /\ route d = heuristic_choice r (query input) (mode_of input))
    /\ (mode_of input = mode_standard -> route d <> research)
    /\ (mode_of input = mode_standard ->
        (word_count (query input) <= 5)%nat ->
        IntelligentRouter.hasComplexSignals r (query input) = false ->
        bypassed d = true /\ route d = fast).
Proof.
  intros Hc.
  destruct (IntelligentRouter.shouldBypass r (query input) (mode_of input))
    as [rt |] eqn:Hb.
  - rewrite (route_bypassing w Hb). cbn zeta.
    do 3 eexists. split; [reflexivity |]. split; [reflexivity |].
    split; [discriminate |]. split; [intros _; cbn; discriminate |].
    intros _ _ _. split; reflexivity.
  - rewrite (route_without_client w Hb Hc).
    destruct (heuristicRoute_choice r (query input) (mode_of input)
                                    (reading 0 w) (after_reads 1 w))
      as (d & Hrun & Hbp & Hroute).
    rewrite Hrun. exists d. do 2 eexists. split; [reflexivity |].
    split; [reflexivity |]. split; [intros _; split; assumption |].
    split.
    + intros Hm. rewrite Hroute, Hm. unfold heuristic_choice.
      destruct (IntelligentRouter.hasCreativeSignals r (query input));
        [discriminate |].
      destruct (IntelligentRouter.hasComplexSignals r (query input));
        [discriminate |].
      destruct (_ && _); discriminate.
    + intros Hm Hlen Hsig. rewrite Hm in Hb.
      rewrite (shouldBypass_short Hlen Hsig) in Hb. discriminate Hb.
Qed.

Lemma offline_routing_rules_witness :
  exists d w' ev,
    IntelligentRouter.route (RT:=Sample.runtime)
      Sample.offline_router (Sample.ask "imagine a purple dragon" None) 1000
    = (Ok (d, IntelligentRouter.updateStats Sample.offline_router d), w', ev)
    /\ remote_calls ev = []
    /\ bypassed d = true /\ route d = fast
    /\ IntelligentRouter.hasCreativeSignals
         Sample.offline_router "imagine a purple dragon" = true.
Proof.
  destruct (@offline_routing_rules Z Sample.runtime
              Sample.offline_router (Sample.ask "imagine a purple dragon" None)
              1000 eq_refl)
    as (d & w' & ev & Hrun & Hq & _ & _ & Hshort).
  exists d, w', ev. split; [exact Hrun |]. split; [exact Hq |].
  destruct (Hshort eq_refl) as [Hbp Hfast].
  - vm_compute. lia.
  - vm_compute. reflexivity.
  - split; [exact Hbp |]. split; [exact Hfast |]. vm_compute. reflexivity.
Defined.

(** ** Orchestrator: construction *)

Section ConstructionProperties.
Context {W : Type} {RT : Runtime W}.

Lemma ProviderManager_new_run (env : ProviderManager.Env W)
      (options : option ProviderManager.Options) (w : W) :
  exists pm ev,
    ProviderManager.new env options w = (Ok pm, w, ev)
    /\ remote_calls ev = [].
Proof.
  unfold ProviderManager.new.
  destruct (filter _ _) as [| p ps];
    do 2 eexists; (split; [reflexivity |]); reflexivity.
Qed.

Lemma IntelligentRouter_new_run (apiKey : option (AnthropicProvider.Client W))
      (config : option RouterConfigOptions) (w : W) :
  exists r ev,
    IntelligentRouter.new apiKey config w = (Ok r, w, ev)
    /\ remote_calls ev = []
    /\ IntelligentRouter.client r = apiKey
    /\ IntelligentRouter.modelId r = "claude-3-5-haiku-20241022"
    /\ IntelligentRouter.stats r = IntelligentRouter.initial_stats.
Proof.
  unfold IntelligentRouter.new, bind, lift, console_log, emit, ret. cbn.
  do 2 eexists. split; [reflexivity |]. repeat split.
Qed.

End ConstructionProperties.

(** X20. The constructor of the orchestrator never throws and requests
    nothing.  The executor it builds runs on the orchestrator's own
    Provider Manager, whatever executor configuration was passed, and
    the router starts with empty statistics and classifies with Claude
    3.5 Haiku.  So when [isReady] is false, every [process] ends with
    the error of a Provider Manager that has no provider. *)
Theorem orchestrator_is_wired
        {W : Type} {RT : Runtime W}
        (env : ProviderManager.Env W) (config : option (Orchestrator.Config W))
        (w : W) :
  exists o ev,
    Orchestrator.new env config w = (Ok o, w, ev)
    /\ remote_calls ev = []
    /\ RouteExecutor.providerManager (Orchestrator.executor o)
       = Orchestrator.providerManager o
    /\ Orchestrator.getStats o = IntelligentRouter.initial_stats
    /\ IntelligentRouter.modelId (Orchestrator.router o) = "claude-3-5-haiku-20241022"
    /\ IntelligentRouter.client (Orchestrator.router o)
       = ProviderManager.ANTHROPIC_API_KEY env
    /\ (Orchestrator.isReady o = false ->
        forall ctx w0,
          exists o', outcome (Orchestrator.process o ctx w0)
                     = Ok (Throw ProviderManager.NoProviders, o')).
Proof.
  unfold Orchestrator.new.
  set (providers_cfg := match config with
                        | Some c => Orchestrator.cfg_providers c
                        | None => None
                        end).
  set (router_cfg := match config with
                     | Some c => Orchestrator.cfg_router c
                     | None => None
                     end).
  destruct (ProviderManager_new_run env providers_cfg w)
    as (pm & ev1 & Hpm & Hq1).
  destruct (IntelligentRouter_new_run (ProviderManager.ANTHROPIC_API_KEY env)
                                      router_cfg w)
    as (r & ev2 & Hr & Hq2 & Hclient & Hmodel & Hstats).
  unfold bind at 1. rewrite Hpm.
  unfold bind at 1. rewrite Hr.
  unfold bind, RouteExecutor.new, ret. cbn.
  do 2 eexists. split; [reflexivity |].
  cbn [Orchestrator.executor Orchestrator.providerManager Orchestrator.router
       RouteExecutor.providerManager].
  split.
  { rewrite !app_nil_r, remote_calls_app, Hq1, Hq2. reflexivity. }
  split; [reflexivity |].
  split; [exact Hstats |]. split; [exact Hmodel |]. split; [exact Hclient |].
  unfold Orchestrator.isReady, ProviderManager.isAvailable.
  cbn [Orchestrator.providerManager].
  intros Hready ctx w0.
  assert (Hnone : ProviderManager.providers pm = [])
    by (destruct (ProviderManager.providers pm); [reflexivity | discriminate]).
  match goal with
  | |- exists o', outcome (Orchestrator.process ?o _ _) = _ => set (orch := o)
  end.
  destruct (route_run (Orchestrator.router orch) (router_input ctx) w0)
    as (d & w1 & ev & Hroute & _).
  rewrite (process_run Hroute).
  assert (Hex : RouteExecutor.execute (Orchestrator.executor orch) (route d)
                                      (with_decision ctx d) w1
                = (Throw ProviderManager.NoProviders, after_reads 2 w1, [])).
  { apply execute_failed. unfold executor_chat. apply chat_no_providers.
    exact Hnone. }
  rewrite Hex. eexists. reflexivity.
Qed.

(** ** Adapters: answers of the fallback model, and Gemini's conversation *)

(** X21. The OpenAI adapter checks the answer of its primary model only.
    When the primary request fails with status 429 or 503 and the
    fallback model's first choice has no content or empty content, the
    adapter returns an answer with empty content under the fallback
    model, with no warning; from the primary model the same response is
    an error. *)
Theorem openai_fallback_answer_unchecked
        {W : Type} (p : OpenAIProvider.t W) c msgs sys opts (w w1 w2 : W)
        e resp choice rest :
  OpenAIProvider.client p = Some c ->
  c (OpenAIProvider.build_request (OpenAIProvider.primaryModel p) msgs sys opts) w
  = (Throw e, w1) ->
  status_is e 429 || status_is e 503 = true ->
  c (OpenAIProvider.build_request (OpenAIProvider.fallbackModel p) msgs sys opts) w1
  = (Ok resp, w2) ->
  OpenAIProvider.choices resp = choice :: rest ->
  (OpenAIProvider.message_content choice = None
   \/ OpenAIProvider.message_content choice = Some "") ->
  OpenAIProvider.chat p msgs sys opts w
  = (Ok {| content := "";
           provider := OpenAIProvider.name;
           model := OpenAIProvider.fallbackModel p;
           usage := OpenAIProvider.usage_of resp |},
     w2,
     [Remote OpenAIProvider.name (OpenAIProvider.primaryModel p);
      Console LLog "[OpenAI] Primary failed, trying fallback model...";
      Remote OpenAIProvider.name (OpenAIProvider.fallbackModel p)]).
Proof.
  intros Hc Hreq Hst Hfb Hch Hempty.
  rewrite (openai_chat_primary_failed Hc Hreq), Hst.
  unfold OpenAIProvider.chatWithModel. rewrite Hc.
  unfold bind, request. rewrite Hfb, Hch. cbn.
  destruct Hempty as [-> | ->]; reflexivity.
Qed.

Lemma openai_fallback_answer_unchecked_witness :
  OpenAIProvider.chat
    (Sample.gpt_over
       (Sample.gpt_failing_then Sample.rate_limited
          [{| OpenAIProvider.message_content := None;
              OpenAIProvider.finish_reason := Some "length" |}]))
    Sample.hello "sys" None 0
  = (Ok {| content := ""; provider := "OpenAI GPT"; model := "gpt-4o-mini";
           usage := None |},
     200,
     [Remote "OpenAI GPT" "gpt-4o";
      Console LLog "[OpenAI] Primary failed, trying fallback model...";
      Remote "OpenAI GPT" "gpt-4o-mini"]).
Proof.
  refine (@openai_fallback_answer_unchecked Z
            (Sample.gpt_over
               (Sample.gpt_failing_then Sample.rate_limited
                  [{| OpenAIProvider.message_content := None;
                      OpenAIProvider.finish_reason := Some "length" |}]))
            _ Sample.hello "sys" None 0 100 200 Sample.rate_limited _ _ []
            eq_refl eq_refl eq_refl eq_refl eq_refl _).
  left. reflexivity.
Defined.

(** X22. The Gemini adapter sends the conversation as the history of all
    messages but the last, the assistant's under the role "model", and
    the last message's content as the prompt: together they are the
    contents of the messages, in order.  When the primary model answers,
    the adapter returns its text after one request; usage is absent when
    the response has no usage metadata, and a count missing from the
    metadata is reported as zero.  With no message at all the adapter
    throws before any request. *)
Theorem gemini_conversation_and_usage
        {W : Type} (p : GeminiProvider.t W) c init last sys opts (w w1 : W)
        resp txt :
  GeminiProvider.client p = Some c ->
  let req := GeminiProvider.build_request (GeminiProvider.primaryModel p)
               (init ++ [last])%list last sys opts in
  c req w = (Ok resp, w1) ->
  GeminiProvider.resp_text resp = Ok txt ->
  GeminiProvider.chat p (init ++ [last])%list sys opts w
  = (Ok {| content := txt;
           provider := GeminiProvider.name;
           model := GeminiProvider.primaryModel p;
           usage := GeminiProvider.usage_of resp |},
     w1,
     Remote GeminiProvider.name (GeminiProvider.primaryModel p)
       :: (if string_is (GeminiProvider.finishReason resp) "MAX_TOKENS"
           then [Console LWarn "[Gemini] Response truncated - MAX_TOKENS reached"]
           else []))
  /\ (map snd (GeminiProvider.req_history req) ++ [GeminiProvider.req_message req])%list
     = map msg_content (init ++ [last])%list
  /\ map fst (GeminiProvider.req_history req)
     = map (fun m => match msg_role m with user => "user" | assistant => "model" end)
           init
  /\ (GeminiProvider.usageMetadata resp = None ->
      GeminiProvider.usage_of resp = None)
  /\ (GeminiProvider.usageMetadata resp = Some (None, None) ->
      GeminiProvider.usage_of resp
      = Some {| inputTokens := Zn 0; outputTokens := Zn 0 |})
  /\ exists e,
       GeminiProvider.chat p [] sys opts w = (Throw e, w, [])
       /\ GeminiProvider.retryable e = false.
Proof.
  intros Hc req Hreq Htxt.
  assert (Hlast : rev (init ++ [last]) = last :: rev init) by apply rev_unit.
  split; [| split; [| split; [| split; [| split]]]].
  - unfold GeminiProvider.chat. rewrite Hc.
    unfold try_catch, bind, GeminiProvider.last_message. rewrite Hlast.
    unfold ret at 1. cbn [app].
    unfold request. fold req. rewrite Hreq.
    unfold when, lift. rewrite Htxt.
    destruct (string_is (GeminiProvider.finishReason resp) "MAX_TOKENS");
      cbn; reflexivity.
  - subst req. cbn [GeminiProvider.req_history GeminiProvider.req_message
                    GeminiProvider.build_request].
    rewrite removelast_last, map_map, map_app. cbn. reflexivity.
  - subst req. cbn [GeminiProvider.req_history GeminiProvider.build_request].
    rewrite removelast_last, map_map. cbn. reflexivity.
  - intros H. unfold GeminiProvider.usage_of. rewrite H. reflexivity.
  - intros H. unfold GeminiProvider.usage_of. rewrite H. reflexivity.
  - unfold GeminiProvider.chat. rewrite Hc. cbn.
    eexists. split; [reflexivity |]. vm_compute. reflexivity.
Qed.

Lemma gemini_conversation_and_usage_witness :
  outcome (GeminiProvider.chat
             (Sample.gemini_over
                (Sample.gemini_answering
                   {| GeminiProvider.resp_text := Ok "Hello";
                      GeminiProvider.finishReason := Some "MAX_TOKENS";
                      GeminiProvider.usageMetadata := None |}))
             (Sample.dialogue ++ Sample.hello)%list "sys" None 0)
  = Ok {| content := "Hello"; provider := "Google Gemini";
          model := "gemini-1.5-pro"; usage := None |}.
Proof.
  destruct (@gemini_conversation_and_usage Z
              (Sample.gemini_over
                 (Sample.gemini_answering
                    {| GeminiProvider.resp_text := Ok "Hello";
                       GeminiProvider.finishReason := Some "MAX_TOKENS";
                       GeminiProvider.usageMetadata := None |}))
              _ Sample.dialogue
              {| msg_role := user; msg_content := "What is the answer?" |}
              "sys" None 0 100 _ "Hello" eq_refl eq_refl eq_refl)
    as (Hrun & _).
  change (Sample.dialogue ++ Sample.hello)%list
    with (Sample.dialogue
          ++ [{| msg_role := user; msg_content := "What is the answer?" |}])%list.
  rewrite Hrun. reflexivity.
Defined.

(** ** Router: what a decision depends on *)

(** X23. Routing reads the query, the mode and the context of its input and
    nothing else: two inputs that differ only in their conversation
    history are routed alike, with the same request to the classifier if
    one is made.  [process] passes no context, so the routing of a
    processed query depends on its text and mode alone. *)
Theorem routing_ignores_conversation
        {W : Type} {RT : Runtime W}
        (r : IntelligentRouter.t W) (i1 i2 : RouterInput) (w : W) :
  query i1 = query i2 -> mode i1 = mode i2 -> context i1 = context i2 ->
  IntelligentRouter.classifier_request r i1 = IntelligentRouter.classifier_request r i2
  /\ IntelligentRouter.route r i1 w = IntelligentRouter.route r i2 w
  /\ (forall c1 c2 : ExecutionContext,
         ctx_query c1 = query i1 -> ctx_mode c1 = mode i1 ->
         ctx_query c2 = query i1 -> ctx_mode c2 = mode i1 ->
         IntelligentRouter.route r (router_input c1) w
         = IntelligentRouter.route r (router_input c2) w).
Proof.
  assert (Hgen : forall a b : RouterInput,
             query a = query b -> mode a = mode b -> context a = context b ->
             IntelligentRouter.classifier_request r a
             = IntelligentRouter.classifier_request r b
             /\ IntelligentRouter.route r a w = IntelligentRouter.route r b w).
  { intros [q1 m1 h1 x1] [q2 m2 h2 x2]. cbn. intros -> -> ->.
    split; reflexivity. }
  intros Hq Hm Hx. destruct (Hgen i1 i2 Hq Hm Hx) as [Hreq Hroute].
  split; [exact Hreq |]. split; [exact Hroute |].
  intros c1 c2 Hq1 Hm1 Hq2 Hm2.
  apply Hgen; unfold router_input; cbn; congruence.
Qed.

Lemma routing_ignores_conversation_witness :
  IntelligentRouter.route (RT:=Sample.runtime) Sample.offline_router
    {| query := "tabs vs spaces"; mode := None;
       conversationHistory := Some Sample.dialogue; context := None |} 1000
  = IntelligentRouter.route (RT:=Sample.runtime) Sample.offline_router
      (Sample.ask "tabs vs spaces" None) 1000.
Proof.
  exact (proj1 (proj2 (@routing_ignores_conversation Z Sample.runtime
                         Sample.offline_router
                         {| query := "tabs vs spaces"; mode := None;
                            conversationHistory := Some Sample.dialogue;
                            context := None |}
                         (Sample.ask "tabs vs spaces" None) 1000
                         eq_refl eq_refl eq_refl))).
Defined.

(** ** Route executor: what the route contributes *)

(** X24. [execute] asks the Provider Manager with the messages, a system
    prompt, and the temperature and token limit of the route; the
    route's primary model and fallback chain are not part of the call.
    Two routes with the same temperature and limit, run with the same
    system prompt, therefore make the same requests and end alike, with
    the same answer, model, provider and costs, whatever their primary
    models are. *)
Theorem route_models_are_not_used
        {W : Type} {RT : Runtime W}
        (ex : RouteExecutor.t W) (r1 r2 : RouteType) (ctx : ExecutionContext)
        (w : W) :
  rc_temperature (getRouteConfig r1) = rc_temperature (getRouteConfig r2) ->
  rc_maxTokens (getRouteConfig r1) = rc_maxTokens (getRouteConfig r2) ->
  executor_prompt ex r1 ctx = executor_prompt ex r2 ctx ->
  match RouteExecutor.execute ex r1 ctx w, RouteExecutor.execute ex r2 ctx w with
  | (Throw e1, w1, ev1), (Throw e2, w2, ev2) => e1 = e2 /\ w1 = w2 /\ ev1 = ev2
  | (Ok a, w1, ev1), (Ok b, w2, ev2) =>
      w1 = w2 /\ ev1 = ev2
      /\ answer a = answer b
      /\ res_model a = res_model b
      /\ res_provider a = res_provider b
      /\ cost_inputTokens (costs a) = cost_inputTokens (costs b)
      /\ cost_outputTokens (costs a) = cost_outputTokens (costs b)
      /\ estimated (costs a) = estimated (costs b)
      /\ res_route a = r1 /\ res_route b = r2
  | _, _ => False
  end.
Proof.
  intros Ht Hm Hp.
  assert (Hchat : executor_chat ex r1 ctx w = executor_chat ex r2 ctx w).
  { unfold executor_chat, executor_options. rewrite Ht, Hm, Hp. reflexivity. }
  destruct (executor_chat ex r2 ctx w) as [[[result | e] w3] ev] eqn:H2.
  - destruct (execute_answered Hchat)
      as (a & Ha & Hans1 & Hrt1 & Hmod1 & Hprov1 & _ & _ & Hest1 & _).
    destruct (execute_answered H2)
      as (b & Hb & Hans2 & Hrt2 & Hmod2 & Hprov2 & _ & _ & Hest2 & _).
    destruct (execute_accounting Hchat) as (a' & Ha' & Hin1 & Hout1 & _).
    destruct (execute_accounting H2) as (b' & Hb' & Hin2 & Hout2 & _).
    rewrite Ha in Ha'. injection Ha' as <-.
    rewrite Hb in Hb'. injection Hb' as <-.
    rewrite Ha, Hb.
    assert (Hin : cost_inputTokens (costs a) = cost_inputTokens (costs b)).
    { rewrite Hin1, Hin2. unfold estimated_input. rewrite Hp. reflexivity. }
    assert (Hout : cost_outputTokens (costs a) = cost_outputTokens (costs b))
      by (rewrite Hout1, Hout2; reflexivity).
    repeat split; try congruence.
  - rewrite (execute_failed Hchat), (execute_failed H2). repeat split.
Qed.

Lemma route_models_are_not_used_witness :
  rc_primaryModel (getRouteConfig deep) = "claude-opus-4"
  /\ rc_primaryModel (getRouteConfig research) = "gemini-1.5-pro"
  /\ match
       RouteExecutor.execute (RT:=Sample.runtime)
         (Sample.executor_of Sample.pm_one_up) deep (Sample.prompted "Be brief.") 0,
       RouteExecutor.execute (RT:=Sample.runtime)
         (Sample.executor_of Sample.pm_one_up) research (Sample.prompted "Be brief.") 0
     with
     | (Throw e1, w1, ev1), (Throw e2, w2, ev2) => e1 = e2 /\ w1 = w2 /\ ev1 = ev2
     | (Ok a, w1, ev1), (Ok b, w2, ev2) =>
         w1 = w2 /\ ev1 = ev2
         /\ answer a = answer b
         /\ res_model a = res_model b
         /\ res_provider a = res_provider b
         /\ cost_inputTokens (costs a) = cost_inputTokens (costs b)
         /\ cost_outputTokens (costs a) = cost_outputTokens (costs b)
         /\ estimated (costs a) = estimated (costs b)
         /\ res_route a = deep /\ res_route b = research
     | _, _ => False
     end.
Proof.
  split; [reflexivity |]. split; [reflexivity |].
  exact (@route_models_are_not_used Z Sample.runtime
           (Sample.executor_of Sample.pm_one_up) deep research
           (Sample.prompted "Be brief.") 0 eq_refl eq_refl eq_refl).
Defined.

(** ** Model registry: the route table against the model table *)

(** X25. The keys of [MODELS] are distinct, and every route is configured
    under its own name with models of the table: [getRouteModel]
    returns the model under the route's primary key, and
    [getRouteFallbacks] drops no key of the fallback chain, which does
    not repeat the primary.  The token limit of every route is not zero,
    so that it, and not an adapter's default, is the limit of every
    request made for [execute]. *)
Theorem route_table_resolves (rt : RouteType) :
  NoDup (map fst MODELS)
  /\ rc_name (getRouteConfig rt) = rt
  /\ (exists m, getRouteModel rt = Ok m
                /\ In (rc_primaryModel (getRouteConfig rt), m) MODELS)
  /\ List.length (getRouteFallbacks rt)
     = List.length (fallbackChain (getRouteConfig rt))
  /\ ~ In (rc_primaryModel (getRouteConfig rt)) (fallbackChain (getRouteConfig rt))
  /\ (forall forJson plain,
         max_tokens (executor_options rt) forJson plain
         = rc_maxTokens (getRouteConfig rt)).
Proof.
  split.
  { cbn. repeat constructor; cbn; intuition discriminate. }
  destruct rt; (split; [reflexivity |]); (split; [eexists; split; [reflexivity |];
    cbn; tauto |]); (split; [reflexivity |]);
    (split; [cbn; intuition discriminate |]); intros forJson plain;
    unfold max_tokens, executor_options; cbn [maxTokens];
    match goal with
    | |- num_or ?n _ = _ =>
        assert (Hn : num_eqb n (Zn 0) = false) by (vm_compute; reflexivity)
    end;
    unfold num_or; rewrite Hn; reflexivity.
Qed.

(** ** Route executor: the estimate by kind of model identifier *)

Lemma inherited_names_are_no_keys (key : string) :
  In key Object_prototype_names -> property key MODELS = Inherited.
Proof.
  intros H. cbn in H.
  repeat (destruct H as [<- | H]; [vm_compute; reflexivity |]).
  contradiction.
Qed.

(** X26. Whenever the Provider Manager answers, [execute] returns a
    result, under the model identifier of the answer; its estimated cost
    is that of its token counts at the default USD 3.00 and USD 15.00
    per million when the identifier is neither a key of [MODELS] nor a
    name every object inherits, at the prices of the table when it is a
    key, and [NaN] when it is an inherited name. *)
Theorem estimate_by_model_identifier
        {W : Type} {RT : Runtime W}
        (ex : RouteExecutor.t W) (route : RouteType)
        (context : ExecutionContext) (w : W) result w3 ev :
  executor_chat ex route context w = (Ok result, w3, ev) ->
  exists res,
    RouteExecutor.execute ex route context w = (Ok res, after_reads 2 w3, ev)
    /\ res_model res = model result
    /\ (property (model result) MODELS = Missing ->
        estimated (costs res)
        = default_price (cost_inputTokens (costs res))
                        (cost_outputTokens (costs res)))
    /\ (forall cfg,
           lookup (model result) MODELS = Some cfg ->
           estimated (costs res)
           = table_price cfg (cost_inputTokens (costs res))
                         (cost_outputTokens (costs res)))
    /\ (In (model result) Object_prototype_names ->
        estimated (costs res) = F64.nan).
Proof.
  intros H.
  destruct (execute_answered H)
    as (res & Hrun & _ & _ & Hmodel & _ & _ & _ & Hcost & _).
  exists res. split; [exact Hrun |]. split; [exact Hmodel |].
  rewrite Hcost, estimateCostFromTokens_cases.
  split; [| split].
  - intros ->. reflexivity.
  - intros cfg Hcfg. unfold property. rewrite Hcfg. reflexivity.
  - intros Hin. rewrite (inherited_names_are_no_keys Hin). reflexivity.
Qed.

Lemma estimate_by_model_identifier_witness :
  exists res,
    RouteExecutor.execute (RT:=Sample.runtime)
      (Sample.executor_of (Sample.pm_answering_as "my-fine-tune"))
      standard (Sample.context_with None) 0
    = (Ok res, 104,
       [trying (Sample.up "C" "my-fine-tune"); Remote "C" "my-fine-tune";
        succeeded (Sample.up "C" "my-fine-tune")])
    /\ res_model res = "my-fine-tune"
    /\ estimated (costs res)
       = default_price (cost_inputTokens (costs res))
                       (cost_outputTokens (costs res)).
Proof.
  destruct (@estimate_by_model_identifier Z Sample.runtime
              (Sample.executor_of (Sample.pm_answering_as "my-fine-tune"))
              standard (Sample.context_with None) 0
              {| content := "42"; provider := "C"; model := "my-fine-tune";
                 usage := Some {| inputTokens := Zn 12;
                                  outputTokens := Zn 3 |} |}
              102
              [trying (Sample.up "C" "my-fine-tune");
               Remote "C" "my-fine-tune";
               succeeded (Sample.up "C" "my-fine-tune")]
              eq_refl)
    as (res & Hrun & Hmodel & Hdflt & _).
  exists res. split; [exact Hrun |]. split; [exact Hmodel |].
  apply Hdflt. vm_compute. reflexivity.
Defined.
